(** * mediaAI: the TuneIn directory client, the stream resolver and the player

    A shallow embedding of [src/tunein_api.py] and [src/mediaAI.py].

    - Python [bytes] are lists of [byte], Python [str] values are lists of
      Unicode code points ([N]); the literals of the source are written
      [py "..."] and [b_ "..."].
    - The builtins the source calls ([bytes.decode('utf-8')],
      [str.startswith], [str.splitlines], [str.split], list indexing) are
      given their CPython meaning in [Module Py].
    - Exceptions are values of [exn]; a computation that can raise returns an
      [outcome]; code with side effects (files, standard output, network,
      widgets) threads a state and keeps the effects made before a raise.
    - What the program does not contain is a parameter, the record [env]:
      the answers of the network, the XML parser, the JSON parser.
    - The Qt objects are modelled by the properties the code reads back and
      by the calls it makes on the media player. A signal connected in
      [__init__] runs its slot at the point where Qt emits it: when the
      value of a slider or the current index of a combo box changes.
    - Python [float] values are binary64 floats. *)

From Stdlib Require Import ZArith NArith List Lia.
From Stdlib.Strings Require Import String Ascii Byte.
From Stdlib Require Import PrimFloat FloatOps SpecFloat.
From stdpp Require Import gmap strings list.

Set Warnings "-register-all".
Local Open Scope N_scope.

(** ** Exceptions and results *)

(** The subclasses of [requests.RequestException] the transport can raise. *)
Inductive request_error :=
| ConnectionError
| Timeout
| HTTPError (status : Z)
| MissingSchema.

(** The Python exception classes that occur in the two source files. *)
Inductive exn :=
| RequestException (e : request_error)
| ParseError               (* xml.etree.ElementTree.ParseError *)
| UnicodeDecodeError
| IndexError
| KeyError
| AttributeError
| TypeError
| ValueError (msg : string)
| OverflowError
| JSONDecodeError          (* a subclass of ValueError *)
| FileNotFoundError.       (* a subclass of OSError *)

Inductive outcome (A : Type) :=
| Ret (a : A)
| Raise (e : exn).
Arguments Ret {A} a.
Arguments Raise {A} e.

(** [except requests.RequestException] *)
Definition is_RequestException (e : exn) : bool :=
  match e with RequestException _ => true | _ => false end.

(** [except FileNotFoundError] *)
Definition is_FileNotFoundError (e : exn) : bool :=
  match e with FileNotFoundError => true | _ => false end.

(** ** Python builtins *)
Module Py.

Definition bytes := list byte.
Definition str := list N.

(** Source literals: ["..."] and [b"..."] (ASCII only in this program). *)
Definition b_ (s : string) : bytes := list_byte_of_string s.
Definition py (s : string) : str := map Byte.to_N (list_byte_of_string s).

Definition byte_of_N (n : N) : byte :=
  match Byte.of_N n with Some b => b | None => x00 end.

(** *** UTF-8 *)

(** A continuation byte, 0x80..0xBF. *)
Definition is_cont (x : N) : bool := (128 <=? x) && (x <=? 191).

(** The range allowed for the byte that follows a three-byte lead: 0xE0
    excludes over-long forms, 0xED excludes the surrogates. *)
Definition second_of_3_ok (lead x : N) : bool :=
  if lead =? 224 then (160 <=? x) && (x <=? 191)
  else if lead =? 237 then (128 <=? x) && (x <=? 159)
  else is_cont x.

(** The range allowed for the byte that follows a four-byte lead: 0xF0
    excludes over-long forms, 0xF4 excludes code points above U+10FFFF. *)
Definition second_of_4_ok (lead x : N) : bool :=
  if lead =? 240 then (144 <=? x) && (x <=? 191)
  else if lead =? 244 then (128 <=? x) && (x <=? 143)
  else is_cont x.

(** [content.decode('utf-8')], strict error handler: [None] stands for
    [UnicodeDecodeError]. *)
Fixpoint decode_utf8 (bs : bytes) : option str :=
  match bs with
  | [] => Some []
  | b0 :: r0 =>
    let x0 := Byte.to_N b0 in
    if x0 <? 128 then
      option_map (cons x0) (decode_utf8 r0)
    else if (194 <=? x0) && (x0 <=? 223) then
      match r0 with
      | b1 :: r1 =>
        let x1 := Byte.to_N b1 in
        if is_cont x1
        then option_map (cons ((x0 - 192) * 64 + (x1 - 128))) (decode_utf8 r1)
        else None
      | _ => None
      end
    else if (224 <=? x0) && (x0 <=? 239) then
      match r0 with
      | b1 :: b2 :: r2 =>
        let x1 := Byte.to_N b1 in
        let x2 := Byte.to_N b2 in
        if second_of_3_ok x0 x1 && is_cont x2
        then option_map
               (cons ((x0 - 224) * 4096 + (x1 - 128) * 64 + (x2 - 128)))
               (decode_utf8 r2)
        else None
      | _ => None
      end
    else if (240 <=? x0) && (x0 <=? 244) then
      match r0 with
      | b1 :: b2 :: b3 :: r3 =>
        let x1 := Byte.to_N b1 in
        let x2 := Byte.to_N b2 in
        let x3 := Byte.to_N b3 in
        if second_of_4_ok x0 x1 && is_cont x2 && is_cont x3
        then option_map
               (cons ((x0 - 240) * 262144 + (x1 - 128) * 4096
                      + (x2 - 128) * 64 + (x3 - 128)))
               (decode_utf8 r3)
        else None
      | _ => None
      end
    else None
  end.

(** A Unicode scalar value: a code point that is not a surrogate. *)
Definition is_scalar (c : N) : bool :=
  (c <? 55296) || ((57344 <=? c) && (c <? 1114112)).

(** The UTF-8 bytes of one scalar value. *)
Definition encode_char (c : N) : bytes :=
  if c <? 128 then [byte_of_N c]
  else if c <? 2048 then
    [byte_of_N (192 + c / 64); byte_of_N (128 + c mod 64)]
  else if c <? 65536 then
    [byte_of_N (224 + c / 4096); byte_of_N (128 + (c / 64) mod 64);
     byte_of_N (128 + c mod 64)]
  else
    [byte_of_N (240 + c / 262144); byte_of_N (128 + (c / 4096) mod 64);
     byte_of_N (128 + (c / 64) mod 64); byte_of_N (128 + c mod 64)].

(** [s.encode('utf-8')], strict error handler: [None] stands for
    [UnicodeEncodeError] (a lone surrogate). *)
Fixpoint encode_utf8 (s : str) : option bytes :=
  match s with
  | [] => Some []
  | c :: rest =>
    if is_scalar c
    then option_map (app (encode_char c)) (encode_utf8 rest)
    else None
  end.

(** *** str methods *)

(** [s.startswith(prefix)] *)
Fixpoint startswith (s prefix : str) {struct prefix} : bool :=
  match prefix with
  | [] => true
  | p :: prefix' =>
    match s with
    | [] => false
    | c :: s' => (c =? p) && startswith s' prefix'
    end
  end.

(** The truth value of a string: [if line]. *)
Definition truthy_str (s : str) : bool :=
  match s with [] => false | _ => true end.

(** The line boundaries of [str.splitlines]: \n \v \f \r, FS GS RS, NEL,
    LINE SEPARATOR and PARAGRAPH SEPARATOR. *)
Definition is_linebreak (c : N) : bool :=
  ((10 <=? c) && (c <=? 13)) || ((28 <=? c) && (c <=? 30))
  || (c =? 133) || (c =? 8232) || (c =? 8233).

(** The loop of [str.splitlines()] (keepends false). [acc] is the current
    line, reversed; [after_cr] says the previous character was a \r that
    closed a line, so that a \n right after it belongs to the same
    boundary. A text that ends in a boundary has no final empty line. *)
Fixpoint splitlines_from (after_cr : bool) (acc : str) (s : str) : list str :=
  match s with
  | [] => match acc with [] => [] | _ => [rev acc] end
  | c :: rest =>
    if after_cr && (c =? 10) then splitlines_from false acc rest
    else if is_linebreak c then rev acc :: splitlines_from (c =? 13) [] rest
    else splitlines_from false (c :: acc) rest
  end.

Definition splitlines (s : str) : list str := splitlines_from false [] s.

(** The loop of [s.split(sep, maxsplit)] for a non-empty [sep]: [skip]
    counts the characters of a separator just matched that are still to
    be passed over. *)
Fixpoint split_from (sep : str) (skip maxsplit : nat) (acc : str) (s : str)
  : list str :=
  match s with
  | [] => [rev acc]
  | c :: rest =>
    match skip with
    | S k => split_from sep k maxsplit acc rest
    | O =>
      match maxsplit with
      | O => [rev acc ++ s]
      | S m =>
        if startswith s sep
        then rev acc :: split_from sep (length sep - 1) m [] rest
        else split_from sep O maxsplit (c :: acc) rest
      end
    end
  end.

(** [s.split(sep, maxsplit)]; an empty separator is a [ValueError]. *)
Definition split (s sep : str) (maxsplit : nat) : outcome (list str) :=
  match sep with
  | [] => Raise (ValueError "empty separator")
  | _ => Ret (split_from sep O maxsplit [] s)
  end.

(** [l[i]] for a non-negative constant index. *)
Definition getitem {A} (l : list A) (i : nat) : outcome A :=
  match nth_error l i with
  | Some x => Ret x
  | None => Raise IndexError
  end.

End Py.
Export Py.

(** ** Python values *)

(** A station as [parse_xml] builds it: a dict from the thirteen keys to the
    attribute value or [None]. *)
Abbreviation station := (gmap string (option str)).

(** The values [json.load] produces, which are also the values the player
    keeps in its attributes. A [JDict] lists the items of a dict, whose keys
    are distinct. *)
Inductive json :=
| JNull
| JBool (b : bool)
| JInt (z : Z)
| JFloat (f : float)
| JStr (s : str)
| JList (l : list json)
| JDict (items : list (str * json)).

Definition str_eqb (a b : str) : bool := bool_decide (a = b).

(** [if v:] *)
Definition truthy (v : json) : bool :=
  match v with
  | JNull => false
  | JBool b => b
  | JInt z => negb (z =? 0)%Z
  | JFloat f => negb (PrimFloat.eqb f 0)
  | JStr s => truthy_str s
  | JList l => match l with [] => false | _ => true end
  | JDict items => match items with [] => false | _ => true end
  end.

(** A Python number: an [int] (a [bool] counts as 0 or 1) or a [float]. *)
Inductive number :=
| NumInt (z : Z)
| NumFloat (f : float).

(** The value as a number; [TypeError] for anything else, which is what a
    Qt setter that expects a number answers. *)
Definition as_number (v : json) : outcome number :=
  match v with
  | JBool b => Ret (NumInt (Z.b2z b))
  | JInt z => Ret (NumInt z)
  | JFloat f => Ret (NumFloat f)
  | _ => Raise TypeError
  end.

(** The float nearest to an integer. *)
Definition float_of_Z (z : Z) : float :=
  SF2Prim (binary_normalize 53 1024 z 0 false).

(** Conversion to a C [double]: an [int] too large for it overflows. *)
Definition to_double (n : number) : outcome float :=
  match n with
  | NumFloat f => Ret f
  | NumInt z =>
    if PrimFloat.is_infinity (float_of_Z z) then Raise OverflowError
    else Ret (float_of_Z z)
  end.

(** [n * k] for an [int] literal [k]. *)
Definition number_mul_int (n : number) (k : Z) : number :=
  match n with
  | NumInt z => NumInt (z * k)
  | NumFloat f => NumFloat (f * float_of_Z k)
  end.

(** [int(n)]: truncation towards zero; infinities and NaN raise. *)
Definition int_of_number (n : number) : outcome Z :=
  match n with
  | NumInt z => Ret z
  | NumFloat f =>
    match Prim2SF f with
    | S754_zero _ => Ret 0%Z
    | S754_infinity _ => Raise OverflowError
    | S754_nan => Raise (ValueError "cannot convert float NaN to integer")
    | S754_finite sign m e => Ret (cond_Zopp sign (Z.shiftl (Z.pos m) e))
    end
  end.

(** [a / b] on two [int] values of moderate size. *)
Definition int_truediv (a b : Z) : float := float_of_Z a / float_of_Z b.

(** Conversion to a C [int]. *)
Definition to_c_int (z : Z) : outcome Z :=
  if ((-2147483648 <=? z) && (z <=? 2147483647))%Z then Ret z
  else Raise OverflowError.

(** A [str] argument of a Qt method: [None] is taken as the null string. *)
Definition as_qstring (v : json) : outcome str :=
  match v with
  | JStr s => Ret s
  | JNull => Ret []
  | _ => Raise TypeError
  end.

(** [d.get(key, default)]; a value that is not a dict has no [get]. *)
Definition dict_get (d : json) (key : str) (default : json) : outcome json :=
  match d with
  | JDict items =>
    match List.find (fun kv => str_eqb (fst kv) key) items with
    | Some (_, v) => Ret v
    | None => Ret default
    end
  | _ => Raise AttributeError
  end.

(** [l[i]] for a list and any index value: negative indices count from the
    end. *)
Definition list_getitem {A} (l : list A) (i : json) : outcome A :=
  match i with
  | JInt _ | JBool _ =>
    let z := match i with JInt z => z | JBool b => Z.b2z b | _ => 0%Z end in
    let n := Z.of_nat (length l) in
    let k := if (z <? 0)%Z then (z + n)%Z else z in
    if ((0 <=? k) && (k <? n))%Z
    then match nth_error l (Z.to_nat k) with
         | Some x => Ret x
         | None => Raise IndexError
         end
    else Raise IndexError
  | _ => Raise TypeError
  end.

(** [d[key]] for a station dict. *)
Definition station_getitem (d : station) (key : string) : outcome (option str) :=
  match d !! key with
  | Some v => Ret v
  | None => Raise KeyError
  end.

(** ** xml.etree.ElementTree *)
Module ET.

(** An element: its tag, its attributes (distinct names) and its child
    elements in document order. *)
Inductive Element :=
| Elem (tag : str) (attrib : list (str * str)) (children : list Element).

Definition tag (e : Element) : str := let 'Elem t _ _ := e in t.
Definition attrib (e : Element) : list (str * str) := let 'Elem _ a _ := e in a.
Definition children (e : Element) : list Element := let 'Elem _ _ c := e in c.

(** [e.get(key)]: the attribute value, or [None]. *)
Definition get (e : Element) (key : str) : option str :=
  option_map snd (List.find (fun kv => str_eqb (fst kv) key) (attrib e)).

(** [e.iter()]: the element and everything below it, in document order. *)
Fixpoint iter (e : Element) : list Element :=
  match e with
  | Elem _ _ cs => e :: flat_map iter cs
  end.

(** The path step [.//]: everything strictly below the element. *)
Definition descendants (e : Element) : list Element :=
  flat_map iter (children e).

(** The predicate of the path [outline[@type='audio']]. *)
Definition is_outline_audio (e : Element) : bool :=
  str_eqb (tag e) (py "outline")
  && match get e (py "type") with
     | Some v => str_eqb v (py "audio")
     | None => false
     end.

(** [root.findall(".//outline[@type='audio']")] *)
Definition findall_outline_audio (root : Element) : list Element :=
  List.filter is_outline_audio (descendants root).

End ET.

(** ** The world outside the program *)

(** What [requests.get] does: raise, or hand back a response. *)
Inductive http_outcome :=
| HttpFailure (e : request_error)
| HttpResponse (status_code : Z) (content : bytes).

Record Response := { status_code : Z; content : bytes }.

(** The libraries and the network the program runs against.
    [http_get n url params] is the outcome of the [n]-th request the process
    makes; [xml_fromstring] is [ET.fromstring] ([None]: [ParseError]);
    [json_load] is [json.load] on the bytes of a file ([None]: the file is
    not a JSON text); [noise_wav] is the file [soundfile.write] makes of
    the random samples. *)
Record env := {
  http_get : nat -> str -> list (str * json) -> http_outcome;
  xml_fromstring : bytes -> option ET.Element;
  json_load : bytes -> option json;
  noise_wav : bytes;
}.

(** What a file holds: bytes, or the text that [json.dump] wrote for a
    value, which [json.load] reads back as that value. *)
Inductive file_content :=
| RawBytes (data : bytes)
| JsonDump (value : json).

(** The lines the program prints, with the values it formats into them. *)
Inductive log_line :=
| LogResponseContent (content : bytes)
| LogErrorSearching (e : exn)
| LogErrorStreamUrl (e : exn)
| LogFetchedStations (stations : list station)
| LogExtractedUrls (urls : list (option str))
| LogErrorFetching (e : exn)
| LogPopulated (n : nat)
| LogSettingChannel (url : option str)
| LogResolved (url : str)
| LogErrorSettingChannel (e : exn)
| LogPlayingNoise
| LogPlayClicked
| LogPauseClicked
| LogVolumeChanged (value : Z)
| LogSpeedChanged (value : Z)
| LogSlotException (e : exn).

(** The state of the process outside the Python objects: the files of the
    working directory, what was printed so far, and how many HTTP requests
    were made. Opening a file for writing always succeeds. *)
Record sys := {
  sys_files : gmap string file_content;
  sys_stdout : list log_line;
  sys_requests : nat;
}.

(** ** Computations with state and exceptions *)

(** A computation over a state [S]: it returns or raises, and in both cases
    leaves the state its effects produced. *)
Definition M (S A : Type) : Type := S -> outcome A * S.

Definition ret {S A} (a : A) : M S A := fun s => (Ret a, s).
Definition raise {S A} (e : exn) : M S A := fun s => (Raise e, s).
Definition bind {S A B} (c : M S A) (k : A -> M S B) : M S B :=
  fun s => match c s with
           | (Ret a, s') => k a s'
           | (Raise e, s') => (Raise e, s')
           end.

(** [try: c  except <handles> as e: h e] *)
Definition try_except {S A} (c : M S A) (handles : exn -> bool)
           (h : exn -> M S A) : M S A :=
  fun s => match c s with
           | (Ret a, s') => (Ret a, s')
           | (Raise e, s') => if handles e then h e s' else (Raise e, s')
           end.

(** [except Exception] *)
Definition is_Exception (e : exn) : bool := true.

Definition lift_outcome {S A} (o : outcome A) : M S A := fun s => (o, s).
Definition modify {S} (f : S -> S) : M S unit := fun s => (Ret tt, f s).
Definition gets {S A} (f : S -> A) : M S A := fun s => (Ret (f s), s).

Declare Scope py_scope.
Delimit Scope py_scope with py.
Notation "x <- c1 ;; c2" := (bind c1 (fun x => c2))
  (at level 100, c1 at next level, right associativity) : py_scope.
Notation "c1 ;; c2" := (bind c1 (fun _ => c2))
  (at level 100, right associativity) : py_scope.
Local Open Scope py_scope.

(** [print(...)] *)
Definition print (l : log_line) : M sys unit :=
  modify (fun s => {| sys_files := sys_files s;
                      sys_stdout := sys_stdout s ++ [l];
                      sys_requests := sys_requests s |}).

(** [with open(name, "wb") as f: f.write(data)], and the text-mode
    equivalent: the file is replaced by [data]. *)
Definition write_file (name : string) (data : file_content) : M sys unit :=
  modify (fun s => {| sys_files := <[name := data]> (sys_files s);
                      sys_stdout := sys_stdout s;
                      sys_requests := sys_requests s |}).

(** [open(name, 'r')] and reading the whole file. *)
Definition read_file (name : string) : M sys file_content :=
  fun s => match sys_files s !! name with
           | Some data => (Ret data, s)
           | None => (Raise FileNotFoundError, s)
           end.

(** [for x in l: body x] *)
Fixpoint for_each {S A} (l : list A) (body : A -> M S unit) : M S unit :=
  match l with
  | [] => ret tt
  | x :: l' => body x ;; for_each l' body
  end.

(** A status for which [raise_for_status] raises: 4xx or 5xx. *)
Definition is_error_status (status : Z) : bool :=
  ((400 <=? status) && (status <? 600))%Z.

(** ** tunein_api.py *)
Module TuneInAPI.

(** The body of the M3U loop: the first line that is non-empty and does
    not start with [#] is returned. *)
Fixpoint m3u_loop (lines : list str) : option str :=
  match lines with
  | [] => None
  | line :: rest =>
    if truthy_str line && negb (startswith line (py "#"))
    then Some line
    else m3u_loop rest
  end.

(** The body of the PLS loop: at the first line that starts with [File1=]
    the function returns [line.split("=", 1)[1]]. *)
Fixpoint pls_loop (lines : list str) : option (outcome str) :=
  match lines with
  | [] => None
  | line :: rest =>
    if startswith line (py "File1=")
    then Some (match split line (py "=") 1 with
               | Ret parts => getitem parts 1
               | Raise e => Raise e
               end)
    else pls_loop rest
  end.

Definition resolve_stream_url (content : bytes) : outcome str :=
  match decode_utf8 content with
  | None => Raise UnicodeDecodeError
  | Some content_str =>
    if startswith content_str (py "#EXTM3U") then
      match m3u_loop (splitlines content_str) with
      | Some line => Ret line
      | None => Ret content_str
      end
    else if startswith content_str (py "[playlist]") then
      match pls_loop (splitlines content_str) with
      | Some r => r
      | None => Ret content_str
      end
    else Ret content_str
  end.


Definition BASE_URL : str := py "http://opml.radiotime.com/".

(** The keys of the dict literal in [parse_xml]. *)
Definition station_keys : list string :=
  ["text"; "URL"; "bitrate"; "reliability"; "guide_id"; "subtext";
   "genre_id"; "formats"; "item"; "image"; "current_track";
   "now_playing_id"; "preset_id"].

(** The dict literal in [parse_xml]. *)
Definition station_of (outline : ET.Element) : station :=
  list_to_map
    [("text", ET.get outline (py "text"));
     ("URL", ET.get outline (py "URL"));
     ("bitrate", ET.get outline (py "bitrate"));
     ("reliability", ET.get outline (py "reliability"));
     ("guide_id", ET.get outline (py "guide_id"));
     ("subtext", ET.get outline (py "subtext"));
     ("genre_id", ET.get outline (py "genre_id"));
     ("formats", ET.get outline (py "formats"));
     ("item", ET.get outline (py "item"));
     ("image", ET.get outline (py "image"));
     ("current_track", ET.get outline (py "current_track"));
     ("now_playing_id", ET.get outline (py "now_playing_id"));
     ("preset_id", ET.get outline (py "preset_id"))].

Section WithEnv.
Variable E : env.

(** [requests.get(url, params=params)] *)
Definition requests_get (url : str) (params : list (str * json))
  : M sys Response :=
  fun s =>
    let s' := {| sys_files := sys_files s;
                 sys_stdout := sys_stdout s;
                 sys_requests := S (sys_requests s) |} in
    match http_get E (sys_requests s) url params with
    | HttpFailure e => (Raise (RequestException e), s')
    | HttpResponse st c => (Ret {| status_code := st; content := c |}, s')
    end.

(** [response.raise_for_status()]: [HTTPError] for a 4xx or 5xx status. *)
Definition raise_for_status (response : Response) : M sys unit :=
  if is_error_status (status_code response)
  then raise (RequestException (HTTPError (status_code response)))
  else ret tt.

Definition parse_xml (xml_content : bytes) : M sys (list station) :=
  match xml_fromstring E xml_content with
  | None => raise ParseError
  | Some root =>
    ret (fold_left
           (fun stations outline => stations ++ [station_of outline])
           (ET.findall_outline_audio root) [])
  end.

Definition search_stations (query : json) : M sys (list station) :=
  try_except
    (response <- requests_get (BASE_URL ++ py "Search.ashx")
                              [(py "query", query)] ;;
     raise_for_status response ;;
     print (LogResponseContent (content response)) ;;
     write_file "response_content.xml" (RawBytes (content response)) ;;
     parse_xml (content response))
    is_RequestException
    (fun e => print (LogErrorSearching e) ;; ret []).

Definition get_station_stream_url (station_id : json) : M sys str :=
  try_except
    (response <- requests_get (BASE_URL ++ py "Tune.ashx")
                              [(py "id", station_id)] ;;
     raise_for_status response ;;
     lift_outcome (resolve_stream_url (content response)))
    is_RequestException
    (fun e => print (LogErrorStreamUrl e) ;; ret (py "")).

End WithEnv.

End TuneInAPI.

(** ** mediaAI.py *)
Module StreamPlayer.
Import TuneInAPI.
Local Open Scope Z_scope.

Inductive QUrl :=
| QUrl_of (url : str)
| QUrl_fromLocalFile (path : string).

Inductive media_call :=
| SetSource (source : QUrl)
| Play
| Pause.

Inductive widget :=
| PlayPauseButton
| VolumeSlider
| SpeedSlider
| CategoryComboBox
| ChannelComboBox.

(** The window object: the state of its Qt children that the code reads
    or writes, and its Python attributes. *)
Record player := mk_player {
  audio_volume : float;   (* [audio_output.volume()] *)
  playback_rate : float;   (* [player.playbackRate()] *)
  media_calls : list media_call;   (* the [setSource]/[play]/[pause] calls made on [player], oldest first *)
  play_pause_text : string;   (* the label of [play_pause_button] *)
  volume_slider : Z;   (* [volume_slider.value()], range 0..100 *)
  speed_slider : Z;   (* [speed_slider.value()], range -10..10 *)
  category_index : Z;   (* [category_combo_box.currentIndex()] *)
  channel_items : list (str * option str);   (* the items of [channel_combo_box]: text and user data *)
  channel_index : Z;   (* [channel_combo_box.currentIndex()] *)
  focus : option widget;   (* the widget that was last given the focus *)
  dialogs : list exn;   (* the error dialogs shown; the text of each is [str(e)] *)
  current_channel_index : json;   (* [self.current_channel_index] *)
  is_playing : json;   (* [self.is_playing] *)
  channels : list station;   (* [self.channels] *)
  process : sys;   (* files, standard output and network of the process *)
}.

Definition set_audio_volume (v : float) (p : player) : player :=
  let 'mk_player f0 f1 f2 f3 f4 f5 f6 f7 f8 f9 f10 f11 f12 f13 f14 := p in
  mk_player v f1 f2 f3 f4 f5 f6 f7 f8 f9 f10 f11 f12 f13 f14.
Definition set_playback_rate (v : float) (p : player) : player :=
  let 'mk_player f0 f1 f2 f3 f4 f5 f6 f7 f8 f9 f10 f11 f12 f13 f14 := p in
  mk_player f0 v f2 f3 f4 f5 f6 f7 f8 f9 f10 f11 f12 f13 f14.
Definition set_media_calls (v : list media_call) (p : player) : player :=
  let 'mk_player f0 f1 f2 f3 f4 f5 f6 f7 f8 f9 f10 f11 f12 f13 f14 := p in
  mk_player f0 f1 v f3 f4 f5 f6 f7 f8 f9 f10 f11 f12 f13 f14.
Definition set_play_pause_text (v : string) (p : player) : player :=
  let 'mk_player f0 f1 f2 f3 f4 f5 f6 f7 f8 f9 f10 f11 f12 f13 f14 := p in
  mk_player f0 f1 f2 v f4 f5 f6 f7 f8 f9 f10 f11 f12 f13 f14.
Definition set_volume_slider (v : Z) (p : player) : player :=
  let 'mk_player f0 f1 f2 f3 f4 f5 f6 f7 f8 f9 f10 f11 f12 f13 f14 := p in
  mk_player f0 f1 f2 f3 v f5 f6 f7 f8 f9 f10 f11 f12 f13 f14.
Definition set_speed_slider (v : Z) (p : player) : player :=
  let 'mk_player f0 f1 f2 f3 f4 f5 f6 f7 f8 f9 f10 f11 f12 f13 f14 := p in
  mk_player f0 f1 f2 f3 f4 v f6 f7 f8 f9 f10 f11 f12 f13 f14.
Definition set_category_index (v : Z) (p : player) : player :=
  let 'mk_player f0 f1 f2 f3 f4 f5 f6 f7 f8 f9 f10 f11 f12 f13 f14 := p in
  mk_player f0 f1 f2 f3 f4 f5 v f7 f8 f9 f10 f11 f12 f13 f14.
Definition set_channel_items (v : list (str * option str)) (p : player) : player :=
  let 'mk_player f0 f1 f2 f3 f4 f5 f6 f7 f8 f9 f10 f11 f12 f13 f14 := p in
  mk_player f0 f1 f2 f3 f4 f5 f6 v f8 f9 f10 f11 f12 f13 f14.
Definition set_channel_index (v : Z) (p : player) : player :=
  let 'mk_player f0 f1 f2 f3 f4 f5 f6 f7 f8 f9 f10 f11 f12 f13 f14 := p in
  mk_player f0 f1 f2 f3 f4 f5 f6 f7 v f9 f10 f11 f12 f13 f14.
Definition set_focus (v : option widget) (p : player) : player :=
  let 'mk_player f0 f1 f2 f3 f4 f5 f6 f7 f8 f9 f10 f11 f12 f13 f14 := p in
  mk_player f0 f1 f2 f3 f4 f5 f6 f7 f8 v f10 f11 f12 f13 f14.
Definition set_dialogs (v : list exn) (p : player) : player :=
  let 'mk_player f0 f1 f2 f3 f4 f5 f6 f7 f8 f9 f10 f11 f12 f13 f14 := p in
  mk_player f0 f1 f2 f3 f4 f5 f6 f7 f8 f9 v f11 f12 f13 f14.
Definition set_current_channel_index (v : json) (p : player) : player :=
  let 'mk_player f0 f1 f2 f3 f4 f5 f6 f7 f8 f9 f10 f11 f12 f13 f14 := p in
  mk_player f0 f1 f2 f3 f4 f5 f6 f7 f8 f9 f10 v f12 f13 f14.
Definition set_is_playing (v : json) (p : player) : player :=
  let 'mk_player f0 f1 f2 f3 f4 f5 f6 f7 f8 f9 f10 f11 f12 f13 f14 := p in
  mk_player f0 f1 f2 f3 f4 f5 f6 f7 f8 f9 f10 f11 v f13 f14.
Definition set_channels (v : list station) (p : player) : player :=
  let 'mk_player f0 f1 f2 f3 f4 f5 f6 f7 f8 f9 f10 f11 f12 f13 f14 := p in
  mk_player f0 f1 f2 f3 f4 f5 f6 f7 f8 f9 f10 f11 f12 v f14.
Definition set_process (v : sys) (p : player) : player :=
  let 'mk_player f0 f1 f2 f3 f4 f5 f6 f7 f8 f9 f10 f11 f12 f13 f14 := p in
  mk_player f0 f1 f2 f3 f4 f5 f6 f7 f8 f9 f10 f11 f12 f13 v.

Definition settings_file : string := "settings.json".
Definition noise_file : string := "noise.wav".
Definition noise_url : QUrl := QUrl_fromLocalFile noise_file.

(** The items of [category_combo_box]. *)
Definition category_items : list str :=
  [py "classical"; py "rock"; py "jazz"; py "pop"; py "news"].

(** A call made by the window on the process state. *)
Definition on_sys {A} (c : M sys A) : M player A :=
  fun p => let (r, s') := c (process p) in (r, set_process s' p).

Definition log (l : log_line) : M player unit := on_sys (print l).

(** A slot run by Qt when a signal is emitted: an exception that escapes
    the slot is reported and does not reach the code that emitted. *)
Definition emit (slot : M player unit) : M player unit :=
  fun p => match slot p with
           | (Ret _, p') => (Ret tt, p')
           | (Raise e, p') => log (LogSlotException e) p'
           end.

(** *** Qt objects *)

(** A C [float]: the nearest value with a 24-bit significand. *)
Definition to_float32 (f : float) : float :=
  match Prim2SF f with
  | S754_finite sign m e => SF2Prim (binary_round 24 128 sign m e)
  | _ => f
  end.

(** [audio_output.setVolume(v)]: kept as a C [float] between 0 and 1. *)
Definition audio_output_setVolume (v : float) : M player unit :=
  let v32 := to_float32 v in
  modify (set_audio_volume
            (if PrimFloat.ltb v32 0 then 0%float
             else if PrimFloat.ltb 1 v32 then 1%float else v32)).

Definition player_call (c : media_call) : M player unit :=
  fun p => (Ret tt, set_media_calls (media_calls p ++ [c]) p).

(** [combo.itemText(index)]: empty for an index out of range. *)
Definition itemText {A} (items : list (str * A)) (index : Z) : str :=
  if index <? 0 then []
  else match nth_error items (Z.to_nat index) with
       | Some (text, _) => text
       | None => []
       end.

(** [combo.itemData(index)]: [None] for an index out of range. *)
Definition itemData (items : list (str * option str)) (index : Z)
  : option str :=
  if index <? 0 then None
  else match nth_error items (Z.to_nat index) with
       | Some (_, data) => data
       | None => None
       end.

(** [combo.findText(text)]: the first index with that text, or -1. *)
Fixpoint findText (items : list str) (text : str) (from : Z) : Z :=
  match items with
  | [] => -1
  | t :: items' =>
    if str_eqb t text then from else findText items' text (from + 1)
  end.

Definition category_currentText (p : player) : str :=
  itemText (map (fun t => (t, tt)) category_items) (category_index p).

Section WithEnv.
Variable E : env.

Definition generate_noise : M player unit :=
  on_sys (write_file noise_file (RawBytes (noise_wav E))).

Definition save_settings : M player unit :=
  p <- gets id ;;
  let settings :=
    JDict [(py "volume", JFloat (audio_volume p));
           (py "playbackRate", JFloat (playback_rate p));
           (py "currentChannelIndex", current_channel_index p);
           (py "isPlaying", is_playing p);
           (py "currentCategory", JStr (category_currentText p))] in
  on_sys (write_file settings_file (JsonDump settings)).

Definition play : M player unit :=
  log LogPlayClicked ;;
  player_call Play ;;
  modify (set_is_playing (JBool true)) ;;
  modify (set_play_pause_text "Pause") ;;
  save_settings.

Definition pause : M player unit :=
  log LogPauseClicked ;;
  player_call Pause ;;
  modify (set_is_playing (JBool false)) ;;
  modify (set_play_pause_text "Play") ;;
  save_settings.

Definition toggle_play_pause : M player unit :=
  p <- gets id ;;
  if truthy (is_playing p) then pause else play.

Definition play_noise : M player unit :=
  log LogPlayingNoise ;;
  player_call (SetSource noise_url) ;;
  player_call Play.

(** [requests.get(url)]: [None] is not a URL. *)
Definition requests_get_url (url : option str) : M sys Response :=
  match url with
  | Some u => requests_get E u []
  | None => raise (RequestException MissingSchema)
  end.

Definition set_channel (url : option str) : M player unit :=
  log (LogSettingChannel url) ;;
  try_except
    (response <- on_sys (requests_get_url url) ;;
     resolved_url <- lift_outcome (resolve_stream_url (content response)) ;;
     log (LogResolved resolved_url) ;;
     player_call (SetSource (QUrl_of resolved_url)))
    is_Exception
    (fun e => log (LogErrorSettingChannel e) ;; play_noise).

Definition channel_selected (index : Z) : M player unit :=
  if 0 <=? index then
    p <- gets id ;;
    set_channel (itemData (channel_items p) index) ;;
    p <- gets id ;;
    if truthy (is_playing p) then play else ret tt
  else ret tt.

(** [channel_combo_box.clear()]: the current index becomes -1, and
    [currentIndexChanged] is emitted when it was not. *)
Definition channel_combo_box_clear : M player unit :=
  p <- gets id ;;
  modify (set_channel_items []) ;;
  modify (set_channel_index (-1)) ;;
  if channel_index p =? -1 then ret tt else emit (channel_selected (-1)).

(** [channel_combo_box.addItem(text, userData)]: the first item of an
    empty box becomes the current one, and [currentIndexChanged] is
    emitted. *)
Definition channel_combo_box_addItem (text data : option str)
  : M player unit :=
  p <- gets id ;;
  modify (set_channel_items
            (channel_items p ++ [(default [] text, data)])) ;;
  match channel_items p with
  | [] => modify (set_channel_index 0) ;; emit (channel_selected 0)
  | _ => ret tt
  end.

Definition get_tunein_stations (category : json) : M player (list station) :=
  try_except
    (stations <- on_sys (search_stations E category) ;;
     log (LogFetchedStations stations) ;;
     let urls := omap (fun station : station => station !! "URL") stations in
     log (LogExtractedUrls urls) ;;
     ret stations)
    is_Exception
    (fun e => log (LogErrorFetching e) ;; ret []).

Definition populate_channel_combo_box : M player unit :=
  channel_combo_box_clear ;;
  p <- gets id ;;
  for_each (channels p)
    (fun station =>
       text <- lift_outcome (station_getitem station "text") ;;
       url <- lift_outcome (station_getitem station "URL") ;;
       channel_combo_box_addItem text url) ;;
  p <- gets id ;;
  log (LogPopulated (length (channels p))).

Definition category_selected (index : Z) : M player unit :=
  let category := itemText (map (fun t => (t, tt)) category_items) index in
  stations <- get_tunein_stations (JStr category) ;;
  modify (set_channels stations) ;;
  populate_channel_combo_box ;;
  p <- gets id ;;
  match channels p with
  | _ :: _ =>
    station <- lift_outcome (list_getitem (channels p) (JInt 0)) ;;
    url <- lift_outcome (station_getitem station "URL") ;;
    set_channel url ;;
    p <- gets id ;;
    if truthy (is_playing p) then play else ret tt
  | [] => play_noise
  end.

(** [category_combo_box.setCurrentIndex(index)]: an index out of range
    stands for -1; [currentIndexChanged] is emitted on a change. *)
Definition category_combo_box_setCurrentIndex (index : Z) : M player unit :=
  p <- gets id ;;
  let index' :=
    if (0 <=? index) && (index <? Z.of_nat (length category_items))
    then index else -1 in
  if index' =? category_index p then ret tt
  else modify (set_category_index index') ;;
       emit (category_selected index').

(** [category_combo_box.setCurrentText(text)]: selects the item with
    that text when there is one. *)
Definition category_combo_box_setCurrentText (text : str) : M player unit :=
  let i := findText category_items text 0 in
  if 0 <=? i then category_combo_box_setCurrentIndex i else ret tt.

Definition change_volume (value : Z) : M player unit :=
  log (LogVolumeChanged value) ;;
  audio_output_setVolume (int_truediv value 100) ;;
  save_settings.

Definition change_speed (value : Z) : M player unit :=
  log (LogSpeedChanged value) ;;
  modify (set_playback_rate (float_of_Z 1 + int_truediv value 10)) ;;
  save_settings.

(** [volume_slider.setValue(value)]: the value is brought into the
    range; [valueChanged] is emitted on a change. *)
Definition volume_slider_setValue (value : Z) : M player unit :=
  p <- gets id ;;
  let value' := Z.max 0 (Z.min 100 value) in
  if value' =? volume_slider p then ret tt
  else modify (set_volume_slider value') ;; emit (change_volume value').

Definition media_error_occurred : M player unit := play_noise.

Definition show_error_message (e : exn) : M player unit :=
  fun p => (Ret tt, set_dialogs (dialogs p ++ [e]) p).

(** [json.load(f)] *)
Definition json_load_file (data : file_content) : outcome json :=
  match data with
  | JsonDump value => Ret value
  | RawBytes b =>
    match json_load E b with
    | Some value => Ret value
    | None => Raise JSONDecodeError
    end
  end.

Definition load_settings : M player unit :=
  try_except
    (data <- on_sys (read_file settings_file) ;;
     settings <- lift_outcome (json_load_file data) ;;
     volume <- lift_outcome (dict_get settings (py "volume") (JFloat 0.5)) ;;
     playback_rate <- lift_outcome
         (dict_get settings (py "playbackRate") (JFloat 1.0)) ;;
     idx <- lift_outcome
         (dict_get settings (py "currentChannelIndex") (JInt 0)) ;;
     modify (set_current_channel_index idx) ;;
     playing <- lift_outcome
         (dict_get settings (py "isPlaying") (JBool false)) ;;
     modify (set_is_playing playing) ;;
     current_category <- lift_outcome
         (dict_get settings (py "currentCategory") (JStr (py "classical"))) ;;

     volume_n <- lift_outcome (as_number volume) ;;
     volume_d <- lift_outcome (to_double volume_n) ;;
     audio_output_setVolume volume_d ;;
     percent <- lift_outcome (int_of_number (number_mul_int volume_n 100)) ;;
     percent <- lift_outcome (to_c_int percent) ;;
     volume_slider_setValue percent ;;
     rate_n <- lift_outcome (as_number playback_rate) ;;
     rate_d <- lift_outcome (to_double rate_n) ;;
     modify (set_playback_rate rate_d) ;;
     category_text <- lift_outcome (as_qstring current_category) ;;
     category_combo_box_setCurrentText category_text ;;

     stations <- get_tunein_stations current_category ;;
     modify (set_channels stations) ;;
     populate_channel_combo_box ;;
     p <- gets id ;;
     station <- lift_outcome
         (list_getitem (channels p) (current_channel_index p)) ;;
     url <- lift_outcome (station_getitem station "URL") ;;
     set_channel url ;;

     p <- gets id ;;
     (if truthy (is_playing p) then play else pause) ;;

     modify (set_focus (Some ChannelComboBox)))
    is_FileNotFoundError
    (fun _ =>
       category_combo_box_setCurrentIndex 0 ;;
       modify (set_current_channel_index (JInt 0)) ;;
       audio_output_setVolume 0.5 ;;
       volume_slider_setValue 50).

(** The window as the first lines of [__init__] build it, before the
    attributes are assigned: volume 0.5, sliders at 50 and 0, the five
    categories with the first one current, no channel. *)
Definition widgets (s : sys) : player :=
  {| audio_volume := 0.5;
     playback_rate := 1.0;
     media_calls := [];
     play_pause_text := "Play";
     volume_slider := 50;
     speed_slider := 0;
     category_index := 0;
     channel_items := [];
     channel_index := -1;
     focus := None;
     dialogs := [];
     current_channel_index := JInt 0;
     is_playing := JBool false;
     channels := [];
     process := s |}.

(** The [try] statement of [__init__] that fetches and sets the initial
    channel. *)
Definition initial_load : M player unit :=
  try_except
    (p <- gets id ;;
     stations <- get_tunein_stations (JStr (category_currentText p)) ;;
     modify (set_channels stations) ;;
     (match stations with
      | [] => raise (ValueError "No channels found")
      | _ => ret tt
      end) ;;
     populate_channel_combo_box ;;
     p <- gets id ;;
     station <- lift_outcome
         (list_getitem (channels p) (current_channel_index p)) ;;
     url <- lift_outcome (station_getitem station "URL") ;;
     set_channel url)
    is_Exception
    (fun e => show_error_message e).

(** [__init__] from the creation of the API object on. *)
Definition __init__ : M player unit :=
  modify (set_current_channel_index (JInt 0)) ;;
  generate_noise ;;
  modify (set_is_playing (JBool false)) ;;
  load_settings ;;
  initial_load ;;
  modify (set_focus (Some ChannelComboBox)).

(** [window = StreamPlayer()] in a process whose state is [s]. *)
Definition create (s : sys) : outcome unit * player :=
  __init__ (widgets s).

End WithEnv.

End StreamPlayer.

(** ** Concrete worlds for the examples *)
Module Fixtures.
Import ET TuneInAPI StreamPlayer.

(** A process that has written and requested nothing yet. *)
Definition fresh (files : gmap string file_content) : sys :=
  {| sys_files := files; sys_stdout := []; sys_requests := 0 |}.

(** A parser given by its answers on the documents of the examples; any
    other document used below is malformed. *)
Definition parser_of {A} (table : list (bytes * A)) (doc : bytes) : option A :=
  option_map snd
    (List.find (fun kv => str_eqb (map Byte.to_N (fst kv)) (map Byte.to_N doc))
               table).

Definition outline_X : Element :=
  Elem (py "outline")
       [(py "type", py "audio"); (py "text", py "X"); (py "URL", py "u")] [].

(** A directory answer with one station. *)
Definition doc_one_station : bytes :=
  b_ "<opml><body><outline type='audio' text='X' URL='u'/></body></opml>".
Definition tree_one_station : Element :=
  Elem (py "opml") [] [Elem (py "body") [] [outline_X]].

(** A document that consists of the station element alone. *)
Definition doc_root_outline : bytes :=
  b_ "<outline type='audio' text='X' URL='u'/>".

(** An element of type audio that is not an [outline]. *)
Definition doc_link : bytes :=
  b_ "<opml><body><link type='audio' URL='u'/></body></opml>".
Definition tree_link : Element :=
  Elem (py "opml") []
       [Elem (py "body") []
             [Elem (py "link") [(py "type", py "audio"); (py "URL", py "u")] []]].

(** A body cut off in the middle: not well-formed XML. *)
Definition doc_truncated : bytes := b_ "<opml><body>".

Definition xml_table : list (bytes * Element) :=
  [(doc_one_station, tree_one_station);
   (doc_root_outline, outline_X);
   (doc_link, tree_link)].

Definition json_table : list (bytes * json) := [(b_ "{}", JDict [])].

Definition search_url : str := BASE_URL ++ py "Search.ashx".

(** The directory answers every search with [status] and [body]; every
    other URL serves a plain stream URL. *)
Definition env_serving (status : Z) (body : bytes) : env :=
  {| http_get := fun _ url _ =>
       if str_eqb url search_url then HttpResponse status body
       else HttpResponse 200 (b_ "http://stream.example/direct.mp3");
     xml_fromstring := parser_of xml_table;
     json_load := parser_of json_table;
     noise_wav := b_ "RIFF" |}.

(** No network. *)
Definition env_offline : env :=
  {| http_get := fun _ _ _ => HttpFailure ConnectionError;
     xml_fromstring := parser_of xml_table;
     json_load := parser_of json_table;
     noise_wav := b_ "RIFF" |}.

End Fixtures.

(** ** Vocabulary of the statements *)

Import TuneInAPI StreamPlayer.

(** The elements of a document, the root included, whose attribute [type]
    is [audio], in document order: "every element of type audio" read
    literally. *)
Definition elements_of_type_audio (root : ET.Element) : list ET.Element :=
  List.filter (fun e => match ET.get e (py "type") with
                        | Some v => str_eqb v (py "audio")
                        | None => false
                        end)
              (ET.iter root).

(** [sub in s]: [sub] occurs somewhere in [s]. *)
Fixpoint contains (s sub : str) : bool :=
  startswith s sub
  || match s with
     | [] => false
     | _ :: s' => contains s' sub
     end.

(** One of the two playlist markers occurs in the text. *)
Definition has_playlist_marker (s : str) : bool :=
  contains s (py "#EXTM3U") || contains s (py "[playlist]").

(** No character of [l] is a line boundary. *)
Definition no_linebreak (l : str) : Prop :=
  Forall (fun c => is_linebreak c = false) l.

(** [l] occurs in [s] as a contiguous run of characters. *)
Definition infix_of (l s : str) : Prop := exists pre post, s = pre ++ l ++ post.

(** A line the M3U loop passes over: empty, or a comment. *)
Definition m3u_skipped (l : str) : Prop := l = [] \/ startswith l (py "#") = true.

(** A station dict holds, under each of the thirteen keys, the attribute of
    that name ([None] when the element lacks it), and nothing else. *)
Definition station_copies (st : station) (e : ET.Element) : Prop :=
  forall k : string,
    st !! k = if bool_decide (k ∈ station_keys)
              then Some (ET.get e (py k)) else None.

(** The request [search_stations] makes. *)
Definition search_request (E : env) (query : json) (s : sys) : http_outcome :=
  http_get E (sys_requests s) (BASE_URL ++ py "Search.ashx") [(py "query", query)].

(** A search that found nothing, or failed. *)
Definition empty_or_failed (o : outcome (list station)) : Prop :=
  match o with
  | Ret [] => True
  | Ret (_ :: _) => False
  | Raise _ => True
  end.

(** The noise fallback was the last thing done with the media player:
    its source was set to the noise file and it was started. *)
Definition noise_fallback_triggered (p : player) : Prop :=
  exists earlier, media_calls p = earlier ++ [SetSource noise_url; Play].

(** From a state in [P], [c] either returns a value and a state in [Q], or
    raises an exception and leaves a state in [X]. *)
Definition triple {A} (P : player -> Prop) (c : M player A)
           (Q : A -> player -> Prop) (X : exn -> player -> Prop) : Prop :=
  forall p, P p ->
    match c p with
    | (Ret a, p') => Q a p'
    | (Raise e, p') => X e p'
    end.

(** From a state in [I], [c] returns, in a state in [I]. *)
#[warnings="-inconsistent-scopes"]
Abbreviation total I c := (triple I c (fun _ => I) (fun _ _ => False)).

(** [I] is kept by [c], whether it returns or raises. *)
#[warnings="-inconsistent-scopes"]
Abbreviation inv I c := (triple I c (fun _ => I) (fun _ => I)).

(** The dict has no item under [key]. *)
Definition lacks_key (items : list (str * json)) (key : str) : Prop :=
  List.find (fun kv => str_eqb (fst kv) key) items = None.

(** The keys of the settings file. *)
Definition settings_keys : list str :=
  [py "volume"; py "playbackRate"; py "currentChannelIndex"; py "isPlaying";
   py "currentCategory"].

(** An assertion that the effects on the process, the media player, the
    channel box and the button leave alone, and that survives the playing
    flag being set to the truth value it already has. *)
Record stable (I : player -> Prop) : Prop := {
  st_process : forall p s, I p -> I (set_process s p);
  st_media : forall p m, I p -> I (set_media_calls m p);
  st_items : forall p l, I p -> I (set_channel_items l p);
  st_index : forall p i, I p -> I (set_channel_index i p);
  st_text : forall p t, I p -> I (set_play_pause_text t p);
  st_playing :
    forall p, I p -> I (set_is_playing (JBool (truthy (is_playing p))) p);
}.

(** The value [d.get(key, default)] has for the items of a dict. *)
Definition dict_value (items : list (str * json)) (key : str) (default : json) : json :=
  match List.find (fun kv => str_eqb (fst kv) key) items with
  | Some (_, v) => v
  | None => default
  end.

(** After [n] of the five settings were applied, each of them whose key is
    missing has its default. *)
Definition stage (items : list (str * json)) (n : nat) (p : player) : Prop :=
  ((1 <= n)%nat -> lacks_key items (py "currentChannelIndex") ->
   current_channel_index p = JInt 0) /\
  ((2 <= n)%nat -> lacks_key items (py "isPlaying") ->
   is_playing p = JBool false) /\
  ((3 <= n)%nat -> lacks_key items (py "volume") ->
   audio_volume p = 0.5%float) /\
  ((4 <= n)%nat -> lacks_key items (py "playbackRate") ->
   playback_rate p = 1%float) /\
  ((5 <= n)%nat -> lacks_key items (py "currentCategory") ->
   category_index p = 0%Z).

(** Each of the five settings whose key is missing has its default. *)
Definition defaults_for_missing (items : list (str * json)) (p : player) : Prop :=
  stage items 5 p.

(** The exceptions this value can stand for are not [FileNotFoundError]. *)
Definition not_FileNotFound {A} (o : outcome A) : Prop :=
  match o with
  | Ret _ => True
  | Raise e => is_FileNotFoundError e = false
  end.

(** The documented defaults: volume 0.5, rate 1.0, channel index 0, not
    playing, the first category. *)
Definition has_default_settings (p : player) : Prop :=
  audio_volume p = 0.5%float /\ playback_rate p = 1%float /\
  current_channel_index p = JInt 0 /\ is_playing p = JBool false /\
  category_index p = 0%Z /\ category_currentText p = py "classical".

(** The window in the state in which [__init__] calls [load_settings]: the
    first category current, the volume slider at 50, not playing, rate 1.0. *)
Definition window_as_built (p : player) : Prop :=
  category_index p = 0%Z /\ volume_slider p = 50%Z /\
  is_playing p = JBool false /\ playback_rate p = 1%float.

(** ** Vocabulary of the further properties *)

(** The request [get_station_stream_url] makes. *)
Definition tune_request (E : env) (station_id : json) (s : sys) : http_outcome :=
  http_get E (sys_requests s) (BASE_URL ++ py "Tune.ashx") [(py "id", station_id)].

(** What the [try] block of [set_channel] obtains for a URL: the resolved
    stream URL, or the exception of the request or of the decoding. The
    status of the response plays no part. *)
Definition fetched_stream (E : env) (url : option str) (s : sys) : outcome str :=
  match url with
  | None => Raise (RequestException MissingSchema)
  | Some u =>
    match http_get E (sys_requests s) u [] with
    | HttpFailure e => Raise (RequestException e)
    | HttpResponse _ body => resolve_stream_url body
    end
  end.

(** The stations a search yields for the window: those found, none when
    the search raises. *)
Definition stations_found (E : env) (query : json) (s : sys) : list station :=
  match fst (search_stations E query s) with
  | Ret stations => stations
  | Raise _ => []
  end.

(** The item the channel box shows for a station: its text, with its URL
    as user data. *)
Definition item_of (st : station) : str * option str :=
  let text : option str := default None (st !! "text") in
  let url : option str := default None (st !! "URL") in
  (default [] text, url).

(** The dict [save_settings] dumps for a window. *)
Definition settings_of (p : player) : json :=
  JDict [(py "volume", JFloat (audio_volume p));
         (py "playbackRate", JFloat (playback_rate p));
         (py "currentChannelIndex", current_channel_index p);
         (py "isPlaying", is_playing p);
         (py "currentCategory", JStr (category_currentText p))].

(** The settings file holds the settings of the window as it is. *)
Definition settings_saved (p : player) : Prop :=
  sys_files (process p) !! settings_file = Some (JsonDump (settings_of p)).

(** The part of the window that fetching stations, filling the channel box
    and tuning never write. *)
Definition settled (p : player) :=
  (audio_volume p, playback_rate p, volume_slider p, speed_slider p,
   category_index p, focus p, dialogs p, current_channel_index p).

(** What tuning to a channel may change besides the channel box, the
    station list, the output and the calls on the media player: nothing,
    unless the window is playing, in which case [play] sets the flag and
    the label again and saves the settings. The noise file is left alone. *)
Definition tuned (p p' : player) : Prop :=
  settled p' = settled p /\
  truthy (is_playing p') = truthy (is_playing p) /\
  sys_files (process p') !! noise_file = sys_files (process p) !! noise_file /\
  (truthy (is_playing p) = false ->
   is_playing p' = is_playing p /\
   play_pause_text p' = play_pause_text p /\
   sys_files (process p') !! settings_file
   = sys_files (process p) !! settings_file).

(** Every search finds nothing or fails, whatever the query and the state
    of the process: the directory cannot be reached, or has no station. *)
Definition directory_silent (E : env) : Prop :=
  forall query s, empty_or_failed (fst (search_stations E query s)).

(** The window at the call of [load_settings] in [__init__]. *)
Definition built (E : env) (s : sys) : player :=
  snd ((modify (set_current_channel_index (JInt 0)) ;;
        generate_noise E ;;
        modify (set_is_playing (JBool false))) (widgets s)).

(** [int(volume * 100)], the position [load_settings] gives the volume
    slider for a volume read from the settings. *)
Definition restored_percent (volume : float) : outcome Z :=
  int_of_number (number_mul_int (NumFloat volume) 100).

(** The station list and the channel box. *)
Definition listing (p : player) :=
  (channels p, channel_items p, channel_index p).

(** The number of requests [set_channel] makes for a URL: one, and none
    when there is no URL to request. *)
Definition requests_for (url : option str) : nat :=
  match url with
  | Some _ => 1
  | None => 0
  end.

(** A property of the [n] integers from [lo] on, checked on each of them. *)
Definition holds_from (lo : Z) (n : nat) (f : Z -> bool) : bool :=
  forallb (fun k => f (lo + Z.of_nat k)%Z) (seq 0 n).

(** The state in which a load that went through leaves the window:
    playing or paused for good, and saved. *)
Definition restored (p : player) : Prop :=
  settings_saved p /\
  exists b : bool,
    is_playing p = JBool b /\
    play_pause_text p = (if b then "Pause" else "Play")%string /\
    exists earlier, media_calls p = earlier ++ [if b then Play else Pause].

(** * Facts about the builtins *)

Ltac Zify.zify_post_hook ::= Z.to_euclidean_division_equations.

Lemma to_N_byte_of_N (n : N) : n < 256 -> Byte.to_N (byte_of_N n) = n.
Proof.
  intros Hn. unfold byte_of_N.
  destruct (Byte.of_N n) as [b|] eqn:E.
  - now apply Byte.to_of_N in E.
  - apply Byte.of_N_None_iff in E. lia.
Qed.

Lemma byte_of_N_to_N (b : byte) : byte_of_N (Byte.to_N b) = b.
Proof. unfold byte_of_N. now rewrite Byte.of_to_N. Qed.

Lemma to_N_lt_256 (b : byte) : Byte.to_N b < 256.
Proof. pose proof (Byte.to_N_bounded b). lia. Qed.

Lemma is_scalar_iff (c : N) :
  is_scalar c = true <-> c < 55296 \/ (57344 <= c /\ c < 1114112).
Proof.
  unfold is_scalar.
  rewrite orb_true_iff, andb_true_iff, !N.ltb_lt, N.leb_le. tauto.
Qed.

(** Comparisons computed by the source become arithmetic facts. *)
Ltac bool_facts :=
  repeat match goal with
  | H : (_ && _)%bool = true |- _ => apply andb_true_iff in H as [? ?]
  | H : (_ <=? _) = true |- _ => apply N.leb_le in H
  | H : (_ <=? _) = false |- _ => apply N.leb_gt in H
  | H : (_ <? _) = true |- _ => apply N.ltb_lt in H
  | H : (_ <? _) = false |- _ => apply N.ltb_ge in H
  | H : (_ =? _) = true |- _ => apply N.eqb_eq in H
  | H : (_ =? _) = false |- _ => apply N.eqb_neq in H
  end.

(** Decide the [<?] tests of [encode_char] on a code point of known range. *)
Ltac decide_ltb c :=
  repeat match goal with
  | |- context [c <? ?k] =>
    first [ replace (c <? k) with true by (symmetry; apply N.ltb_lt; lia)
          | replace (c <? k) with false by (symmetry; apply N.ltb_ge; lia) ]
  end.

(** One step of the decoder: the first code point is a scalar value, it is
    followed by the decoding of a shorter rest, and its UTF-8 bytes are the
    ones consumed. *)
Lemma decode_utf8_step (b0 : byte) (r0 : bytes) (s : str) :
  decode_utf8 (b0 :: r0) = Some s ->
  exists c r' s',
    s = c :: s' /\ is_scalar c = true /\ decode_utf8 r' = Some s' /\
    (length r' <= length r0)%nat /\ b0 :: r0 = encode_char c ++ r'.
Proof.
  cbn [decode_utf8].
  pose proof (to_N_lt_256 b0) as H0.
  set (x0 := Byte.to_N b0) in *.
  destruct (x0 <? 128) eqn:E1.
  { destruct (decode_utf8 r0) as [s'|] eqn:D; [|discriminate].
    intros [= <-]. exists x0, r0, s'. bool_facts.
    repeat split; auto.
    - apply is_scalar_iff. lia.
    - unfold encode_char. decide_ltb x0.
      now rewrite <- (byte_of_N_to_N b0) at 1. }
  destruct ((194 <=? x0) && (x0 <=? 223)) eqn:E2.
  { destruct r0 as [|b1 r1]; [discriminate|].
    pose proof (to_N_lt_256 b1) as H1.
    set (x1 := Byte.to_N b1) in *.
    destruct (is_cont x1) eqn:C1; [|discriminate].
    destruct (decode_utf8 r1) as [s'|] eqn:D; [|discriminate].
    intros [= <-].
    set (c := (x0 - 192) * 64 + (x1 - 128)).
    exists c, r1, s'.
    unfold is_cont in C1. bool_facts.
    repeat split; auto.
    - apply is_scalar_iff. lia.
    - cbn. lia.
    - unfold encode_char. decide_ltb c.
      replace (192 + c / 64) with x0 by lia.
      replace (128 + c mod 64) with x1 by lia.
      subst x0 x1. now rewrite !byte_of_N_to_N. }
  destruct ((224 <=? x0) && (x0 <=? 239)) eqn:E3.
  { destruct r0 as [|b1 [|b2 r2]]; try discriminate.
    pose proof (to_N_lt_256 b1) as H1. pose proof (to_N_lt_256 b2) as H2.
    set (x1 := Byte.to_N b1) in *. set (x2 := Byte.to_N b2) in *.
    destruct (second_of_3_ok x0 x1 && is_cont x2) eqn:C; [|discriminate].
    destruct (decode_utf8 r2) as [s'|] eqn:D; [|discriminate].
    intros [= <-].
    set (c := (x0 - 224) * 4096 + (x1 - 128) * 64 + (x2 - 128)).
    exists c, r2, s'.
    assert (Hc : 2048 <= c < 65536 /\ (c < 55296 \/ 57344 <= c) /\
                 128 <= x1 <= 191 /\ 128 <= x2 <= 191).
    { unfold second_of_3_ok, is_cont in C.
      destruct (x0 =? 224) eqn:Ea; [|destruct (x0 =? 237) eqn:Eb];
        bool_facts; lia. }
    bool_facts.
    repeat split; auto.
    - apply is_scalar_iff. lia.
    - cbn. lia.
    - unfold encode_char. decide_ltb c.
      replace (224 + c / 4096) with x0 by lia.
      replace (128 + (c / 64) mod 64) with x1 by lia.
      replace (128 + c mod 64) with x2 by lia.
      subst x0 x1 x2. now rewrite !byte_of_N_to_N. }
  destruct ((240 <=? x0) && (x0 <=? 244)) eqn:E4; [|discriminate].
  destruct r0 as [|b1 [|b2 [|b3 r3]]]; try discriminate.
  pose proof (to_N_lt_256 b1) as H1. pose proof (to_N_lt_256 b2) as H2.
  pose proof (to_N_lt_256 b3) as H3.
  set (x1 := Byte.to_N b1) in *. set (x2 := Byte.to_N b2) in *.
  set (x3 := Byte.to_N b3) in *.
  destruct (second_of_4_ok x0 x1 && is_cont x2 && is_cont x3) eqn:C;
    [|discriminate].
  destruct (decode_utf8 r3) as [s'|] eqn:D; [|discriminate].
  intros [= <-].
  set (c := (x0 - 240) * 262144 + (x1 - 128) * 4096 + (x2 - 128) * 64
            + (x3 - 128)).
  exists c, r3, s'.
  assert (Hc : 65536 <= c < 1114112 /\
               128 <= x1 <= 191 /\ 128 <= x2 <= 191 /\ 128 <= x3 <= 191).
  { unfold second_of_4_ok, is_cont in C.
    destruct (x0 =? 240) eqn:Ea; [|destruct (x0 =? 244) eqn:Eb];
      bool_facts; lia. }
  bool_facts.
  repeat split; auto.
  - apply is_scalar_iff. lia.
  - cbn. lia.
  - unfold encode_char. decide_ltb c.
    replace (240 + c / 262144) with x0 by lia.
    replace (128 + (c / 4096) mod 64) with x1 by lia.
    replace (128 + (c / 64) mod 64) with x2 by lia.
    replace (128 + c mod 64) with x3 by lia.
    subst x0 x1 x2 x3. now rewrite !byte_of_N_to_N.
Qed.

(** Decide every comparison of the goal that linear arithmetic settles. *)
Ltac decide_tests :=
  repeat match goal with
  | |- context [?a <? ?b] =>
    first [ replace (a <? b) with true by (symmetry; apply N.ltb_lt; lia)
          | replace (a <? b) with false by (symmetry; apply N.ltb_ge; lia) ]
  | |- context [?a <=? ?b] =>
    first [ replace (a <=? b) with true by (symmetry; apply N.leb_le; lia)
          | replace (a <=? b) with false by (symmetry; apply N.leb_gt; lia) ]
  | |- context [?a =? ?b] =>
    first [ replace (a =? b) with true by (symmetry; apply N.eqb_eq; lia)
          | replace (a =? b) with false by (symmetry; apply N.eqb_neq; lia) ]
  end; cbn [andb orb negb].

Lemma decode_utf8_scalar (bs : bytes) (s : str) :
  decode_utf8 bs = Some s -> Forall (fun c => is_scalar c = true) s.
Proof.
  remember (length bs) as n eqn:Hn. revert bs s Hn.
  induction n as [n IH] using lt_wf_ind. intros [|b0 r0] s Hn D.
  - injection D as <-. constructor.
  - apply decode_utf8_step in D as (c & r' & s' & -> & Hc & D' & Hlen & _).
    constructor; [exact Hc|].
    apply (IH (length r')) with (bs := r'); [cbn in Hn; lia|reflexivity|exact D'].
Qed.

(** Encoding what was decoded gives the bytes back. *)
Lemma encode_decode_utf8 (bs : bytes) (s : str) :
  decode_utf8 bs = Some s -> encode_utf8 s = Some bs.
Proof.
  remember (length bs) as n eqn:Hn. revert bs s Hn.
  induction n as [n IH] using lt_wf_ind. intros [|b0 r0] s Hn D.
  - injection D as <-. reflexivity.
  - apply decode_utf8_step in D as (c & r' & s' & -> & Hc & D' & Hlen & Hb).
    cbn [encode_utf8]. rewrite Hc.
    rewrite (IH (length r') ltac:(cbn in Hn; lia) r' s' eq_refl D').
    cbn. now rewrite Hb.
Qed.

(** Decoding the UTF-8 bytes of a scalar value gives it back. *)
Lemma decode_encode_char (c : N) (r : bytes) :
  is_scalar c = true ->
  decode_utf8 (encode_char c ++ r) = option_map (cons c) (decode_utf8 r).
Proof.
  intros Hc. apply is_scalar_iff in Hc. unfold encode_char.
  destruct (c <? 128) eqn:E1; [|destruct (c <? 2048) eqn:E2;
    [|destruct (c <? 65536) eqn:E3]]; bool_facts;
    cbn [app decode_utf8]; rewrite !to_N_byte_of_N by lia.
  - decide_tests. reflexivity.
  - decide_tests. unfold is_cont. decide_tests.
    do 2 f_equal. lia.
  - decide_tests. unfold second_of_3_ok, is_cont.
    destruct (224 + c / 4096 =? 224) eqn:Ea;
      [|destruct (224 + c / 4096 =? 237) eqn:Eb]; bool_facts; decide_tests;
      do 2 f_equal; lia.
  - decide_tests. unfold second_of_4_ok, is_cont.
    destruct (240 + c / 262144 =? 240) eqn:Ea;
      [|destruct (240 + c / 262144 =? 244) eqn:Eb]; bool_facts; decide_tests;
      do 2 f_equal; lia.
Qed.

(** A string of scalar values can be encoded, and decodes to itself. *)
Lemma decode_encode_utf8 (s : str) :
  Forall (fun c => is_scalar c = true) s ->
  exists bs, encode_utf8 s = Some bs /\ decode_utf8 bs = Some s.
Proof.
  induction 1 as [|c s Hc _ (bs & He & Hd)].
  - exists []. split; reflexivity.
  - exists (encode_char c ++ bs). cbn [encode_utf8]. rewrite Hc, He. split.
    + reflexivity.
    + now rewrite decode_encode_char, Hd.
Qed.

(** ** str methods *)

Lemma startswith_app (p r : str) : startswith (p ++ r) p = true.
Proof. induction p as [|c p IH]; cbn; [reflexivity|]. now rewrite N.eqb_refl. Qed.

Lemma startswith_true_iff (s p : str) :
  startswith s p = true <-> exists r, s = p ++ r.
Proof.
  split.
  - revert s. induction p as [|c p IH]; intros s H.
    + now exists s.
    + destruct s as [|d s]; [discriminate|]. cbn in H.
      apply andb_true_iff in H as [Hd Hs]. apply N.eqb_eq in Hd as ->.
      destruct (IH _ Hs) as [r ->]. now exists r.
  - intros [r ->]. apply startswith_app.
Qed.

(** The two playlist markers exclude each other. *)
Lemma markers_exclusive (s : str) :
  startswith s (py "[playlist]") = true -> startswith s (py "#EXTM3U") = false.
Proof. destruct s as [|c s]; [discriminate|]. cbn. now destruct (c =? 91) eqn:E;
  [apply N.eqb_eq in E as ->|]. Qed.

Lemma infix_of_cons (c : N) (l s : str) : infix_of l s -> infix_of l (c :: s).
Proof. intros (pre & post & ->). now exists (c :: pre), post. Qed.

(** A line produced by the loop of [splitlines] either lies inside the
    unread text, or is the current line extended by unread characters; it
    holds no line boundary. *)
Lemma splitlines_from_lines (s : str) :
  forall (after_cr : bool) (acc l : str),
    (after_cr = true -> acc = []) ->
    no_linebreak acc ->
    In l (splitlines_from after_cr acc s) ->
    no_linebreak l /\
    (infix_of l s \/ exists l' post, l = rev acc ++ l' /\ s = l' ++ post).
Proof.
  induction s as [|c rest IH]; intros after_cr acc l Hcr Hacc Hin; cbn in Hin.
  - destruct acc as [|a acc]; [contradiction|].
    destruct Hin as [<-|[]]. split.
    + apply Forall_rev, Hacc.
    + right. exists [], []. now rewrite app_nil_r.
  - destruct (after_cr && (c =? 10)) eqn:Eskip.
    { apply andb_true_iff in Eskip as [-> _]. rewrite (Hcr eq_refl) in *.
      destruct (IH false [] l ltac:(discriminate) Hacc Hin) as [Hl [Hi|Hi]].
      - split; [exact Hl|]. left. now apply infix_of_cons.
      - split; [exact Hl|]. left. destruct Hi as (l' & post & -> & ->).
        now exists [c], post. }
    destruct (is_linebreak c) eqn:Eb.
    + destruct Hin as [<-|Hin].
      * split; [apply Forall_rev, Hacc|].
        right. exists [], (c :: rest). now rewrite app_nil_r.
      * destruct (IH (c =? 13) [] l ltac:(reflexivity) ltac:(constructor) Hin)
          as [Hl [Hi|Hi]].
        -- split; [exact Hl|]. left. now apply infix_of_cons.
        -- split; [exact Hl|]. left. destruct Hi as (l' & post & -> & ->).
           now exists [c], post.
    + destruct (IH false (c :: acc) l ltac:(discriminate)
                  ltac:(now constructor) Hin) as [Hl [Hi|Hi]].
      * split; [exact Hl|]. left. now apply infix_of_cons.
      * split; [exact Hl|]. right. destruct Hi as (l' & post & -> & ->).
        exists (c :: l'), post. cbn [rev]. now rewrite <- app_assoc.
Qed.

(** Every line of [splitlines] is a contiguous piece of the text, free of
    line boundaries: nothing is trimmed, nothing is added. *)
Lemma splitlines_lines (s l : str) :
  In l (splitlines s) -> no_linebreak l /\ infix_of l s.
Proof.
  intros Hin.
  destruct (splitlines_from_lines s false [] l ltac:(discriminate)
              ltac:(constructor) Hin) as [Hl [Hi|(l' & post & -> & ->)]].
  - now split.
  - split; [exact Hl|]. now exists [], post.
Qed.

(** [splitlines] on the cases that matter: \r\n is one boundary, an empty
    line is kept, a final boundary adds no line, \v and U+2028 split. *)
Example splitlines_examples :
  splitlines [97; 13; 10; 98] = [[97]; [98]] /\
  splitlines [97; 10; 10; 98; 10] = [[97]; []; [98]] /\
  splitlines [97; 13; 13; 98] = [[97]; []; [98]] /\
  splitlines [] = [] /\
  splitlines [10] = [[]] /\
  splitlines [97; 11; 98; 8232; 99] = [[97]; [98]; [99]] /\
  splitlines [97; 32; 98] = [[97; 32; 98]].
Proof. repeat split. Qed.

(** [split] with a limit of one: only the first separator splits. *)
Example split_examples :
  split (py "a=b=c") (py "=") 1 = Ret [py "a"; py "b=c"] /\
  split (py "abc") (py "=") 1 = Ret [py "abc"] /\
  split (py "a=") (py "=") 1 = Ret [py "a"; py ""] /\
  split (py "a--b--c") (py "--") 2 = Ret [py "a"; py "b"; py "c"].
Proof. repeat split. Qed.

(** The decoder on the boundaries of UTF-8: U+00E9, U+20AC and U+1F600
    decode; an over-long form, a surrogate, a code point above U+10FFFF, a
    lone continuation byte and a cut sequence do not. *)
Example decode_utf8_examples :
  decode_utf8 [xc3; xa9] = Some [233] /\
  decode_utf8 [xe2; x82; xac] = Some [8364] /\
  decode_utf8 [xf0; x9f; x98; x80] = Some [128512] /\
  decode_utf8 [xc0; x80] = None /\
  decode_utf8 [xe0; x80; x80] = None /\
  decode_utf8 [xed; xa0; x80] = None /\
  decode_utf8 [xf4; x90; x80; x80] = None /\
  decode_utf8 [x80] = None /\
  decode_utf8 [xe2; x82] = None.
Proof. repeat split. Qed.

(** ** The stream resolver *)


Lemma m3u_loop_spec (lines : list str) :
  match m3u_loop lines with
  | Some line =>
    exists before after,
      lines = before ++ line :: after /\ Forall m3u_skipped before /\
      line <> [] /\ startswith line (py "#") = false
  | None => Forall m3u_skipped lines
  end.
Proof.
  induction lines as [|l rest IH]; cbn [m3u_loop]; [constructor|].
  destruct (truthy_str l && negb (startswith l (py "#"))) eqn:E.
  - apply andb_true_iff in E as [Hne Hc]. apply negb_true_iff in Hc.
    exists [], rest. repeat split; auto. now destruct l.
  - assert (Hl : m3u_skipped l).
    { apply andb_false_iff in E as [E|E].
      - left. now destruct l.
      - right. now apply negb_false_iff in E. }
    destruct (m3u_loop rest) as [line|].
    + destruct IH as (before & after & -> & Hb & Hne & Hc).
      exists (l :: before), after. repeat split; auto.
    + now constructor.
Qed.

(** On a line that starts with [File1=], [line.split("=", 1)[1]] is what
    follows the prefix: the first [=] of the line is the one of the prefix. *)
Lemma split_File1 (rest : str) :
  match split (py "File1=" ++ rest) (py "=") 1 with
  | Ret parts => getitem parts 1
  | Raise e => Raise e
  end = Ret rest.
Proof. destruct rest; reflexivity. Qed.

Lemma pls_loop_spec (lines : list str) :
  match pls_loop lines with
  | Some r =>
    exists before rest after,
      lines = before ++ (py "File1=" ++ rest) :: after /\
      Forall (fun l => startswith l (py "File1=") = false) before /\
      r = Ret rest
  | None => Forall (fun l => startswith l (py "File1=") = false) lines
  end.
Proof.
  induction lines as [|l lines IH]; cbn [pls_loop]; [constructor|].
  destruct (startswith l (py "File1=")) eqn:E.
  - apply startswith_true_iff in E as [rest ->].
    exists [], rest, lines. repeat split; auto. apply split_File1.
  - destruct (pls_loop lines) as [r|].
    + destruct IH as (before & rest & after & -> & Hb & ->).
      exists (l :: before), rest, after. repeat split; auto.
    + now constructor.
Qed.

(** C1. For every byte input whose UTF-8 decoding begins with [#EXTM3U],
    [resolve_stream_url] returns the first line, in order, that is non-empty
    and does not begin with [#], verbatim; when every line is empty or a
    comment it returns the whole decoded text. *)
Theorem resolve_m3u (content : bytes) (text : str) :
  decode_utf8 content = Some text ->
  startswith text (py "#EXTM3U") = true ->
  (exists before line after,
      splitlines text = before ++ line :: after /\
      Forall m3u_skipped before /\
      line <> [] /\ startswith line (py "#") = false /\
      resolve_stream_url content = Ret line)
  \/ (Forall m3u_skipped (splitlines text) /\
      resolve_stream_url content = Ret text).
Proof.
  intros Hd Hm. unfold resolve_stream_url. rewrite Hd, Hm.
  pose proof (m3u_loop_spec (splitlines text)) as H.
  destruct (m3u_loop (splitlines text)) as [line|].
  - left. destruct H as (before & after & Hs & Hb & Hne & Hc).
    exists before, line, after. repeat split; auto.
  - right. split; [exact H|reflexivity].
Qed.

Lemma resolve_m3u_witness :
  let content := b_ "#EXTM3U
#EXTINF:-1,Station
http://stream.example/live.mp3
" in
  let text := py "#EXTM3U
#EXTINF:-1,Station
http://stream.example/live.mp3
" in
  decode_utf8 content = Some text /\
  startswith text (py "#EXTM3U") = true /\
  ((exists before line after,
      splitlines text = before ++ line :: after /\
      Forall m3u_skipped before /\
      line <> [] /\ startswith line (py "#") = false /\
      resolve_stream_url content = Ret line)
   \/ (Forall m3u_skipped (splitlines text) /\
       resolve_stream_url content = Ret text)).
Proof.
  intros content text.
  split; [reflexivity|]. split; [reflexivity|].
  apply (resolve_m3u content text); reflexivity.
Defined.

(** C2. For every byte input whose UTF-8 decoding begins with [[playlist]]
    (it then cannot begin with [#EXTM3U]), [resolve_stream_url] returns what
    follows the prefix [File1=] on the first line that begins with it,
    unchanged; when no line begins with [File1=] it returns the whole decoded
    text. *)
Theorem resolve_pls (content : bytes) (text : str) :
  decode_utf8 content = Some text ->
  startswith text (py "[playlist]") = true ->
  (exists before rest after,
      splitlines text = before ++ (py "File1=" ++ rest) :: after /\
      Forall (fun l => startswith l (py "File1=") = false) before /\
      resolve_stream_url content = Ret rest)
  \/ (Forall (fun l => startswith l (py "File1=") = false) (splitlines text) /\
      resolve_stream_url content = Ret text).
Proof.
  intros Hd Hp. unfold resolve_stream_url.
  rewrite Hd, (markers_exclusive _ Hp), Hp.
  pose proof (pls_loop_spec (splitlines text)) as H.
  destruct (pls_loop (splitlines text)) as [r|].
  - left. destruct H as (before & rest & after & Hs & Hb & ->).
    exists before, rest, after. repeat split; auto.
  - right. split; [exact H|reflexivity].
Qed.

Lemma resolve_pls_witness :
  let content := b_ "[playlist]
NumberOfEntries=1
File1=http://stream.example/live2.mp3
" in
  let text := py "[playlist]
NumberOfEntries=1
File1=http://stream.example/live2.mp3
" in
  decode_utf8 content = Some text /\
  startswith text (py "[playlist]") = true /\
  ((exists before rest after,
      splitlines text = before ++ (py "File1=" ++ rest) :: after /\
      Forall (fun l => startswith l (py "File1=") = false) before /\
      resolve_stream_url content = Ret rest)
   \/ (Forall (fun l => startswith l (py "File1=") = false) (splitlines text) /\
       resolve_stream_url content = Ret text)).
Proof.
  intros content text.
  split; [reflexivity|]. split; [reflexivity|].
  apply (resolve_pls content text); reflexivity.
Defined.

Example resolve_example_1 :
  resolve_stream_url (b_ "#EXTM3U
#EXTINF:-1,Station
http://stream.example/live.mp3
")
  = Ret (py "http://stream.example/live.mp3").
Proof. vm_compute. reflexivity. Qed.

Example resolve_example_2 :
  resolve_stream_url (b_ "[playlist]
NumberOfEntries=1
File1=http://stream.example/live2.mp3
")
  = Ret (py "http://stream.example/live2.mp3").
Proof. vm_compute. reflexivity. Qed.

(** C3. For every byte input whose UTF-8 decoding begins with neither
    marker, [resolve_stream_url] returns the whole decoded text unchanged. *)
Theorem resolve_passthrough (content : bytes) (text : str) :
  decode_utf8 content = Some text ->
  startswith text (py "#EXTM3U") = false ->
  startswith text (py "[playlist]") = false ->
  resolve_stream_url content = Ret text.
Proof. intros Hd Hm Hp. unfold resolve_stream_url. now rewrite Hd, Hm, Hp. Qed.

Example resolve_example_3 :
  resolve_stream_url (b_ "http://stream.example/direct.mp3")
  = Ret (py "http://stream.example/direct.mp3").
Proof. vm_compute. reflexivity. Qed.

Lemma resolve_passthrough_witness :
  let content := b_ "http://stream.example/direct.mp3" in
  let text := py "http://stream.example/direct.mp3" in
  decode_utf8 content = Some text /\
  startswith text (py "#EXTM3U") = false /\
  startswith text (py "[playlist]") = false /\
  resolve_stream_url content = Ret text.
Proof.
  intros content text.
  split; [reflexivity|]. split; [reflexivity|]. split; [reflexivity|].
  apply (resolve_passthrough content text); reflexivity.
Defined.

(** What a returned value is made of: the whole text, a line of it, or what
    follows [File1=] on a line of it. *)
Lemma resolve_result_shape (content : bytes) (text : str) :
  decode_utf8 content = Some text ->
  exists url,
    resolve_stream_url content = Ret url /\
    (url = text \/
     exists line, In line (splitlines text) /\
                  (url = line \/ line = py "File1=" ++ url)).
Proof.
  intros Hd. unfold resolve_stream_url. rewrite Hd.
  destruct (startswith text (py "#EXTM3U")).
  - pose proof (m3u_loop_spec (splitlines text)) as H.
    destruct (m3u_loop (splitlines text)) as [line|].
    + destruct H as (before & after & Hs & _).
      exists line. split; [reflexivity|]. right. exists line. split; [|now left].
      rewrite Hs. apply in_or_app. right. now left.
    + exists text. split; [reflexivity|now left].
  - destruct (startswith text (py "[playlist]")).
    + pose proof (pls_loop_spec (splitlines text)) as H.
      destruct (pls_loop (splitlines text)) as [r|].
      * destruct H as (before & rest & after & Hs & _ & ->).
        exists rest. split; [reflexivity|]. right. exists (py "File1=" ++ rest).
        split; [|now right]. rewrite Hs. apply in_or_app. right. now left.
      * exists text. split; [reflexivity|now left].
    + exists text. split; [reflexivity|now left].
Qed.

(** C4 (as the code has it). [resolve_stream_url] is a function of its
    argument alone. On every input that is well-formed UTF-8 it returns a
    string: a line of the decoded text, the rest of a [File1=] line, or as a
    last resort the decoded text itself. On every other input it raises
    [UnicodeDecodeError]. *)
Theorem resolve_total_on_utf8 (content : bytes) :
  match decode_utf8 content with
  | Some text =>
    exists url,
      resolve_stream_url content = Ret url /\
      (url = text \/
       exists line, In line (splitlines text) /\
                    (url = line \/ line = py "File1=" ++ url))
  | None => resolve_stream_url content = Raise UnicodeDecodeError
  end.
Proof.
  destruct (decode_utf8 content) as [text|] eqn:Hd.
  - now apply resolve_result_shape.
  - unfold resolve_stream_url. now rewrite Hd.
Qed.

(** C4 fails as stated: the single byte 0xFF is not UTF-8, and the call
    raises instead of returning a string. *)
Lemma resolve_raises_on_invalid_utf8 :
  resolve_stream_url [xff] = Raise UnicodeDecodeError.
Proof. reflexivity. Qed.

Lemma startswith_contains (s p : str) :
  contains s p = false -> startswith s p = false.
Proof. destruct s; cbn; intros H; now apply orb_false_iff in H as [? _]. Qed.

Lemma Forall_infix_of (P : N -> Prop) (l s : str) :
  infix_of l s -> Forall P s -> Forall P l.
Proof.
  intros (pre & post & ->) H.
  apply Forall_app in H as [_ H]. now apply Forall_app in H as [H _].
Qed.

(** Whatever [resolve_stream_url] returns consists of scalar values, so it
    can be encoded again. *)
Lemma resolve_result_scalar (x : bytes) (r : str) :
  resolve_stream_url x = Ret r -> Forall (fun c => is_scalar c = true) r.
Proof.
  intros Hr.
  destruct (decode_utf8 x) as [text|] eqn:Hd.
  - pose proof (decode_utf8_scalar _ _ Hd) as Ht.
    destruct (resolve_result_shape x text Hd) as (url & Hu & Hshape).
    rewrite Hr in Hu. injection Hu as <-.
    destruct Hshape as [->|(line & Hin & Hl)]; [exact Ht|].
    apply splitlines_lines in Hin as [_ Hi].
    pose proof (Forall_infix_of _ _ _ Hi Ht) as Hline.
    destruct Hl as [->| ->]; [exact Hline|].
    now apply Forall_app in Hline as [_ ?].
  - unfold resolve_stream_url in Hr. now rewrite Hd in Hr.
Qed.

(** Resolving again a result that begins with neither marker changes
    nothing. *)
Lemma resolve_again (x : bytes) (r : str) :
  resolve_stream_url x = Ret r ->
  startswith r (py "#EXTM3U") = false ->
  startswith r (py "[playlist]") = false ->
  exists y, encode_utf8 r = Some y /\ resolve_stream_url y = Ret r.
Proof.
  intros Hr Hm Hp.
  destruct (decode_encode_utf8 r (resolve_result_scalar x r Hr))
    as (y & He & Hd).
  exists y. split; [exact He|].
  unfold resolve_stream_url. now rewrite Hd, Hm, Hp.
Qed.

(** C9. [resolve_stream_url] is idempotent on resolved plain URLs: when the
    result for [x] contains no playlist marker, encoding it and resolving it
    again returns the same result. *)
Theorem resolve_idempotent (x : bytes) (r : str) :
  resolve_stream_url x = Ret r ->
  has_playlist_marker r = false ->
  exists y, encode_utf8 r = Some y /\ resolve_stream_url y = Ret r.
Proof.
  intros Hr Hmark. unfold has_playlist_marker in Hmark.
  apply orb_false_iff in Hmark as [Hm Hp].
  apply (resolve_again x r Hr); now apply startswith_contains.
Qed.

Lemma resolve_idempotent_witness :
  let x := b_ "[playlist]
NumberOfEntries=1
File1=http://stream.example/live2.mp3
" in
  let r := py "http://stream.example/live2.mp3" in
  resolve_stream_url x = Ret r /\
  has_playlist_marker r = false /\
  exists y, encode_utf8 r = Some y /\ resolve_stream_url y = Ret r.
Proof.
  intros x r.
  split; [reflexivity|]. split; [reflexivity|].
  apply (resolve_idempotent x r); reflexivity.
Defined.

(** A text without line boundary is its own single line. *)
Lemma splitlines_from_no_break (l : str) :
  forall (after_cr : bool) (acc : str),
    no_linebreak l ->
    splitlines_from after_cr acc l
    = match rev acc ++ l with [] => [] | line => [line] end.
Proof.
  induction l as [|c rest IH]; intros after_cr acc Hl; cbn [splitlines_from].
  - rewrite app_nil_r. destruct acc as [|a acc]; [reflexivity|].
    cbn [rev]. now destruct (rev acc ++ [a]) eqn:E; [destruct (rev acc)|].
  - apply Forall_cons in Hl as [Hc Hrest]. rewrite Hc.
    assert (Hnl : (c =? 10) = false).
    { destruct (c =? 10) eqn:E; [|reflexivity].
      apply N.eqb_eq in E. subst c. discriminate. }
    rewrite Hnl, andb_false_r. rewrite (IH false (c :: acc) Hrest).
    cbn [rev]. rewrite <- app_assoc. cbn [app].
    now destruct (rev acc).
Qed.

(** X20. [resolve_stream_url] is idempotent on everything it returns,
    playlist markers or not: a result can be encoded as UTF-8, and
    resolving these bytes gives the same result again. *)
Lemma resolve_idempotent_everywhere (x : bytes) (r : str) :
  resolve_stream_url x = Ret r ->
  exists y, encode_utf8 r = Some y /\ resolve_stream_url y = Ret r.
Proof.
  intros Hr.
  destruct (decode_encode_utf8 r (resolve_result_scalar x r Hr))
    as (y & He & Hd).
  exists y. split; [exact He|].
  destruct (decode_utf8 x) as [text|] eqn:Hx;
    [|unfold resolve_stream_url in Hr; now rewrite Hx in Hr].
  destruct (resolve_result_shape x text Hx) as (url & Hu & Hshape).
  rewrite Hr in Hu. injection Hu as <-.
  destruct Hshape as [->|(line & Hin & Hl)].
  - apply encode_decode_utf8 in Hx. rewrite Hx in He.
    injection He as <-. exact Hr.
  - assert (Hnb : no_linebreak r).
    { apply splitlines_lines in Hin as [Hnb _].
      destruct Hl as [->| ->]; [exact Hnb|].
      now apply Forall_app in Hnb as [_ ?]. }
    unfold resolve_stream_url. rewrite Hd. unfold splitlines.
    rewrite (splitlines_from_no_break r false [] Hnb). cbn [rev app].
    destruct (startswith r (py "#EXTM3U")) eqn:Hm.
    + apply startswith_true_iff in Hm as [rest ->]. reflexivity.
    + destruct (startswith r (py "[playlist]")) eqn:Hp; [|reflexivity].
      apply startswith_true_iff in Hp as [rest ->]. reflexivity.
Qed.

(** * The directory client *)


Lemma parse_xml_loop (l : list ET.Element) (acc : list station) :
  fold_left (fun stations outline => stations ++ [station_of outline]) l acc
  = acc ++ map station_of l.
Proof.
  revert acc. induction l as [|e l IH]; intros acc; cbn.
  - now rewrite app_nil_r.
  - rewrite IH. now rewrite <- app_assoc.
Qed.

Lemma station_of_copies (e : ET.Element) : station_copies (station_of e) e.
Proof.
  intros k. case_bool_decide as Hk.
  - unfold station_keys in Hk.
    repeat (apply elem_of_cons in Hk as [->|Hk]; [vm_compute; reflexivity|]).
    now apply elem_of_nil in Hk.
  - apply not_elem_of_list_to_map_1. exact Hk.
Qed.

Lemma is_outline_audio_iff (e : ET.Element) :
  ET.is_outline_audio e = true <->
  ET.tag e = py "outline" /\ ET.get e (py "type") = Some (py "audio").
Proof.
  unfold ET.is_outline_audio, str_eqb.
  rewrite andb_true_iff, bool_decide_eq_true.
  destruct (ET.get e (py "type")) as [v|].
  - rewrite bool_decide_eq_true. split; intros [? ?]; split; congruence.
  - split; intros [? ?]; discriminate.
Qed.

(** What [search_stations] does, by the outcome of its request. *)
Lemma search_stations_unfold (E : env) (query : json) (s : sys) :
  search_stations E query s =
  let s1 := {| sys_files := sys_files s; sys_stdout := sys_stdout s;
               sys_requests := S (sys_requests s) |} in
  match search_request E query s with
  | HttpFailure e =>
    (Ret [], {| sys_files := sys_files s;
                sys_stdout := sys_stdout s
                              ++ [LogErrorSearching (RequestException e)];
                sys_requests := S (sys_requests s) |})
  | HttpResponse status body =>
    if is_error_status status then
      (Ret [], {| sys_files := sys_files s;
                  sys_stdout := sys_stdout s
                    ++ [LogErrorSearching (RequestException (HTTPError status))];
                  sys_requests := S (sys_requests s) |})
    else
      let s2 := {| sys_files := <["response_content.xml" := RawBytes body]>
                                  (sys_files s);
                   sys_stdout := sys_stdout s ++ [LogResponseContent body];
                   sys_requests := S (sys_requests s) |} in
      match xml_fromstring E body with
      | None => (Raise ParseError, s2)
      | Some root =>
        (Ret (map station_of (ET.findall_outline_audio root)), s2)
      end
  end.
Proof.
  unfold search_stations, search_request, try_except, bind, requests_get.
  destruct (http_get E _ _ _) as [e|status body]; [reflexivity|].
  unfold raise_for_status. cbn [status_code content].
  destruct (is_error_status status); [reflexivity|].
  cbn. unfold parse_xml.
  destruct (xml_fromstring E body) as [root|]; [|reflexivity].
  unfold ret. now rewrite parse_xml_loop.
Qed.

(** [get_tunein_stations] returns what [search_stations] returns, and an
    empty list when it raises. *)
Lemma get_tunein_stations_result (E : env) (query : json) (p : player) :
  fst (get_tunein_stations E query p) =
  match fst (search_stations E query (process p)) with
  | Ret stations => Ret stations
  | Raise _ => Ret []
  end.
Proof.
  unfold get_tunein_stations, try_except, bind, on_sys.
  destruct (search_stations E query (process p)) as [[stations|e] s']; reflexivity.
Qed.

(** The state [get_tunein_stations] leaves differs from the one it found
    in the process only. *)
Lemma get_tunein_stations_run (E : env) (query : json) (p : player) :
  exists s',
    get_tunein_stations E query p =
    (match fst (search_stations E query (process p)) with
     | Ret stations => Ret stations
     | Raise _ => Ret []
     end, set_process s' p).
Proof.
  unfold get_tunein_stations, try_except, bind, on_sys, log, on_sys, print, modify.
  destruct (search_stations E query (process p)) as [[stations|e] s'];
    cbn; destruct p; cbn; eexists; reflexivity.
Qed.

(** C5 (as the code has it). [search_stations] returns an empty list when
    the request fails in the transport and when the status is 4xx or 5xx.
    When the body of any other response is not well-formed XML it raises
    [ParseError]; its caller [get_tunein_stations] returns an empty list in
    all three cases. *)
Theorem search_stations_failures (E : env) (query : json) (p : player) :
  match search_request E query (process p) with
  | HttpFailure _ =>
    fst (search_stations E query (process p)) = Ret [] /\
    fst (get_tunein_stations E query p) = Ret []
  | HttpResponse status body =>
    if is_error_status status then
      fst (search_stations E query (process p)) = Ret [] /\
      fst (get_tunein_stations E query p) = Ret []
    else
      match xml_fromstring E body with
      | None =>
        fst (search_stations E query (process p)) = Raise ParseError /\
        fst (get_tunein_stations E query p) = Ret []
      | Some root =>
        fst (search_stations E query (process p))
        = Ret (map station_of (ET.findall_outline_audio root))
      end
  end.
Proof.
  rewrite get_tunein_stations_result, search_stations_unfold. cbn zeta.
  destruct (search_request E query (process p)) as [e|status body].
  - split; reflexivity.
  - destruct (is_error_status status); [split; reflexivity|].
    destruct (xml_fromstring E body); [reflexivity|split; reflexivity].
Qed.

(** C5 fails as stated: a 200 response whose body is cut off makes
    [search_stations] raise. *)
Lemma search_stations_raises_on_malformed_xml :
  fst (search_stations (Fixtures.env_serving 200 Fixtures.doc_truncated)
                       (JStr (py "rock")) (Fixtures.fresh ∅))
  = Raise ParseError.
Proof. vm_compute. reflexivity. Qed.

(** C8 (as the code has it). On a 2xx response with a well-formed body,
    [search_stations] returns one station per element that lies strictly
    below the root, has the tag [outline] and the attribute [type] equal to
    [audio]; the stations follow the document order of these elements, and
    each holds exactly the thirteen attributes of its element, [None] for a
    missing one. *)
Theorem search_stations_success
        (E : env) (query : json) (s : sys) (status : Z) (body : bytes)
        (root : ET.Element) :
  search_request E query s = HttpResponse status body ->
  (200 <= status < 300)%Z ->
  xml_fromstring E body = Some root ->
  exists stations,
    fst (search_stations E query s) = Ret stations /\
    Forall2 station_copies stations
            (List.filter ET.is_outline_audio (ET.descendants root)).
Proof.
  intros Hreq Hstatus Hxml. rewrite search_stations_unfold. cbn zeta.
  rewrite Hreq. unfold is_error_status.
  replace ((400 <=? status)%Z && (status <? 600)%Z) with false
    by (symmetry; apply andb_false_iff; left; apply Z.leb_gt; lia).
  rewrite Hxml. eexists. split; [reflexivity|].
  unfold ET.findall_outline_audio.
  induction (List.filter ET.is_outline_audio (ET.descendants root)) as [|e l IH].
  - constructor.
  - constructor; [apply station_of_copies|exact IH].
Qed.

Lemma search_stations_success_witness :
  let E := Fixtures.env_serving 200 Fixtures.doc_one_station in
  let s := Fixtures.fresh ∅ in
  let query := JStr (py "rock") in
  search_request E query s = HttpResponse 200 Fixtures.doc_one_station /\
  (200 <= 200 < 300)%Z /\
  xml_fromstring E Fixtures.doc_one_station = Some Fixtures.tree_one_station /\
  exists stations,
    fst (search_stations E query s) = Ret stations /\
    Forall2 station_copies stations
            (List.filter ET.is_outline_audio
                         (ET.descendants Fixtures.tree_one_station)).
Proof.
  intros E s query.
  split; [reflexivity|]. split; [lia|]. split; [reflexivity|].
  apply (search_stations_success E query s 200 Fixtures.doc_one_station
                                 Fixtures.tree_one_station);
    [reflexivity|lia|reflexivity].
Defined.

(** Example 4 of the specification. *)
Example search_example_4 :
  match fst (search_stations (Fixtures.env_serving 200 Fixtures.doc_one_station)
                             (JStr (py "rock")) (Fixtures.fresh ∅)) with
  | Ret [st] =>
    st !! "text" = Some (Some (py "X")) /\ st !! "URL" = Some (Some (py "u"))
  | _ => False
  end.
Proof. vm_compute. split; reflexivity. Qed.

(** C8 fails as stated, twice: a document whose only element is an
    [outline] of type audio, and a document with an element of type audio
    that is not an [outline], both hold one element of type audio, and
    [search_stations] returns no station for either. *)
Lemma search_stations_misses_type_audio :
  (elements_of_type_audio Fixtures.outline_X = [Fixtures.outline_X] /\
   fst (search_stations (Fixtures.env_serving 200 Fixtures.doc_root_outline)
                        (JStr (py "rock")) (Fixtures.fresh ∅)) = Ret [])
  /\
  (length (elements_of_type_audio Fixtures.tree_link) = 1%nat /\
   fst (search_stations (Fixtures.env_serving 200 Fixtures.doc_link)
                        (JStr (py "rock")) (Fixtures.fresh ∅)) = Ret []).
Proof. repeat split; vm_compute; reflexivity. Qed.

(** C10. Whenever the request of [search_stations] is answered with a
    status that [raise_for_status] lets through, the file
    [response_content.xml] of the working directory holds the raw response
    bytes afterwards, whether the body then parses or not; no other file is
    touched. *)
Theorem search_stations_writes_response
        (E : env) (query : json) (s : sys) (status : Z) (body : bytes) :
  search_request E query s = HttpResponse status body ->
  is_error_status status = false ->
  sys_files (snd (search_stations E query s))
  = <["response_content.xml" := RawBytes body]> (sys_files s).
Proof.
  intros Hreq Hstatus. rewrite search_stations_unfold. cbn zeta.
  rewrite Hreq, Hstatus.
  destruct (xml_fromstring E body); reflexivity.
Qed.

Lemma search_stations_writes_response_witness :
  let E := Fixtures.env_serving 200 Fixtures.doc_truncated in
  let s := Fixtures.fresh {["response_content.xml" := RawBytes (b_ "old")]} in
  let query := JStr (py "rock") in
  search_request E query s = HttpResponse 200 Fixtures.doc_truncated /\
  is_error_status 200 = false /\
  sys_files (snd (search_stations E query s))
  = <["response_content.xml" := RawBytes Fixtures.doc_truncated]> (sys_files s).
Proof.
  intros E s query.
  split; [reflexivity|]. split; [reflexivity|].
  apply (search_stations_writes_response E query s 200 Fixtures.doc_truncated);
    reflexivity.
Defined.

(** When the request fails, or is answered with a 4xx or 5xx status, no file
    is written. *)
Lemma search_stations_no_write_on_failure (E : env) (query : json) (s : sys) :
  match search_request E query s with
  | HttpFailure _ => True
  | HttpResponse status _ => is_error_status status = true
  end ->
  sys_files (snd (search_stations E query s)) = sys_files s.
Proof.
  rewrite search_stations_unfold. cbn zeta.
  destruct (search_request E query s) as [e|status body]; [reflexivity|].
  now intros ->.
Qed.

(** * The player *)

Lemma set_process_same (p : player) : set_process (process p) p = p.
Proof. now destruct p. Qed.

(** The two paths that install a station list do this when the search
    finds nothing or fails. *)
Lemma category_selected_empty (E : env) (index : Z) (p : player) :
  empty_or_failed
    (fst (search_stations E
            (JStr (itemText (map (fun t => (t, tt)) category_items) index))
            (process p))) ->
  exists p',
    category_selected E index p = (Ret tt, p') /\
    channels p' = [] /\ channel_items p' = [] /\
    noise_fallback_triggered p'.
Proof.
  intros Hsearch. unfold category_selected.
  set (category := itemText _ index) in *.
  assert (Hget : fst (get_tunein_stations E (JStr category) p) = Ret []).
  { rewrite get_tunein_stations_result.
    destruct (fst (search_stations E (JStr category) (process p)))
      as [[|st l]|e]; [reflexivity|contradiction|reflexivity]. }
  unfold bind at 1.
  destruct (get_tunein_stations E (JStr category) p) as [r p1].
  cbn in Hget. subst r. destruct p1 as [v r m t vs ss ci items i f d cci pl ch s].
  unfold bind, modify, populate_channel_combo_box, channel_combo_box_clear,
    gets, bind, modify.
  cbn [set_channels set_channel_items set_channel_index channel_index channels id].
  unfold noise_fallback_triggered.
  destruct (i =? -1)%Z; cbn; eexists;
    (split; [reflexivity|]); cbn;
    (split; [reflexivity|split; [reflexivity|]]);
    exists m; now rewrite <- app_assoc.
Qed.

Lemma initial_load_empty (E : env) (p : player) :
  empty_or_failed
    (fst (search_stations E (JStr (category_currentText p)) (process p))) ->
  exists p',
    initial_load E p = (Ret tt, p') /\
    channels p' = [] /\
    media_calls p' = media_calls p /\
    channel_items p' = channel_items p /\
    dialogs p' = dialogs p ++ [ValueError "No channels found"].
Proof.
  intros Hsearch. unfold initial_load, try_except.
  unfold bind at 1. cbn [gets id].
  assert (Hget : fst (get_tunein_stations E (JStr (category_currentText p)) p)
                 = Ret []).
  { rewrite get_tunein_stations_result.
    destruct (fst (search_stations E _ (process p)))
      as [[|st l]|e]; [reflexivity|contradiction|reflexivity]. }
  destruct (get_tunein_stations_run E (JStr (category_currentText p)) p)
    as [s' Hrun].
  rewrite get_tunein_stations_result in Hget.
  unfold bind at 1. rewrite Hrun, Hget.
  destruct p. cbn. eexists. repeat split.
Qed.

(** C7 (as the code has it). When the search finds nothing or fails:
    on a category selection, [category_selected] returns with the empty
    station list installed, an empty channel box, and the noise fallback
    triggered; on the initial load, [__init__] installs the empty list,
    shows the error dialog "No channels found" and makes no call on the
    media player. *)
Theorem empty_search_routes
        (E : env) (index : Z) (p : player) :
  (empty_or_failed
     (fst (search_stations E
             (JStr (itemText (map (fun t => (t, tt)) category_items) index))
             (process p))) ->
   exists p',
     category_selected E index p = (Ret tt, p') /\
     channels p' = [] /\ channel_items p' = [] /\
     noise_fallback_triggered p')
  /\
  (empty_or_failed
     (fst (search_stations E (JStr (category_currentText p)) (process p))) ->
   exists p',
     initial_load E p = (Ret tt, p') /\
     channels p' = [] /\
     media_calls p' = media_calls p /\
     channel_items p' = channel_items p /\
     dialogs p' = dialogs p ++ [ValueError "No channels found"]).
Proof.
  split; [apply category_selected_empty|apply initial_load_empty].
Qed.

Lemma empty_search_routes_witness :
  let E := Fixtures.env_serving 500 Fixtures.doc_one_station in
  let p := widgets (Fixtures.fresh ∅) in
  (empty_or_failed
     (fst (search_stations E
             (JStr (itemText (map (fun t => (t, tt)) category_items) 1))
             (process p))) /\
   exists p',
     category_selected E 1 p = (Ret tt, p') /\
     channels p' = [] /\ channel_items p' = [] /\
     noise_fallback_triggered p')
  /\
  (empty_or_failed
     (fst (search_stations E (JStr (category_currentText p)) (process p))) /\
   exists p',
     initial_load E p = (Ret tt, p') /\
     channels p' = [] /\
     media_calls p' = media_calls p /\
     channel_items p' = channel_items p /\
     dialogs p' = dialogs p ++ [ValueError "No channels found"]).
Proof.
  intros E p.
  assert (H1 : empty_or_failed
                 (fst (search_stations E
                         (JStr (itemText (map (fun t => (t, tt)) category_items) 1))
                         (process p)))) by exact I.
  assert (H2 : empty_or_failed
                 (fst (search_stations E (JStr (category_currentText p))
                                       (process p)))) by exact I.
  split.
  - split; [exact H1|]. exact (proj1 (empty_search_routes E 1 p) H1).
  - split; [exact H2|]. exact (proj2 (empty_search_routes E 1 p) H2).
Defined.

(** C7 fails as stated on the initial load: with no settings file and no
    network, [__init__] ends with an empty station list, an error dialog,
    and not a single call made on the media player. *)
Lemma initial_load_empty_without_noise :
  let p := snd (create Fixtures.env_offline (Fixtures.fresh ∅)) in
  fst (create Fixtures.env_offline (Fixtures.fresh ∅)) = Ret tt /\
  channels p = [] /\ channel_items p = [] /\
  media_calls p = [] /\
  dialogs p = [ValueError "No channels found"] /\
  ~ noise_fallback_triggered p.
Proof.
  cbn zeta. repeat split; try (vm_compute; reflexivity).
  intros [earlier H]. vm_compute in H. now destruct earlier.
Qed.

(** ** A program logic for the window *)

Section Rules.
Context {A B : Type}.
Implicit Types (P : player -> Prop) (X : exn -> player -> Prop).

Lemma triple_conseq P P' (c : M player A) (Q Q' : A -> player -> Prop) X X' :
  triple P c Q X ->
  (forall p, P' p -> P p) ->
  (forall a p, Q a p -> Q' a p) ->
  (forall e p, X e p -> X' e p) ->
  triple P' c Q' X'.
Proof.
  intros H HP HQ HX p Hp. specialize (H p (HP p Hp)).
  destruct (c p) as [[a|e] p']; auto.
Qed.

Lemma triple_pre P P' (c : M player A) (Q : A -> player -> Prop) X :
  triple P c Q X -> (forall p, P' p -> P p) -> triple P' c Q X.
Proof. intros H HP. apply (triple_conseq _ _ _ _ _ _ _ H); auto. Qed.

(** A statement that never raises meets any condition on what it raises. *)
Lemma total_weaken P (c : M player A) (Q : A -> player -> Prop) X :
  triple P c Q (fun _ _ => False) -> triple P c Q X.
Proof. intros H. apply (triple_conseq _ _ _ _ _ _ _ H); auto. contradiction. Qed.

Lemma triple_ret P (a : A) (Q : A -> player -> Prop) X :
  (forall p, P p -> Q a p) -> triple P (ret a) Q X.
Proof. intros H p Hp. apply (H p Hp). Qed.

Lemma triple_bind P (c : M player A) (k : A -> M player B)
      (Q : A -> player -> Prop) (R : B -> player -> Prop) X :
  triple P c Q X -> (forall a, triple (Q a) (k a) R X) ->
  triple P (bind c k) R X.
Proof.
  intros Hc Hk p Hp. specialize (Hc p Hp). unfold bind.
  destruct (c p) as [[a|e] p']; [apply (Hk a p' Hc)|exact Hc].
Qed.

(** Reading the window: the continuation starts in the state read. *)
Lemma triple_gets_bind P (k : player -> M player B)
      (R : B -> player -> Prop) X :
  (forall q, P q -> triple (fun p => p = q) (k q) R X) ->
  triple P (bind (gets id) k) R X.
Proof. intros Hk p Hp. apply (Hk p Hp p eq_refl). Qed.

Lemma triple_lift_bind P (o : outcome A) (k : A -> M player B)
      (R : B -> player -> Prop) X :
  match o with
  | Ret a => triple P (k a) R X
  | Raise e => forall p, P p -> X e p
  end ->
  triple P (bind (lift_outcome o) k) R X.
Proof. destruct o as [a|e]; intros H p Hp; apply (H p Hp). Qed.

Lemma triple_try_except P (c : M player A) handles (h : exn -> M player A)
      (Q : A -> player -> Prop) X1 X :
  triple P c Q X1 ->
  (forall e, handles e = true -> triple (X1 e) (h e) Q X) ->
  (forall e p, handles e = false -> X1 e p -> X e p) ->
  triple P (try_except c handles h) Q X.
Proof.
  intros Hc Hh Hx p Hp. specialize (Hc p Hp). unfold try_except.
  destruct (c p) as [[a|e] p']; [exact Hc|].
  destruct (handles e) eqn:He; [apply (Hh e He p' Hc)|apply (Hx e p' He Hc)].
Qed.
End Rules.

Lemma triple_modify (P : player -> Prop) (f : player -> player)
      (Q : unit -> player -> Prop) X :
  (forall p, P p -> Q tt (f p)) -> triple P (modify f) Q X.
Proof. intros H p Hp. apply (H p Hp). Qed.

Lemma triple_on_sys {A} (P : player -> Prop) (c : M sys A)
      (Q : A -> player -> Prop) X :
  (forall p, P p ->
     match c (process p) with
     | (Ret a, s') => Q a (set_process s' p)
     | (Raise e, s') => X e (set_process s' p)
     end) ->
  triple P (on_sys c) Q X.
Proof.
  intros H p Hp. specialize (H p Hp). unfold on_sys.
  destruct (c (process p)) as [[a|e] s']; exact H.
Qed.

Lemma triple_for_each {A} (I : player -> Prop) (l : list A)
      (body : A -> M player unit) X :
  (forall x, In x l -> triple I (body x) (fun _ => I) X) ->
  triple I (for_each l body) (fun _ => I) X.
Proof.
  induction l as [|x l IH]; intros H; cbn [for_each].
  - now apply triple_ret.
  - apply triple_bind with (Q := fun _ => I); [apply H; now left|].
    intros _. apply IH. intros y Hy. apply H. now right.
Qed.

(** What the methods of the window do to a stable assertion. *)
Section Frame.
Variable E : env.
Variable I : player -> Prop.
Hypothesis HI : stable I.
Let I_process := st_process I HI.
Let I_media := st_media I HI.
Let I_items := st_items I HI.
Let I_index := st_index I HI.
Let I_text := st_text I HI.
Let I_playing := st_playing I HI.

Lemma total_on_sys {A} (c : M sys A) :
  (forall s, exists a, fst (c s) = Ret a) -> total I (on_sys c).
Proof.
  intros Hc. apply triple_on_sys. intros p Hp.
  destruct (Hc (process p)) as [a Ha].
  destruct (c (process p)) as [[a'|e] s']; [|discriminate].
  apply I_process, Hp.
Qed.

Lemma inv_on_sys {A} (c : M sys A) : inv I (on_sys c).
Proof.
  apply triple_on_sys. intros p Hp.
  destruct (c (process p)) as [[a'|e] s']; apply I_process, Hp.
Qed.

Lemma total_log (l : log_line) : total I (log l).
Proof. apply total_on_sys. intros s. now exists tt. Qed.

Lemma total_player_call (c : media_call) : total I (player_call c).
Proof. intros p Hp. apply I_media, Hp. Qed.

Lemma total_save_settings : total I save_settings.
Proof. intros p Hp. apply I_process, Hp. Qed.

Ltac chain lem := apply triple_bind with (Q := fun _ => I); [apply lem|intros _].

Lemma total_play :
  triple (fun p => I p /\ truthy (is_playing p) = true) play
         (fun _ => I) (fun _ _ => False).
Proof.
  intros p [Hp Hpl]. pose proof (I_playing p Hp) as H. rewrite Hpl in H.
  destruct p. cbn in *.
  apply (I_process _ _ (I_text _ "Pause"%string (I_media _ _ H))).
Qed.

Lemma total_pause :
  triple (fun p => I p /\ truthy (is_playing p) = false) pause
         (fun _ => I) (fun _ _ => False).
Proof.
  intros p [Hp Hpl]. pose proof (I_playing p Hp) as H. rewrite Hpl in H.
  destruct p. cbn in *.
  apply (I_process _ _ (I_text _ "Play"%string (I_media _ _ H))).
Qed.

(** [if self.is_playing: self.play()] *)
Lemma total_play_if_playing :
  total I (p <- gets id ;; if truthy (is_playing p) then play else ret tt).
Proof.
  apply triple_gets_bind. intros q Hq.
  destruct (truthy (is_playing q)) eqn:Hpl.
  - apply (triple_conseq _ _ _ _ _ _ _ total_play); auto. now intros p ->.
  - apply triple_ret. now intros p ->.
Qed.

Lemma total_play_noise : total I play_noise.
Proof.
  unfold play_noise. chain total_log. chain total_player_call.
  apply total_player_call.
Qed.

Lemma total_set_channel (url : option str) : total I (set_channel E url).
Proof.
  unfold set_channel. chain total_log.
  apply triple_try_except with (X1 := fun _ => I).
  - apply triple_bind with (Q := fun _ => I); [apply inv_on_sys|intros response].
    apply triple_lift_bind.
    destruct (resolve_stream_url (content response)); [|auto].
    apply total_weaken. chain total_log. apply total_player_call.
  - intros e _. chain total_log. apply total_play_noise.
  - discriminate.
Qed.

Lemma total_channel_selected (index : Z) : total I (channel_selected E index).
Proof.
  unfold channel_selected. destruct (0 <=? index)%Z; [|now apply triple_ret].
  apply triple_gets_bind. intros q Hq.
  apply triple_bind with (Q := fun _ => I).
  - apply (triple_conseq _ _ _ _ _ _ _ (total_set_channel _)); auto.
    now intros p ->.
  - intros _. apply total_play_if_playing.
Qed.

(** A slot run through [emit] cannot make the emitting code raise. *)
Lemma total_emit (slot : M player unit) : inv I slot -> total I (emit slot).
Proof.
  intros H p Hp. specialize (H p Hp). unfold emit.
  destruct (slot p) as [[a|e] p']; [exact H|].
  apply I_process, H.
Qed.

Lemma total_channel_combo_box_clear : total I (channel_combo_box_clear E).
Proof.
  unfold channel_combo_box_clear.
  apply triple_gets_bind. intros q Hq.
  apply triple_bind with (Q := fun _ => I);
    [apply triple_modify; intros p ->; auto|intros _].
  apply triple_bind with (Q := fun _ => I);
    [apply triple_modify; auto|intros _].
  destruct (channel_index q =? -1)%Z; [now apply triple_ret|].
  apply total_emit, total_weaken, total_channel_selected.
Qed.

Lemma total_channel_combo_box_addItem (text data : option str) :
  total I (channel_combo_box_addItem E text data).
Proof.
  unfold channel_combo_box_addItem.
  apply triple_gets_bind. intros q Hq.
  apply triple_bind with (Q := fun _ => I);
    [apply triple_modify; intros p ->; auto|intros _].
  destruct (channel_items q); [|now apply triple_ret].
  apply triple_bind with (Q := fun _ => I);
    [apply triple_modify; auto|intros _].
  apply total_emit, total_weaken, total_channel_selected.
Qed.

(** Filling the channel box keeps the invariant; it can only raise
    [KeyError], for a station without the keys [text] and [URL]. *)
Lemma populate_channel_combo_box_kept :
  triple I (populate_channel_combo_box E) (fun _ => I)
         (fun e p => I p /\ e = KeyError).
Proof.
  unfold populate_channel_combo_box.
  apply triple_bind with (Q := fun _ => I);
    [apply total_weaken, total_channel_combo_box_clear|intros _].
  apply triple_gets_bind. intros q Hq.
  apply triple_bind with (Q := fun _ => I).
  - apply (triple_pre I); [|now intros p ->].
    apply triple_for_each. intros st _.
    apply triple_lift_bind. unfold station_getitem.
    destruct (st !! "text"); [|auto].
    apply triple_lift_bind. destruct (st !! "URL"); [|auto].
    apply total_weaken, total_channel_combo_box_addItem.
  - intros _. apply triple_gets_bind. intros q' Hq'.
    apply (triple_conseq _ _ _ _ _ _ _ (total_log _)); auto;
      [now intros p ->|contradiction].
Qed.

Lemma total_populate_channel_combo_box :
  (forall p, I p ->
     Forall (fun st : station => is_Some (st !! "text") /\ is_Some (st !! "URL"))
            (channels p)) ->
  total I (populate_channel_combo_box E).
Proof.
  intros I_keys. unfold populate_channel_combo_box.
  chain total_channel_combo_box_clear.
  apply triple_gets_bind. intros q Hq.
  apply triple_bind with (Q := fun _ => I).
  - apply (triple_pre I); [|now intros p ->].
    apply triple_for_each. intros st Hst.
    pose proof (I_keys q Hq) as Hk. rewrite List.Forall_forall in Hk.
    destruct (Hk st Hst) as [[text Ht] [url Hu]].
    unfold station_getitem. rewrite Ht, Hu.
    do 2 apply triple_lift_bind.
    apply total_channel_combo_box_addItem.
  - intros _. apply triple_gets_bind. intros q' Hq'.
    apply (triple_conseq _ _ _ _ _ _ _ (total_log _)); auto. now intros p ->.
Qed.

Lemma total_get_tunein_stations (query : json) :
  total I (get_tunein_stations E query).
Proof.
  unfold get_tunein_stations.
  apply triple_try_except with (X1 := fun _ => I).
  - apply triple_bind with (Q := fun _ => I); [apply inv_on_sys|intros stations].
    apply total_weaken. chain total_log. chain total_log. now apply triple_ret.
  - intros e _. chain total_log. now apply triple_ret.
  - discriminate.
Qed.

Hypothesis I_channels : forall p l, I p -> I (set_channels l p).

Lemma category_selected_kept (index : Z) : inv I (category_selected E index).
Proof.
  unfold category_selected.
  apply triple_bind with (Q := fun _ => I);
    [apply total_weaken, total_get_tunein_stations|intros stations].
  apply triple_bind with (Q := fun _ => I); [apply triple_modify; auto|intros _].
  apply triple_bind with (Q := fun _ => I).
  { apply (triple_conseq _ _ _ _ _ _ _ populate_channel_combo_box_kept); auto.
    now intros e p [? _]. }
  intros _. apply triple_gets_bind. intros q Hq.
  apply (triple_pre I); [|now intros p ->].
  destruct (channels q) as [|st l]; [apply total_weaken, total_play_noise|].
  apply triple_lift_bind. destruct (list_getitem (st :: l) (JInt 0)); [|auto].
  apply triple_lift_bind. destruct (station_getitem _ _); [|auto].
  apply total_weaken.
  chain total_set_channel. apply total_play_if_playing.
Qed.

Hypothesis I_category : forall p i, I p -> I (set_category_index i p).

Lemma total_category_combo_box_setCurrentIndex (index : Z) :
  total I (category_combo_box_setCurrentIndex E index).
Proof.
  unfold category_combo_box_setCurrentIndex.
  apply triple_gets_bind. intros q Hq.
  apply (triple_pre I); [|now intros p ->].
  match goal with |- context [if ?b then ret tt else _] => destruct b end;
    [now apply triple_ret|].
  apply triple_bind with (Q := fun _ => I); [apply triple_modify; auto|intros _].
  apply total_emit, category_selected_kept.
Qed.

Lemma total_category_combo_box_setCurrentText (text : str) :
  total I (category_combo_box_setCurrentText E text).
Proof.
  unfold category_combo_box_setCurrentText.
  destruct (0 <=? findText category_items text 0)%Z;
    [apply total_category_combo_box_setCurrentIndex|now apply triple_ret].
Qed.

End Frame.

(** ** Loading the settings *)

Lemma dict_get_JDict items key default :
  dict_get (JDict items) key default = Ret (dict_value items key default).
Proof.
  unfold dict_get, dict_value.
  now destruct (List.find _ items) as [[k v]|].
Qed.

Lemma dict_value_lacks items key default :
  lacks_key items key -> dict_value items key default = default.
Proof. unfold lacks_key, dict_value. now intros ->. Qed.

Lemma as_number_safe v : not_FileNotFound (as_number v).
Proof. now destruct v. Qed.

Lemma to_double_safe n : not_FileNotFound (to_double n).
Proof.
  destruct n as [z|f]; unfold to_double; [|exact I].
  now destruct (PrimFloat.is_infinity (float_of_Z z)).
Qed.

Lemma int_of_number_safe n : not_FileNotFound (int_of_number n).
Proof.
  destruct n as [z|f]; unfold int_of_number; [exact I|].
  now destruct (Prim2SF f).
Qed.

Lemma to_c_int_safe z : not_FileNotFound (to_c_int z).
Proof. unfold to_c_int. now destruct (_ && _). Qed.

Lemma as_qstring_safe v : not_FileNotFound (as_qstring v).
Proof. now destruct v. Qed.

Lemma list_getitem_safe {A} (l : list A) i : not_FileNotFound (list_getitem l i).
Proof.
  destruct i; cbn; try reflexivity;
    (destruct (_ && _); [|reflexivity]); now destruct (nth_error _ _).
Qed.

Lemma station_getitem_safe (st : station) key :
  not_FileNotFound (station_getitem st key).
Proof. unfold station_getitem. now destruct (st !! key). Qed.

(** A value that cannot stand for [FileNotFoundError], inside the [try] of
    [load_settings]. *)
Lemma triple_lift_safe {A B} (P : player -> Prop) (o : outcome A)
      (k : A -> M player B) (R : B -> player -> Prop) :
  not_FileNotFound o ->
  (forall a, o = Ret a ->
     triple P (k a) R (fun e _ => is_FileNotFoundError e = false)) ->
  triple P (bind (lift_outcome o) k) R
         (fun e _ => is_FileNotFoundError e = false).
Proof.
  intros Ho Hk. apply triple_lift_bind. destruct o as [a|e]; [now apply Hk|].
  intros _ _. exact Ho.
Qed.

Lemma stage_stable items n : stable (stage items n).
Proof.
  split; try (now intros []).
  intros p (H1 & H2 & H3 & H4 & H5). destruct p; cbn in *.
  repeat split; auto. intros Hn Hl. now rewrite (H2 Hn Hl).
Qed.

Lemma stage_channels items n p l : stage items n p -> stage items n (set_channels l p).
Proof. now destruct p. Qed.

Lemma stage_focus items n p w : stage items n p -> stage items n (set_focus w p).
Proof. now destruct p. Qed.

Lemma stage_category items n p i :
  (n <= 4)%nat -> stage items n p -> stage items n (set_category_index i p).
Proof.
  intros Hn (H1 & H2 & H3 & H4 & H5). destruct p; cbn in *.
  repeat split; auto. lia.
Qed.

(** Moving the volume slider keeps the stage: when the volume is the
    default one the slider goes to 50, and [change_volume] sets the volume
    to 50/100 again. *)
Lemma setValue_stage3 items value :
  (lacks_key items (py "volume") -> value = 50%Z) ->
  total (stage items 3) (volume_slider_setValue value).
Proof.
  intros Hv p (H1 & H2 & H3 & H4 & H5).
  unfold volume_slider_setValue, bind, gets, id.
  destruct (Z.max 0 (Z.min 100 value) =? volume_slider p)%Z eqn:Eq.
  - cbn. repeat split; auto.
  - destruct p; cbn in *. repeat split; auto; try lia.
    intros _ Hl. rewrite (Hv Hl). reflexivity.
Qed.

(** Selecting the category by its text: after it, the default text has
    made the first category current. *)
Lemma setCurrentText_stage5 (E : env) items text :
  (lacks_key items (py "currentCategory") -> text = py "classical") ->
  triple (stage items 4) (category_combo_box_setCurrentText E text)
         (fun _ => stage items 5) (fun _ _ => False).
Proof.
  intros Ht.
  assert (Hup : forall p, stage items 4 p ->
            (lacks_key items (py "currentCategory") -> category_index p = 0%Z) ->
            stage items 5 p).
  { intros p (H1 & H2 & H3 & H4 & _) H5. repeat split; auto. }
  unfold category_combo_box_setCurrentText, category_combo_box_setCurrentIndex.
  destruct (0 <=? findText category_items text 0)%Z eqn:Efound.
  - apply triple_gets_bind. intros q Hq.
    cbv zeta.
    match goal with
    | |- context [(?x =? category_index q)%Z] => set (i' := x) in *
    end.
    assert (Hi' : lacks_key items (py "currentCategory") -> i' = 0%Z).
    { intros Hl. subst i'. now rewrite (Ht Hl). }
    destruct (i' =? category_index q)%Z eqn:Eq.
    + apply triple_ret. intros p ->. apply Hup; [exact Hq|].
      intros Hl. apply Z.eqb_eq in Eq. rewrite <- Eq. now apply Hi'.
    + apply triple_bind with (Q := fun _ => stage items 5).
      * apply triple_modify. intros p ->. apply Hup.
        -- apply stage_category; [lia|exact Hq].
        -- intros Hl. destruct q; cbn. now apply Hi'.
      * intros _. apply total_emit; [apply stage_stable|].
        apply category_selected_kept; [apply stage_stable|].
        intros p l. apply stage_channels.
  - apply triple_ret. intros p Hp. apply Hup; [exact Hp|].
    intros Hl. rewrite (Ht Hl) in Efound. discriminate.
Qed.

Lemma setVolume_default (p : player) :
  audio_output_setVolume 0.5 p = (Ret tt, set_audio_volume 0.5 p).
Proof. reflexivity. Qed.

Lemma default_percent :
  int_of_number (number_mul_int (NumFloat 0.5) 100) = Ret 50%Z.
Proof. vm_compute. reflexivity. Qed.

Lemma list_getitem_first {A} (x : A) (l : list A) :
  list_getitem (x :: l) (JInt 0) = Ret x.
Proof.
  unfold list_getitem. cbn [Z.ltb Z.compare Z.leb andb].
  replace (0 <? Z.of_nat (length (x :: l)))%Z with true
    by (symmetry; apply Z.ltb_lt; cbn [length]; lia).
  reflexivity.
Qed.

Lemma setValue_same (p : player) :
  volume_slider p = 50%Z -> volume_slider_setValue 50 p = (Ret tt, p).
Proof. intros H. unfold volume_slider_setValue, bind, gets. cbn. now rewrite H. Qed.

Lemma setCurrentText_default (E : env) (p : player) :
  category_index p = 0%Z ->
  category_combo_box_setCurrentText E (py "classical") p = (Ret tt, p).
Proof.
  intros H. unfold category_combo_box_setCurrentText.
  change (findText category_items (py "classical") 0) with 0%Z. cbn.
  unfold category_combo_box_setCurrentIndex, bind, gets. cbn.
  now rewrite H.
Qed.

(** Every station [search_stations] returns has the keys the window reads. *)
Lemma search_stations_keys (E : env) (query : json) (s : sys)
      (stations : list station) :
  fst (search_stations E query s) = Ret stations ->
  Forall (fun st : station => is_Some (st !! "text") /\ is_Some (st !! "URL"))
         stations.
Proof.
  rewrite search_stations_unfold. cbn zeta.
  destruct (search_request E query s) as [e|status body].
  - intros [= <-]. constructor.
  - destruct (is_error_status status); [intros [= <-]; constructor|].
    destruct (xml_fromstring E body) as [root|]; [|discriminate].
    intros [= <-]. apply Forall_map, List.Forall_forall. intros e _.
    rewrite !station_of_copies. split; eexists; reflexivity.
Qed.

Lemma triple_pure {A} (phi : Prop) (P : player -> Prop) (c : M player A)
      (Q : A -> player -> Prop) X :
  (phi -> triple P c Q X) -> triple (fun p => phi /\ P p) c Q X.
Proof. intros H p [Hphi Hp]. apply (H Hphi p Hp). Qed.

Lemma stage_0 items p : stage items 0 p.
Proof. repeat split; intros Hn; exfalso; lia. Qed.

(** When the file holds a JSON object, each setting whose key is missing
    ends with its default, provided [load_settings] returns. *)
Lemma load_settings_missing_keys (E : env) (p : player)
      (data : file_content) (items : list (str * json)) (p' : player) :
  sys_files (process p) !! settings_file = Some data ->
  json_load_file E data = Ret (JDict items) ->
  load_settings E p = (Ret tt, p') ->
  stage items 5 p'.
Proof.
  intros Hfile Hjson Hload.
  set (X := fun (e : exn) (_ : player) => is_FileNotFoundError e = false).
  assert (T : triple (fun q => q = p) (load_settings E)
                     (fun _ => stage items 5) (fun _ _ => True)).
  { unfold load_settings. apply triple_try_except with (X1 := X).
    2:{ intros e He q Hq. unfold X in Hq. congruence. }
    2:{ auto. }
    apply triple_bind with (Q := fun d q => d = data /\ stage items 0 q).
    { apply triple_on_sys. intros q ->. unfold read_file. rewrite Hfile.
      split; [reflexivity|apply stage_0]. }
    intros d. apply triple_pure. intros ->.
    rewrite Hjson. apply triple_lift_bind. rewrite !dict_get_JDict.
    apply triple_lift_bind. set (volume := dict_value items (py "volume") _).
    apply triple_lift_bind. set (rate := dict_value items (py "playbackRate") _).
    apply triple_lift_bind.
    set (idx := dict_value items (py "currentChannelIndex") _).
    apply triple_bind with (Q := fun _ => stage items 1).
    { apply triple_modify. intros q (H1 & H2 & H3 & H4 & H5).
      destruct q; cbn in *. repeat split; auto; try (intros; exfalso; lia).
      intros _ Hl. subst idx. now apply dict_value_lacks. }
    intros _. apply triple_lift_bind.
    set (playing := dict_value items (py "isPlaying") _).
    apply triple_bind with (Q := fun _ => stage items 2).
    { apply triple_modify. intros q (H1 & H2 & H3 & H4 & H5).
      destruct q; cbn in *. repeat split; auto; try (intros; exfalso; lia).
      intros _ Hl. subst playing. now apply dict_value_lacks. }
    intros _. apply triple_lift_bind.
    set (category := dict_value items (py "currentCategory") _).
    apply triple_lift_safe; [apply as_number_safe|intros volume_n Hvn].
    apply triple_lift_safe; [apply to_double_safe|intros volume_d Hvd].
    apply triple_bind with (Q := fun _ => stage items 3).
    { intros q (H1 & H2 & H3 & H4 & H5). destruct q; cbn in *.
      repeat split; auto; try (intros; exfalso; lia).
      intros _ Hl. subst volume. rewrite dict_value_lacks in Hvn by exact Hl.
      injection Hvn as <-. injection Hvd as <-. reflexivity. }
    intros _.
    apply triple_lift_safe; [apply int_of_number_safe|intros percent Hpc].
    apply triple_lift_safe; [apply to_c_int_safe|intros percent' Hpc'].
    apply triple_bind with (Q := fun _ => stage items 3).
    { apply total_weaken, setValue_stage3. intros Hl. subst volume.
      rewrite dict_value_lacks in Hvn by exact Hl. injection Hvn as <-.
      rewrite default_percent in Hpc. injection Hpc as <-.
      now injection Hpc' as <-. }
    intros _.
    apply triple_lift_safe; [apply as_number_safe|intros rate_n Hrn].
    apply triple_lift_safe; [apply to_double_safe|intros rate_d Hrd].
    apply triple_bind with (Q := fun _ => stage items 4).
    { apply triple_modify. intros q (H1 & H2 & H3 & H4 & H5).
      destruct q; cbn in *. repeat split; auto; try (intros; exfalso; lia).
      intros _ Hl. subst rate. rewrite dict_value_lacks in Hrn by exact Hl.
      injection Hrn as <-. now injection Hrd as <-. }
    intros _.
    apply triple_lift_safe; [apply as_qstring_safe|intros text Htext].
    apply triple_bind with (Q := fun _ => stage items 5).
    { apply total_weaken, setCurrentText_stage5. intros Hl. subst category.
      rewrite dict_value_lacks in Htext by exact Hl. now injection Htext as <-. }
    intros _.
    pose proof (stage_stable items 5) as HI.
    apply triple_bind with (Q := fun _ => stage items 5);
      [now apply total_weaken, total_get_tunein_stations|intros stations].
    apply triple_bind with (Q := fun _ => stage items 5);
      [apply triple_modify; intros q; apply stage_channels|intros _].
    apply triple_bind with (Q := fun _ => stage items 5).
    { apply (triple_conseq _ _ _ _ _ _ _
               (populate_channel_combo_box_kept E _ HI)); auto.
      now intros e q [_ ->]. }
    intros _. apply triple_gets_bind. intros q Hq.
    apply (triple_pre (stage items 5)); [|now intros ? ->].
    apply triple_lift_safe; [apply list_getitem_safe|intros station _].
    apply triple_lift_safe; [apply station_getitem_safe|intros url _].
    apply triple_bind with (Q := fun _ => stage items 5);
      [now apply total_weaken, total_set_channel|intros _].
    apply triple_gets_bind. intros q' Hq'.
    apply triple_bind with (Q := fun _ => stage items 5).
    { destruct (truthy (is_playing q')) eqn:Hpl; apply total_weaken.
      - apply (triple_pre _ _ _ _ _ (total_play _ HI)). now intros ? ->.
      - apply (triple_pre _ _ _ _ _ (total_pause _ HI)). now intros ? ->. }
    intros _. apply triple_modify. intros ?. apply stage_focus. }
  specialize (T p eq_refl). now rewrite Hload in T.
Qed.

Local Arguments py : simpl never.
Local Arguments get_tunein_stations : simpl never.
Local Arguments populate_channel_combo_box : simpl never.
Local Arguments set_channel : simpl never.
Local Arguments pause : simpl never.
Local Arguments play : simpl never.
Local Arguments audio_output_setVolume : simpl never.
Local Arguments int_of_number : simpl never.
Local Arguments number_mul_int : simpl never.
Local Arguments category_combo_box_setCurrentText : simpl never.
Local Arguments volume_slider_setValue : simpl never.

(** With no settings file, the [except] branch runs; on the window as
    [__init__] built it, it changes nothing but the two values it assigns. *)
Lemma load_settings_absent (E : env) (p : player) :
  category_index p = 0%Z -> volume_slider p = 50%Z ->
  sys_files (process p) !! settings_file = None ->
  load_settings E p
  = (Ret tt, set_audio_volume 0.5 (set_current_channel_index (JInt 0) p)).
Proof.
  intros Hci Hvs Hfile.
  destruct p as [v r m t vs ss ci its i f d cci pl ch s].
  cbn in Hci, Hvs, Hfile. subst ci vs.
  unfold load_settings, try_except.
  unfold bind at 1. unfold on_sys at 1, read_file. cbn [process].
  rewrite Hfile. reflexivity.
Qed.

(** With a settings object that has none of the five keys, on the window
    as [__init__] built it, and a search for the default category that
    finds a station, [load_settings] returns. *)
Lemma load_settings_returns (E : env) (p : player)
      (data : file_content) (items : list (str * json))
      (st : station) (rest : list station) :
  category_index p = 0%Z -> volume_slider p = 50%Z ->
  sys_files (process p) !! settings_file = Some data ->
  json_load_file E data = Ret (JDict items) ->
  Forall (lacks_key items) settings_keys ->
  fst (search_stations E (JStr (py "classical")) (process p)) = Ret (st :: rest) ->
  exists p', load_settings E p = (Ret tt, p').
Proof.
  intros Hci Hvs Hfile Hjson Hkeys Hsearch.
  destruct p as [v r m t vs ss ci its i f d cci pl ch s].
  cbn [category_index volume_slider process] in Hci, Hvs, Hfile, Hsearch.
  subst ci vs.
  unfold settings_keys in Hkeys.
  repeat match goal with
         | H : Forall _ (_ :: _) |- _ => apply Forall_cons in H as [? H]
         end.
  unfold lacks_key in *.
  unfold load_settings, try_except.
  unfold bind at 1. unfold on_sys at 1, read_file. cbn [process].
  rewrite Hfile. cbn [set_process].
  unfold bind at 1. rewrite Hjson. cbn [lift_outcome].
  unfold dict_get.
  repeat match goal with
         | H : List.find _ _ = None |- _ => rewrite H; clear H
         end.
  cbn.
  unfold bind at 1. rewrite setVolume_default. cbn [set_audio_volume].
  unfold bind at 1. rewrite default_percent. cbn [lift_outcome].
  unfold bind at 1.
  cbn [lift_outcome to_c_int Z.leb Z.compare Pos.compare Pos.compare_cont
       andb Z.opp].
  unfold bind at 1. rewrite setValue_same by reflexivity.
  unfold bind at 1. cbn [lift_outcome].
  unfold bind at 1. cbn [lift_outcome to_double].
  unfold bind at 1. cbn [modify set_playback_rate].
  unfold bind at 1. cbn [lift_outcome].
  unfold bind at 1. rewrite setCurrentText_default by reflexivity.
  unfold bind at 1.
  match goal with
  | |- context [get_tunein_stations E ?q ?p1] =>
    destruct (get_tunein_stations_run E q p1) as [s' ->]
  end.
  cbn [process]. rewrite Hsearch. cbn [set_process].
  unfold bind at 1. cbn [modify set_channels].
  pose proof (search_stations_keys _ _ _ _ Hsearch) as Hst.
  set (I := fun q : player =>
              is_playing q = JBool false /\ current_channel_index q = JInt 0 /\
              channels q = st :: rest).
  assert (HI : stable I).
  { split; try (now intros []).
    intros q (Hpl & ? & ?). destruct q; cbn in *. now rewrite Hpl. }
  assert (I_keys : forall q, I q ->
            Forall (fun st : station =>
                      is_Some (st !! "text") /\ is_Some (st !! "URL"))
                   (channels q)).
  { intros q (_ & _ & ->). exact Hst. }
  match goal with
  | |- context [bind (populate_channel_combo_box E) ?k ?p3] =>
    assert (Htail : total I (bind (populate_channel_combo_box E) k));
      [|specialize (Htail p3 ltac:(now repeat split));
        destruct (bind (populate_channel_combo_box E) k p3) as [[[]|e] p']]
  end.
  - apply triple_bind with (Q := fun _ => I);
      [now apply total_populate_channel_combo_box|intros _].
    apply triple_gets_bind. intros q Hq.
    apply (triple_pre I); [|now intros ? ->].
    destruct Hq as (Hpl & Hcci & Hch). rewrite Hcci, Hch.
    rewrite list_getitem_first. apply triple_lift_bind.
    apply Forall_cons in Hst as [[_ [url Hurl]] _].
    unfold station_getitem. rewrite Hurl. apply triple_lift_bind.
    apply triple_bind with (Q := fun _ => I);
      [now apply total_set_channel|intros _].
    apply triple_gets_bind. intros q' Hq'.
    pose proof Hq' as (Hpl' & _). rewrite Hpl'. cbn [truthy].
    apply triple_bind with (Q := fun _ => I).
    + apply (triple_pre _ _ _ _ _ (total_pause _ HI)).
      intros ? ->. split; [exact Hq'|now rewrite Hpl'].
    + intros _. apply triple_modify. now intros [].
  - now exists p'.
  - contradiction.
Qed.

Lemma built_before_load_settings (E : env) (s : sys) :
  window_as_built
    (snd ((modify (set_current_channel_index (JInt 0)) ;;
           generate_noise E ;;
           modify (set_is_playing (JBool false))) (widgets s))).
Proof. repeat split. Qed.

(** C6 (as the code has it). With no settings file, [load_settings]
    returns and the settings are the documented defaults. With a file that
    holds a JSON object, every setting whose key is missing has its default
    when [load_settings] returns; and it does return, with all five
    defaults, when none of the five keys is present and the search for the
    default category finds a station. *)
Theorem load_settings_defaults (E : env) (p : player) :
  (sys_files (process p) !! settings_file = None ->
   window_as_built p ->
   exists p', load_settings E p = (Ret tt, p') /\ has_default_settings p')
  /\
  (forall data items,
      sys_files (process p) !! settings_file = Some data ->
      json_load_file E data = Ret (JDict items) ->
      (forall p', load_settings E p = (Ret tt, p') ->
                  defaults_for_missing items p')
      /\
      (Forall (lacks_key items) settings_keys ->
       window_as_built p ->
       (exists st rest,
           fst (search_stations E (JStr (py "classical")) (process p))
           = Ret (st :: rest)) ->
       exists p', load_settings E p = (Ret tt, p') /\ has_default_settings p')).
Proof.
  split.
  - intros Hfile (Hci & Hvs & Hpl & Hrate).
    rewrite (load_settings_absent E p Hci Hvs Hfile). eexists.
    split; [reflexivity|].
    destruct p; cbn in *. subst. repeat split.
  - intros data items Hfile Hjson. split.
    + intros p'. now apply load_settings_missing_keys with (data := data).
    + intros Hkeys (Hci & Hvs & _) (st & rest & Hsearch).
      destruct (load_settings_returns E p data items st rest
                  Hci Hvs Hfile Hjson Hkeys Hsearch) as [p' Hp'].
      exists p'. split; [exact Hp'|].
      pose proof (load_settings_missing_keys E p data items p'
                    Hfile Hjson Hp') as (H1 & H2 & H3 & H4 & H5).
      unfold settings_keys in Hkeys.
      repeat match goal with
             | H : Forall _ (_ :: _) |- _ => apply Forall_cons in H as [? H]
             end.
      assert (Hc : category_index p' = 0%Z) by (apply H5; [lia|assumption]).
      repeat split; [apply H3|apply H4|apply H1|apply H2|exact Hc|];
        try lia; try assumption.
      unfold category_currentText. now rewrite Hc.
Qed.

Lemma load_settings_defaults_witness :
  (let E := Fixtures.env_offline in
   let p := widgets (Fixtures.fresh ∅) in
   sys_files (process p) !! settings_file = None /\
   window_as_built p /\
   exists p', load_settings E p = (Ret tt, p') /\ has_default_settings p')
  /\
  (let E := Fixtures.env_serving 200 Fixtures.doc_one_station in
   let data := RawBytes (b_ "{}") in
   let p := widgets (Fixtures.fresh {[ settings_file := data ]}) in
   sys_files (process p) !! settings_file = Some data /\
   json_load_file E data = Ret (JDict []) /\
   Forall (lacks_key []) settings_keys /\
   window_as_built p /\
   (exists st rest,
       fst (search_stations E (JStr (py "classical")) (process p))
       = Ret (st :: rest)) /\
   (forall p', load_settings E p = (Ret tt, p') -> defaults_for_missing [] p') /\
   exists p', load_settings E p = (Ret tt, p') /\ has_default_settings p').
Proof.
  split.
  - intros E p.
    assert (Hfile : sys_files (process p) !! settings_file = None)
      by reflexivity.
    assert (Hbuilt : window_as_built p) by (repeat split).
    split; [exact Hfile|]. split; [exact Hbuilt|].
    exact (proj1 (load_settings_defaults E p) Hfile Hbuilt).
  - intros E data p.
    assert (Hfile : sys_files (process p) !! settings_file = Some data)
      by reflexivity.
    assert (Hjson : json_load_file E data = Ret (JDict [])) by reflexivity.
    assert (Hkeys : Forall (lacks_key []) settings_keys)
      by (repeat constructor).
    assert (Hbuilt : window_as_built p) by (repeat split).
    assert (Hsearch : exists st rest,
               fst (search_stations E (JStr (py "classical")) (process p))
               = Ret (st :: rest)).
    { exists (station_of Fixtures.outline_X), [].
      rewrite search_stations_unfold. reflexivity. }
    split; [exact Hfile|]. split; [exact Hjson|]. split; [exact Hkeys|].
    split; [exact Hbuilt|]. split; [exact Hsearch|].
    destruct (proj2 (load_settings_defaults E p) data [] Hfile Hjson)
      as [Hmissing Hreturns].
    split; [exact Hmissing|]. exact (Hreturns Hkeys Hbuilt Hsearch).
Defined.

(** C6 fails as stated on a corrupted file: with a settings file that is
    not JSON, [load_settings] raises, and so does the creation of the
    window. *)
Lemma load_settings_raises_on_corrupt_file :
  let s := Fixtures.fresh {[ settings_file := RawBytes (b_ "{") ]} in
  fst (load_settings Fixtures.env_offline (widgets s)) = Raise JSONDecodeError /\
  fst (create Fixtures.env_offline s) = Raise JSONDecodeError.
Proof. split; vm_compute; reflexivity. Qed.

(** With a settings object and a search that finds nothing, indexing the
    empty station list raises. *)
Example load_settings_empty_search :
  let s := Fixtures.fresh {[ settings_file := RawBytes (b_ "{}") ]} in
  fst (load_settings Fixtures.env_offline (widgets s)) = Raise IndexError.
Proof. vm_compute. reflexivity. Qed.

(** * Further properties of the directory client *)

(** The only exception [resolve_stream_url] raises is the one of the
    decoding. *)
Lemma resolve_raises_decode_only (content : bytes) (e : exn) :
  resolve_stream_url content = Raise e -> e = UnicodeDecodeError.
Proof.
  intros H. destruct (decode_utf8 content) as [text|] eqn:Hd.
  - destruct (resolve_result_shape content text Hd) as (url & Hu & _).
    congruence.
  - unfold resolve_stream_url in H. rewrite Hd in H. congruence.
Qed.

(** X1. [get_station_stream_url] makes one request and writes no file. It
    returns the empty string when the request fails in the transport or is
    answered with a 4xx or 5xx status; otherwise it does what
    [resolve_stream_url] does on the body, so that a body that is not UTF-8
    makes it raise [UnicodeDecodeError]: the [except] clause does not cover
    it. *)
Theorem get_station_stream_url_cases (E : env) (station_id : json) (s : sys) :
  fst (get_station_stream_url E station_id s)
  = match tune_request E station_id s with
    | HttpFailure _ => Ret []
    | HttpResponse status body =>
      if is_error_status status then Ret [] else resolve_stream_url body
    end /\
  sys_files (snd (get_station_stream_url E station_id s)) = sys_files s /\
  sys_requests (snd (get_station_stream_url E station_id s))
  = S (sys_requests s).
Proof.
  unfold get_station_stream_url, tune_request, try_except, bind, requests_get.
  destruct (http_get E _ _ _) as [e|status body]; [now repeat split|].
  unfold raise_for_status. cbn [status_code content].
  destruct (is_error_status status); [now repeat split|].
  cbn. unfold lift_outcome.
  destruct (resolve_stream_url body) as [url|e] eqn:Hr; [now repeat split|].
  apply resolve_raises_decode_only in Hr as ->. now repeat split.
Qed.

(** X2. Whatever the answer, [search_stations] makes exactly one request
    and prints exactly one line. The file [response_content.xml] is written
    only once [raise_for_status] has let the response through; when the
    request fails or the status is 4xx or 5xx, the files are as before. *)
Theorem search_stations_effects (E : env) (query : json) (s : sys) :
  sys_requests (snd (search_stations E query s)) = S (sys_requests s) /\
  (exists line,
      sys_stdout (snd (search_stations E query s)) = sys_stdout s ++ [line]) /\
  sys_files (snd (search_stations E query s))
  = match search_request E query s with
    | HttpFailure _ => sys_files s
    | HttpResponse status body =>
      if is_error_status status then sys_files s
      else <["response_content.xml" := RawBytes body]> (sys_files s)
    end.
Proof.
  rewrite search_stations_unfold. cbn zeta.
  destruct (search_request E query s) as [e|status body];
    [cbn; repeat split; eexists; reflexivity|].
  destruct (is_error_status status);
    [cbn; repeat split; eexists; reflexivity|].
  destruct (xml_fromstring E body); cbn; repeat split; eexists; reflexivity.
Qed.

(** X3. A URL that [resolve_stream_url] takes out of a playlist is a single
    line: whenever the result is not the whole decoded text, it is a
    contiguous piece of that text and holds no line boundary (no final
    carriage return for a playlist with CR LF line ends). *)
Theorem resolve_entry_single_line (content : bytes) (text url : str) :
  decode_utf8 content = Some text ->
  resolve_stream_url content = Ret url ->
  url = text \/ (no_linebreak url /\ infix_of url text).
Proof.
  intros Hd Hr.
  destruct (resolve_result_shape content text Hd) as (url' & Hu & Hshape).
  rewrite Hr in Hu. injection Hu as <-.
  destruct Hshape as [->|(line & Hin & Hl)]; [now left|right].
  apply splitlines_lines in Hin as [Hnb Hi].
  destruct Hl as [->| ->]; [now split|].
  apply Forall_app in Hnb as [_ Hnb]. split; [exact Hnb|].
  destruct Hi as (pre & post & ->).
  exists (pre ++ py "File1="), post. now rewrite <- !app_assoc.
Qed.

Lemma resolve_entry_single_line_witness :
  let content := b_ "#EXTM3U" ++ [x0d; x0a] ++ b_ "http://stream.example/a.mp3"
                 ++ [x0d; x0a] in
  let text := py "#EXTM3U" ++ [13; 10] ++ py "http://stream.example/a.mp3"
              ++ [13; 10] in
  let url := py "http://stream.example/a.mp3" in
  decode_utf8 content = Some text /\
  resolve_stream_url content = Ret url /\
  (url = text \/ (no_linebreak url /\ infix_of url text)).
Proof.
  intros content text url.
  split; [reflexivity|]. split; [reflexivity|].
  apply (resolve_entry_single_line content text url); reflexivity.
Defined.

(** * Further properties of the player *)

Lemma tuned_refl (p : player) : tuned p p.
Proof. now repeat split. Qed.

Lemma tuned_trans (p q r : player) : tuned p q -> tuned q r -> tuned p r.
Proof.
  intros (H1 & H2 & H3 & H4) (K1 & K2 & K3 & K4).
  split; [congruence|]. split; [congruence|]. split; [congruence|].
  intros Hp. destruct (H4 Hp) as (A1 & A2 & A3).
  destruct (K4 ltac:(congruence)) as (B1 & B2 & B3).
  repeat split; congruence.
Qed.

(** The window after [play] and after [pause]. *)
Lemma play_run (p : player) :
  exists p',
    play p = (Ret tt, p') /\
    settled p' = settled p /\ listing p' = listing p /\
    media_calls p' = media_calls p ++ [Play] /\
    is_playing p' = JBool true /\ play_pause_text p' = "Pause"%string /\
    sys_files (process p')
    = <[settings_file := JsonDump (settings_of p')]> (sys_files (process p)) /\
    sys_requests (process p') = sys_requests (process p).
Proof.
  destruct p. unfold play, bind, log, on_sys, print, modify, player_call,
    save_settings, gets, write_file, bind, on_sys, modify.
  cbn. eexists. repeat split.
Qed.

Lemma pause_run (p : player) :
  exists p',
    pause p = (Ret tt, p') /\
    settled p' = settled p /\ listing p' = listing p /\
    media_calls p' = media_calls p ++ [Pause] /\
    is_playing p' = JBool false /\ play_pause_text p' = "Play"%string /\
    sys_files (process p')
    = <[settings_file := JsonDump (settings_of p')]> (sys_files (process p)) /\
    sys_requests (process p') = sys_requests (process p).
Proof.
  destruct p. unfold pause, bind, log, on_sys, print, modify, player_call,
    save_settings, gets, write_file, bind, on_sys, modify.
  cbn. eexists. repeat split.
Qed.

(** [set_channel] returns in every case; it changes the process and the
    calls on the media player, nothing else. *)
Lemma set_channel_run (E : env) (url : option str) (p : player) :
  exists s',
    set_channel E url p
    = (Ret tt,
       set_process s'
         (set_media_calls
            (media_calls p ++
             match fetched_stream E url (process p) with
             | Ret r => [SetSource (QUrl_of r)]
             | Raise _ => [SetSource noise_url; Play]
             end) p)) /\
    sys_files s' = sys_files (process p) /\
    sys_requests s'
    = match url with
      | Some _ => S (sys_requests (process p))
      | None => sys_requests (process p)
      end.
Proof.
  destruct p as [v r m t vs ss ci its i f d cci pl ch s].
  unfold set_channel, fetched_stream, try_except, bind, log, play_noise,
    requests_get_url, on_sys, print, modify, player_call, bind, log, on_sys,
    print, modify, raise, requests_get, lift_outcome.
  cbn [process set_process media_calls set_media_calls sys_files sys_stdout
       sys_requests content fst snd is_Exception].
  destruct url as [u|]; cbn;
    [|eexists; split; [rewrite <- app_assoc; reflexivity|now split]].
  destruct (http_get E (sys_requests s) u []) as [e|status body]; cbn;
    [eexists; split; [rewrite <- app_assoc; reflexivity|now split]|].
  destruct (resolve_stream_url body) as [url|e]; cbn;
    eexists; (split; [try rewrite <- app_assoc; reflexivity|now split]).
Qed.

(** Splits the conjunctions of the goal, not what is defined as one. *)
Ltac conjs := repeat match goal with |- _ /\ _ => split end.

Lemma settled_fields (p q : player) :
  settled q = settled p ->
  audio_volume q = audio_volume p /\ playback_rate q = playback_rate p /\
  volume_slider q = volume_slider p /\ speed_slider q = speed_slider p /\
  category_index q = category_index p /\ focus q = focus p /\
  dialogs q = dialogs p /\
  current_channel_index q = current_channel_index p.
Proof. intros H. injection H. intros. now conjs. Qed.

Lemma tuned_effects (p : player) (s' : sys) (m : list media_call) :
  sys_files s' !! noise_file = sys_files (process p) !! noise_file ->
  sys_files s' !! settings_file = sys_files (process p) !! settings_file ->
  tuned p (set_process s' (set_media_calls m p)).
Proof. intros Hn Hs. destruct p. cbn in *. now repeat split. Qed.

Lemma tuned_box (p : player) (l : list (str * option str)) (i : Z) :
  tuned p (set_channel_index i (set_channel_items l p)).
Proof. destruct p. now repeat split. Qed.

Lemma tuned_channels (p : player) (l : list station) :
  tuned p (set_channels l p).
Proof. destruct p. now repeat split. Qed.

Lemma tuned_play (p p' : player) :
  truthy (is_playing p) = true ->
  settled p' = settled p -> is_playing p' = JBool true ->
  sys_files (process p')
  = <[settings_file := JsonDump (settings_of p')]> (sys_files (process p)) ->
  tuned p p'.
Proof.
  intros Hpl Hs Hp Hf. split; [exact Hs|]. split; [now rewrite Hp, Hpl|].
  split; [rewrite Hf; now apply lookup_insert_ne|]. congruence.
Qed.

(** [if self.is_playing: self.play()] *)
Lemma play_if_playing_run (p : player) :
  exists p',
    (q <- gets id ;; if truthy (is_playing q) then play else ret tt) p
    = (Ret tt, p') /\
    tuned p p' /\ listing p' = listing p /\
    media_calls p'
    = media_calls p ++ (if truthy (is_playing p) then [Play] else []) /\
    sys_requests (process p') = sys_requests (process p).
Proof.
  unfold bind at 1. cbn [gets id].
  destruct (truthy (is_playing p)) eqn:Hpl.
  - destruct (play_run p) as (p' & -> & Hs & Hl & Hm & Hp & _ & Hf & Hr).
    exists p'. conjs; try assumption; [reflexivity|now apply tuned_play].
  - exists p. rewrite app_nil_r. conjs; try reflexivity. apply tuned_refl.
Qed.

Lemma channel_selected_run (E : env) (index : Z) (p : player) :
  exists p',
    channel_selected E index p = (Ret tt, p') /\
    tuned p p' /\ listing p' = listing p /\
    media_calls p'
    = media_calls p ++
      (if (0 <=? index)%Z then
         match fetched_stream E (itemData (channel_items p) index) (process p) with
         | Ret r => [SetSource (QUrl_of r)]
         | Raise _ => [SetSource noise_url; Play]
         end ++ (if truthy (is_playing p) then [Play] else [])
       else []) /\
    sys_requests (process p')
    = (sys_requests (process p)
       + if (0 <=? index)%Z
         then requests_for (itemData (channel_items p) index) else 0)%nat.
Proof.
  unfold channel_selected. destruct (0 <=? index)%Z.
  - unfold bind at 1. cbn [gets id]. unfold bind at 1.
    destruct (set_channel_run E (itemData (channel_items p) index) p)
      as (s' & -> & Hf & Hr).
    match goal with |- context [bind (gets id) _ ?q] => set (p1 := q) end.
    destruct (play_if_playing_run p1) as (p' & -> & Ht & Hl & Hm & Hr').
    exists p'. split; [reflexivity|].
    assert (Ht1 : tuned p p1) by (apply tuned_effects; now rewrite Hf).
    split; [exact (tuned_trans _ _ _ Ht1 Ht)|].
    split; [rewrite Hl; now destruct p|].
    rewrite Hm, Hr'. subst p1. destruct p. cbn in *.
    split; [now rewrite <- app_assoc|].
    rewrite Hr. unfold requests_for. destruct (itemData _ _); lia.
  - exists p. rewrite app_nil_r. conjs; try reflexivity; [apply tuned_refl|lia].
Qed.

Lemma emit_channel_selected_run (E : env) (index : Z) (p : player) :
  exists p',
    emit (channel_selected E index) p = (Ret tt, p') /\
    tuned p p' /\ listing p' = listing p /\
    sys_requests (process p')
    = (sys_requests (process p)
       + if (0 <=? index)%Z
         then requests_for (itemData (channel_items p) index) else 0)%nat.
Proof.
  destruct (channel_selected_run E index p) as (p' & H & Ht & Hl & _ & Hr).
  exists p'. unfold emit. rewrite H. now conjs.
Qed.

Lemma channel_combo_box_clear_run (E : env) (p : player) :
  exists p',
    channel_combo_box_clear E p = (Ret tt, p') /\
    tuned p p' /\ channels p' = channels p /\
    channel_items p' = [] /\ channel_index p' = (-1)%Z /\
    media_calls p' = media_calls p /\
    sys_requests (process p') = sys_requests (process p).
Proof.
  unfold channel_combo_box_clear, bind, gets, modify. cbn [id].
  destruct (channel_index p =? -1)%Z.
  - eexists. split; [reflexivity|]. split; [apply tuned_box|].
    now destruct p.
  - unfold emit, channel_selected. cbn [Z.leb Z.compare ret].
    eexists. split; [reflexivity|]. split; [apply tuned_box|].
    now destruct p.
Qed.

Lemma channel_combo_box_addItem_run (E : env) (text data : option str)
      (p : player) :
  exists p',
    channel_combo_box_addItem E text data p = (Ret tt, p') /\
    tuned p p' /\ channels p' = channels p /\
    channel_items p' = channel_items p ++ [(default [] text, data)] /\
    channel_index p'
    = match channel_items p with [] => 0%Z | _ => channel_index p end /\
    sys_requests (process p')
    = (sys_requests (process p)
       + match channel_items p with [] => requests_for data | _ => 0 end)%nat.
Proof.
  unfold channel_combo_box_addItem. unfold bind at 1. cbn [gets id].
  unfold bind at 1. cbn [modify].
  destruct (channel_items p) as [|it its] eqn:Hits.
  - unfold bind at 1. cbn [modify].
    match goal with |- context [emit _ ?q] => set (p1 := q) end.
    destruct (emit_channel_selected_run E 0 p1) as (p' & -> & Ht & Hl & Hr).
    exists p'. split; [reflexivity|].
    assert (Ht1 : tuned p p1) by apply tuned_box.
    split; [exact (tuned_trans _ _ _ Ht1 Ht)|].
    injection Hl as Hc Hi Hx. rewrite Hc, Hi, Hx, Hr. subst p1.
    now destruct p.
  - eexists. split; [reflexivity|].
    split; [destruct p; now repeat split|].
    destruct p; cbn in *. subst. conjs; try reflexivity. lia.
Qed.

(** The loop of [populate_channel_combo_box] over stations that have the
    two keys it reads. *)
Lemma populate_loop_run (E : env) (l : list station) :
  forall p,
    Forall (fun st : station => is_Some (st !! "text") /\ is_Some (st !! "URL")) l ->
    exists p',
      for_each l
        (fun station =>
           text <- lift_outcome (station_getitem station "text") ;;
           url <- lift_outcome (station_getitem station "URL") ;;
           channel_combo_box_addItem E text url) p
      = (Ret tt, p') /\
      tuned p p' /\ channels p' = channels p /\
      channel_items p' = channel_items p ++ map item_of l /\
      channel_index p'
      = match channel_items p, l with
        | [], _ :: _ => 0%Z
        | _, _ => channel_index p
        end /\
      sys_requests (process p')
      = (sys_requests (process p)
         + match channel_items p, l with
           | [], st :: _ => requests_for (snd (item_of st))
           | _, _ => 0
           end)%nat.
Proof.
  induction l as [|st l IH]; intros p Hl.
  - exists p. cbn. rewrite app_nil_r. split; [reflexivity|].
    split; [apply tuned_refl|]. destruct (channel_items p); conjs; auto; lia.
  - apply Forall_cons in Hl as [[[text Ht] [url Hu]] Hl].
    cbn [for_each]. unfold bind at 1. unfold bind at 1.
    unfold station_getitem at 1. rewrite Ht. cbn [lift_outcome].
    unfold bind at 1. unfold station_getitem at 1. rewrite Hu.
    cbn [lift_outcome].
    destruct (channel_combo_box_addItem_run E text url p)
      as (p1 & -> & Ht1 & Hc1 & Hi1 & Hx1 & Hr1).
    destruct (IH p1 Hl) as (p' & -> & Ht' & Hc' & Hi' & Hx' & Hr').
    exists p'. split; [reflexivity|].
    split; [exact (tuned_trans _ _ _ Ht1 Ht')|].
    split; [congruence|].
    split.
    + rewrite Hi', Hi1, <- app_assoc. cbn [map app]. unfold item_of at 2.
      cbv zeta. now rewrite Ht, Hu.
    + rewrite Hx', Hr', Hi1, Hx1, Hr1. unfold item_of. cbv zeta.
      rewrite Hu. cbn [snd default from_option id].
      destruct (channel_items p); cbn; (split; [now destruct l|lia]).
Qed.

Lemma tuned_log (p : player) (l : log_line) :
  exists p', log l p = (Ret tt, p') /\ tuned p p' /\ listing p' = listing p /\
             media_calls p' = media_calls p /\
             sys_requests (process p') = sys_requests (process p).
Proof. destruct p. eexists. conjs; try reflexivity. now repeat split. Qed.

Lemma populate_channel_combo_box_run (E : env) (p : player) :
  Forall (fun st : station => is_Some (st !! "text") /\ is_Some (st !! "URL"))
         (channels p) ->
  exists p',
    populate_channel_combo_box E p = (Ret tt, p') /\
    tuned p p' /\ channels p' = channels p /\
    channel_items p' = map item_of (channels p) /\
    channel_index p' = match channels p with [] => (-1)%Z | _ => 0%Z end /\
    sys_requests (process p')
    = (sys_requests (process p)
       + match channels p with
         | st :: _ => requests_for (snd (item_of st))
         | [] => 0
         end)%nat.
Proof.
  intros Hk. unfold populate_channel_combo_box. unfold bind at 1.
  destruct (channel_combo_box_clear_run E p)
    as (p1 & -> & Ht1 & Hc1 & Hi1 & Hx1 & _ & Hr1).
  unfold bind at 1. cbn [gets id]. unfold bind at 1.
  rewrite Hc1.
  destruct (populate_loop_run E (channels p) p1 Hk)
    as (p2 & -> & Ht2 & Hc2 & Hi2 & Hx2 & Hr2).
  unfold bind at 1. cbn [gets id].
  destruct (tuned_log p2 (LogPopulated (length (channels p2))))
    as (p' & -> & Ht3 & Hl3 & _ & Hr3).
  exists p'. split; [reflexivity|].
  split; [exact (tuned_trans _ _ _ Ht1 (tuned_trans _ _ _ Ht2 Ht3))|].
  injection Hl3 as Hc Hi Hx.
  rewrite Hc, Hi, Hx, Hr3, Hc2, Hi2, Hx2, Hr2, Hi1, Hx1, Hc1, Hr1.
  now conjs.
Qed.

Lemma search_stations_other_files (E : env) (query : json) (s : sys)
      (name : string) :
  name <> "response_content.xml"%string ->
  sys_files (snd (search_stations E query s)) !! name = sys_files s !! name.
Proof.
  intros Hn. rewrite search_stations_unfold. cbn zeta.
  destruct (search_request E query s) as [e|status body]; [reflexivity|].
  destruct (is_error_status status); [reflexivity|].
  destruct (xml_fromstring E body); cbn; now apply lookup_insert_ne.
Qed.

Lemma search_stations_requests (E : env) (query : json) (s : sys) :
  sys_requests (snd (search_stations E query s)) = S (sys_requests s).
Proof.
  rewrite search_stations_unfold. cbn zeta.
  destruct (search_request E query s) as [e|status body]; [reflexivity|].
  destruct (is_error_status status); [reflexivity|].
  now destruct (xml_fromstring E body).
Qed.

Lemma get_tunein_stations_found (E : env) (query : json) (p : player) :
  exists s',
    get_tunein_stations E query p
    = (Ret (stations_found E query (process p)), set_process s' p) /\
    sys_files s' = sys_files (snd (search_stations E query (process p))) /\
    sys_requests s' = S (sys_requests (process p)).
Proof.
  pose proof (search_stations_requests E query (process p)) as Hr.
  unfold get_tunein_stations, stations_found, try_except, bind, on_sys, log,
    on_sys, print, modify.
  destruct (search_stations E query (process p)) as [[stations|e] s'];
    cbn in *; destruct p; cbn; eexists; (split; [reflexivity|now split]).
Qed.

Lemma stations_found_keys (E : env) (query : json) (s : sys) :
  Forall (fun st : station => is_Some (st !! "text") /\ is_Some (st !! "URL"))
         (stations_found E query s).
Proof.
  unfold stations_found.
  destruct (fst (search_stations E query s)) as [l|e] eqn:H; [|constructor].
  now apply search_stations_keys in H.
Qed.

Lemma tuned_get_tunein_stations (E : env) (query : json) (p : player) :
  exists p',
    get_tunein_stations E query p
    = (Ret (stations_found E query (process p)), p') /\
    tuned p p' /\ listing p' = listing p /\ media_calls p' = media_calls p /\
    sys_requests (process p') = S (sys_requests (process p)).
Proof.
  destruct (get_tunein_stations_found E query p) as (s' & H & Hf & Hr).
  eexists. split; [exact H|].
  split.
  - destruct p; cbn in *.
    repeat split; cbn; rewrite Hf; now apply search_stations_other_files.
  - destruct p; now conjs.
Qed.

Lemma play_noise_run (p : player) :
  exists s',
    play_noise p
    = (Ret tt,
       set_process s'
         (set_media_calls (media_calls p ++ [SetSource noise_url; Play]) p)) /\
    sys_files s' = sys_files (process p) /\
    sys_requests s' = sys_requests (process p).
Proof.
  destruct p. unfold play_noise, bind, log, on_sys, print, modify, player_call.
  cbn. eexists. split; [rewrite <- app_assoc; reflexivity|now split].
Qed.

Lemma category_selected_run (E : env) (index : Z) (p : player) :
  exists p',
    category_selected E index p = (Ret tt, p') /\
    tuned p p' /\
    channels p'
    = stations_found E
        (JStr (itemText (map (fun t => (t, tt)) category_items) index))
        (process p) /\
    channel_items p' = map item_of (channels p') /\
    channel_index p' = match channels p' with [] => (-1)%Z | _ => 0%Z end /\
    sys_requests (process p')
    = (sys_requests (process p) + 1
       + match channels p' with
         | st :: _ => 2 * requests_for (snd (item_of st))
         | [] => 0
         end)%nat.
Proof.
  unfold category_selected. cbv zeta.
  set (category := itemText _ index).
  pose proof (stations_found_keys E (JStr category) (process p)) as Hk.
  unfold bind at 1.
  destruct (tuned_get_tunein_stations E (JStr category) p)
    as (p1 & -> & Ht1 & _ & _ & Hr1).
  set (found := stations_found E (JStr category) (process p)) in *.
  unfold bind at 1. cbn [modify].
  pose proof (tuned_channels p1 found) as Ht2.
  assert (Hc2 : channels (set_channels found p1) = found) by now destruct p1.
  assert (Hr2 : sys_requests (process (set_channels found p1))
                = sys_requests (process p1)) by now destruct p1.
  set (p2 := set_channels found p1) in *.
  unfold bind at 1.
  destruct (populate_channel_combo_box_run E p2 ltac:(now rewrite Hc2))
    as (p3 & -> & Ht3 & Hc3 & Hi3 & Hx3 & Hr3).
  rewrite Hc2 in Hc3, Hi3, Hx3, Hr3. rewrite Hr2, Hr1 in Hr3.
  pose proof (tuned_trans _ _ _ Ht1 (tuned_trans _ _ _ Ht2 Ht3)) as Ht.
  unfold bind at 1. cbn [gets id]. rewrite Hc3.
  destruct found as [|st rest] eqn:Hfound.
  - destruct (play_noise_run p3) as (s' & -> & Hf & Hr).
    eexists. split; [reflexivity|].
    split.
    { apply (tuned_trans _ _ _ Ht). apply tuned_effects; now rewrite Hf. }
    destruct p3; cbn in *. subst. conjs; try reflexivity. lia.
  - rewrite list_getitem_first. unfold bind at 1. cbn [lift_outcome].
    apply Forall_cons in Hk as [[_ [url Hu]] _].
    unfold bind at 1. unfold station_getitem. rewrite Hu. cbn [lift_outcome].
    unfold bind at 1.
    destruct (set_channel_run E url p3) as (s' & -> & Hf & Hr).
    match goal with |- context [bind (gets id) _ ?q] => set (p4 := q) end.
    assert (Ht4 : tuned p3 p4) by (apply tuned_effects; now rewrite Hf).
    destruct (play_if_playing_run p4) as (p' & -> & Ht5 & Hl5 & _ & Hr5).
    exists p'. split; [reflexivity|].
    split; [exact (tuned_trans _ _ _ Ht (tuned_trans _ _ _ Ht4 Ht5))|].
    injection Hl5 as Hc Hi Hx. rewrite Hc, Hi, Hx, Hr5. subst p4.
    destruct p3; cbn in *. subst. conjs; try reflexivity.
    rewrite Hr, Hr3. unfold item_of. cbv zeta. rewrite Hu.
    cbn [snd default from_option id]. unfold requests_for.
    destruct url; lia.
Qed.

(** X4. [set_channel] never raises. When the request is answered, with
    whatever status, and the body is UTF-8, the resolved URL becomes the
    source of the media player, which is not started. In every other case
    (no URL, failure of the request, a body that is not UTF-8) the noise
    file becomes the source and is played. The playing flag, the button,
    the station list, the channel box and the files are left as they
    were. *)
Theorem set_channel_outcome (E : env) (url : option str) (p : player) :
  exists p',
    set_channel E url p = (Ret tt, p') /\
    media_calls p'
    = media_calls p ++
      match fetched_stream E url (process p) with
      | Ret resolved => [SetSource (QUrl_of resolved)]
      | Raise _ => [SetSource noise_url; Play]
      end /\
    is_playing p' = is_playing p /\
    play_pause_text p' = play_pause_text p /\
    listing p' = listing p /\ settled p' = settled p /\
    sys_files (process p') = sys_files (process p).
Proof.
  destruct (set_channel_run E url p) as (s' & H & Hf & _).
  eexists. split; [exact H|]. destruct p; cbn in *. now conjs.
Qed.

(** X5. [channel_selected] never raises and never touches the station
    list or the channel box. For a negative index it does nothing at all.
    Otherwise it tunes to the URL kept with the item and, when the window
    is playing, calls [play] again. *)
Theorem channel_selected_outcome (E : env) (index : Z) (p : player) :
  exists p',
    channel_selected E index p = (Ret tt, p') /\
    tuned p p' /\ listing p' = listing p /\
    (if (0 <=? index)%Z then
       media_calls p'
       = media_calls p ++
         match fetched_stream E (itemData (channel_items p) index) (process p) with
         | Ret resolved => [SetSource (QUrl_of resolved)]
         | Raise _ => [SetSource noise_url; Play]
         end ++ (if truthy (is_playing p) then [Play] else [])
     else p' = p).
Proof.
  destruct (channel_selected_run E index p) as (p' & H & Ht & Hl & Hm & _).
  exists p'. conjs; try assumption.
  destruct (0 <=? index)%Z eqn:Hi; [exact Hm|].
  unfold channel_selected in H. rewrite Hi in H. now injection H.
Qed.

(** X6. Over stations that have the keys [text] and [URL],
    [populate_channel_combo_box] returns and leaves in the channel box
    exactly one item per station of [self.channels], in the order of the
    list, with the text of the station and its URL as data; the first item
    is the current one. The slot that runs when the first item is added
    does not disturb this. *)
Theorem populate_channel_combo_box_lists_stations (E : env) (p : player) :
  Forall (fun st : station => is_Some (st !! "text") /\ is_Some (st !! "URL"))
         (channels p) ->
  exists p',
    populate_channel_combo_box E p = (Ret tt, p') /\
    channel_items p' = map item_of (channels p) /\
    channel_index p' = match channels p with [] => (-1)%Z | _ => 0%Z end /\
    channels p' = channels p /\ tuned p p'.
Proof.
  intros Hk.
  destruct (populate_channel_combo_box_run E p Hk)
    as (p' & H & Ht & Hc & Hi & Hx & _).
  exists p'. now conjs.
Qed.

Lemma populate_channel_combo_box_lists_stations_witness :
  let E := Fixtures.env_offline in
  let p := set_channels [station_of Fixtures.outline_X; station_of Fixtures.tree_link]
                        (widgets (Fixtures.fresh ∅)) in
  Forall (fun st : station => is_Some (st !! "text") /\ is_Some (st !! "URL"))
         (channels p) /\
  exists p',
    populate_channel_combo_box E p = (Ret tt, p') /\
    channel_items p' = map item_of (channels p) /\
    channel_index p' = match channels p with [] => (-1)%Z | _ => 0%Z end /\
    channels p' = channels p /\ tuned p p'.
Proof.
  intros E p.
  assert (Hk : Forall (fun st : station =>
                         is_Some (st !! "text") /\ is_Some (st !! "URL"))
                      (channels p)).
  { change (channels p)
      with [station_of Fixtures.outline_X; station_of Fixtures.tree_link].
    repeat apply List.Forall_cons; try apply List.Forall_nil;
      rewrite !station_of_copies; split; eexists; reflexivity. }
  split; [exact Hk|].
  exact (populate_channel_combo_box_lists_stations E p Hk).
Defined.

(** X7. [get_tunein_stations] never raises: it returns the stations the
    search returns, and an empty list when the search raises. It makes the
    one request of the search and changes nothing in the window. Each
    station it returns has the key [URL], so the list of URLs it prints has
    one entry for each station. *)
Theorem get_tunein_stations_never_raises (E : env) (query : json) (p : player) :
  exists s',
    get_tunein_stations E query p
    = (Ret (stations_found E query (process p)), set_process s' p) /\
    sys_files s' = sys_files (snd (search_stations E query (process p))) /\
    sys_requests s' = S (sys_requests (process p)) /\
    length (omap (fun st : station => st !! "URL")
                 (stations_found E query (process p)))
    = length (stations_found E query (process p)).
Proof.
  destruct (get_tunein_stations_found E query p) as (s' & H & Hf & Hr).
  exists s'. conjs; try assumption.
  pose proof (stations_found_keys E query (process p)) as Hk.
  clear H Hf Hr.
  induction Hk as [|st l [_ [url Hu]] _ IH]; [reflexivity|].
  cbn. rewrite Hu. cbn. now rewrite IH.
Qed.

(** X8. [category_selected] never raises, whatever the index and the
    answers of the network. It installs the stations found for the text of
    the category (none when the search fails), and when it returns the
    channel box lists exactly these stations, the first one current. None
    of the settings other than the playing flag is touched. *)
Theorem category_selected_outcome (E : env) (index : Z) (p : player) :
  exists p',
    category_selected E index p = (Ret tt, p') /\
    channels p'
    = stations_found E
        (JStr (itemText (map (fun t => (t, tt)) category_items) index))
        (process p) /\
    channel_items p' = map item_of (channels p') /\
    channel_index p' = match channels p' with [] => (-1)%Z | _ => 0%Z end /\
    tuned p p'.
Proof.
  destruct (category_selected_run E index p)
    as (p' & H & Ht & Hc & Hi & Hx & _).
  exists p'. now conjs.
Qed.

(** X19. A category selection makes one request for the search and, when
    a station is found, two for the URL of the first station: one from the
    slot that runs when the first item enters the channel box, one from
    [category_selected] itself. A first station without a URL is not
    requested at all. *)
Theorem category_selected_requests (E : env) (index : Z) (p : player) :
  sys_requests (process (snd (category_selected E index p)))
  = (sys_requests (process p) + 1
     + match channels (snd (category_selected E index p)) with
       | st :: _ => 2 * requests_for (snd (item_of st))
       | [] => 0
       end)%nat.
Proof.
  destruct (category_selected_run E index p) as (p' & -> & _ & _ & _ & _ & Hr).
  exact Hr.
Qed.

Lemma saved_after (p p' : player) :
  sys_files (process p')
  = <[settings_file := JsonDump (settings_of p')]> (sys_files (process p)) ->
  settings_saved p'.
Proof. intros H. unfold settings_saved. rewrite H. apply lookup_insert_eq. Qed.

(** X9. [toggle_play_pause] returns with the playing flag inverted (as a
    [bool], whatever value the settings had given it), the media player
    told to pause or to play accordingly, the label of the button naming
    the opposite action, and the settings file holding the new state. *)
Theorem toggle_play_pause_flips (p : player) :
  exists p',
    toggle_play_pause p = (Ret tt, p') /\
    is_playing p' = JBool (negb (truthy (is_playing p))) /\
    play_pause_text p'
    = (if truthy (is_playing p) then "Play" else "Pause")%string /\
    media_calls p'
    = media_calls p ++ [if truthy (is_playing p) then Pause else Play] /\
    settings_saved p' /\
    settled p' = settled p /\ listing p' = listing p.
Proof.
  unfold toggle_play_pause. unfold bind at 1. cbn [gets id].
  destruct (truthy (is_playing p)).
  - destruct (pause_run p) as (p' & -> & Hs & Hl & Hm & Hp & Ht & Hf & _).
    exists p'. conjs; try assumption; [reflexivity|now apply (saved_after p)].
  - destruct (play_run p) as (p' & -> & Hs & Hl & Hm & Hp & Ht & Hf & _).
    exists p'. conjs; try assumption; [reflexivity|now apply (saved_after p)].
Qed.

(** X10. What [save_settings] writes, [load_settings] reads back: after
    [save_settings] the settings file can be opened, [json.load] gives a
    dict, and the five [get] calls of [load_settings] return the volume,
    the playback rate, the channel index, the playing flag and the text of
    the current category of the window, none of the defaults. No other file
    is written. *)
Theorem save_settings_reads_back (E : env) (p : player) :
  exists s' data settings,
    save_settings p = (Ret tt, set_process s' p) /\
    sys_files s' = <[settings_file := data]> (sys_files (process p)) /\
    read_file settings_file s' = (Ret data, s') /\
    json_load_file E data = Ret settings /\
    dict_get settings (py "volume") (JFloat 0.5)
    = Ret (JFloat (audio_volume p)) /\
    dict_get settings (py "playbackRate") (JFloat 1.0)
    = Ret (JFloat (playback_rate p)) /\
    dict_get settings (py "currentChannelIndex") (JInt 0)
    = Ret (current_channel_index p) /\
    dict_get settings (py "isPlaying") (JBool false) = Ret (is_playing p) /\
    dict_get settings (py "currentCategory") (JStr (py "classical"))
    = Ret (JStr (category_currentText p)).
Proof.
  unfold save_settings, bind, gets, on_sys, write_file, modify. cbn [id].
  eexists _, _, _. split; [reflexivity|]. split; [reflexivity|].
  split.
  { unfold read_file. cbn [sys_files]. now rewrite lookup_insert_eq. }
  split; [reflexivity|]. now conjs.
Qed.

(** X11. [change_volume] and [change_speed] return for every value; each
    changes the one property it is about and then saves, so that the
    settings file holds the settings of the window as it is. The rate set
    for a slider value is [1 + value / 10]. *)
Theorem sliders_save_settings (value : Z) (p : player) :
  (exists p',
      change_volume value p = (Ret tt, p') /\
      settings_saved p' /\
      playback_rate p' = playback_rate p /\ is_playing p' = is_playing p /\
      media_calls p' = media_calls p /\ listing p' = listing p) /\
  (exists p',
      change_speed value p = (Ret tt, p') /\
      settings_saved p' /\
      playback_rate p' = (float_of_Z 1 + int_truediv value 10)%float /\
      audio_volume p' = audio_volume p /\ is_playing p' = is_playing p /\
      media_calls p' = media_calls p /\ listing p' = listing p).
Proof.
  split.
  - unfold change_volume, bind, log, on_sys, print, modify,
      audio_output_setVolume, save_settings, bind, gets, on_sys, write_file,
      modify.
    destruct p. cbn - [to_float32 int_truediv].
    eexists. split; [reflexivity|].
    split; [apply lookup_insert_eq|]. now conjs.
  - unfold change_speed, bind, log, on_sys, print, modify,
      save_settings, bind, gets, on_sys, write_file, modify.
    destruct p. cbn - [float_of_Z int_truediv].
    eexists. split; [reflexivity|].
    split; [apply lookup_insert_eq|]. now conjs.
Qed.

Lemma toggle_play_pause_settled (p : player) :
  exists p', toggle_play_pause p = (Ret tt, p') /\ settled p' = settled p.
Proof.
  unfold toggle_play_pause. unfold bind at 1. cbn [gets id].
  destruct (truthy (is_playing p)).
  - destruct (pause_run p) as (p' & -> & Hs & _). now exists p'.
  - destruct (play_run p) as (p' & -> & Hs & _). now exists p'.
Qed.

(** X12. No method that the user's actions or the media player trigger
    assigns [self.current_channel_index]: choosing a channel or a category
    leaves it, and so every later [save_settings] writes the index that was
    loaded at start. *)
Theorem current_channel_index_not_updated
        (E : env) (index value : Z) (p : player) :
  Forall (fun method : M player unit =>
            current_channel_index (snd (method p)) = current_channel_index p)
         [channel_selected E index; category_selected E index;
          toggle_play_pause; play; pause;
          change_volume value; change_speed value;
          media_error_occurred; save_settings].
Proof.
  assert (Hs : forall q, settled q = settled p ->
                         current_channel_index q = current_channel_index p).
  { intros q Hq. now injection Hq. }
  repeat apply List.Forall_cons; try apply List.Forall_nil.
  - destruct (channel_selected_run E index p) as (p' & -> & [Ht _] & _).
    now apply Hs.
  - destruct (category_selected_run E index p) as (p' & -> & [Ht _] & _).
    now apply Hs.
  - destruct (toggle_play_pause_settled p) as (p' & -> & Ht). now apply Hs.
  - destruct (play_run p) as (p' & -> & Ht & _). now apply Hs.
  - destruct (pause_run p) as (p' & -> & Ht & _). now apply Hs.
  - now destruct p.
  - now destruct p.
  - now destruct p.
  - now destruct p.
Qed.


Lemma holds_from_spec (lo : Z) (n : nat) (f : Z -> bool) (v : Z) :
  holds_from lo n f = true -> (lo <= v < lo + Z.of_nat n)%Z -> f v = true.
Proof.
  unfold holds_from. rewrite forallb_forall. intros H Hv.
  specialize (H (Z.to_nat (v - lo))).
  replace (lo + Z.of_nat (Z.to_nat (v - lo)))%Z with v in H by lia.
  apply H. apply in_seq. lia.
Qed.

Lemma change_volume_volume (value : Z) (p : player) :
  audio_volume (snd (change_volume value p))
  = let v32 := to_float32 (int_truediv value 100) in
    if PrimFloat.ltb v32 0 then 0%float
    else if PrimFloat.ltb 1 v32 then 1%float else v32.
Proof. now destruct p. Qed.

(** X14. For a position [value] of the volume slider (0 to 100),
    [change_volume] stores the volume [value / 100] as the audio output
    keeps it, between 0 and 1. The position [load_settings] later computes
    from that volume, [int(volume * 100)], is [value] or [value - 1]: the
    conversion truncates, and the stored volume can lie just below
    [value / 100]. *)
Theorem volume_slider_round_trip (value : Z) (p : player) :
  (0 <= value <= 100)%Z ->
  let volume := audio_volume (snd (change_volume value p)) in
  volume = to_float32 (int_truediv value 100) /\
  PrimFloat.leb 0 volume = true /\ PrimFloat.leb volume 1 = true /\
  (restored_percent volume = Ret value \/
   restored_percent volume = Ret (value - 1)%Z).
Proof.
  intros Hv. cbv zeta. rewrite change_volume_volume. cbv zeta.
  set (ok := fun v : Z =>
         let v32 := to_float32 (int_truediv v 100) in
         negb (PrimFloat.ltb v32 0) && negb (PrimFloat.ltb 1 v32)
         && PrimFloat.leb 0 v32 && PrimFloat.leb v32 1
         && match restored_percent v32 with
            | Ret z => (z =? v)%Z || (z =? v - 1)%Z
            | Raise _ => false
            end).
  assert (Hall : holds_from 0 101 ok = true) by (vm_compute; reflexivity).
  pose proof (holds_from_spec 0 101 ok value Hall ltac:(lia)) as H.
  unfold ok in H. cbv zeta in H.
  apply andb_true_iff in H as [H Hpc].
  apply andb_true_iff in H as [H Hle1].
  apply andb_true_iff in H as [H Hle0].
  apply andb_true_iff in H as [Hlt0 Hlt1].
  apply negb_true_iff in Hlt0, Hlt1. rewrite Hlt0, Hlt1.
  conjs; try assumption; [reflexivity|].
  destruct (restored_percent _) as [z|e]; [|discriminate].
  apply orb_true_iff in Hpc as [K|K];
    apply Z.eqb_eq in K; subst z; [now left|now right].
Qed.

Lemma volume_slider_round_trip_witness :
  let p := widgets (Fixtures.fresh ∅) in
  let volume := audio_volume (snd (change_volume 29 p)) in
  (0 <= 29 <= 100)%Z /\
  volume = to_float32 (int_truediv 29 100) /\
  PrimFloat.leb 0 volume = true /\ PrimFloat.leb volume 1 = true /\
  (restored_percent volume = Ret 29%Z \/
   restored_percent volume = Ret (29 - 1)%Z).
Proof.
  intros p volume. split; [lia|].
  apply (volume_slider_round_trip 29 p). lia.
Defined.

(** At position 29 the slider comes back at 28. *)
Example volume_29_restored_as_28 :
  restored_percent
    (audio_volume (snd (change_volume 29 (widgets (Fixtures.fresh ∅)))))
  = Ret 28%Z.
Proof. vm_compute. reflexivity. Qed.

Lemma change_speed_rate (value : Z) (p : player) :
  playback_rate (snd (change_speed value p))
  = (float_of_Z 1 + int_truediv value 10)%float.
Proof. now destruct p. Qed.

(** X15. Over the range of the speed slider (-10 to 10) the rate
    [change_speed] sets lies between 0 and 2, and it is 0, which stops the
    playback, exactly at the lowest position. *)
Theorem speed_slider_rates (value : Z) (p : player) :
  (-10 <= value <= 10)%Z ->
  let rate := playback_rate (snd (change_speed value p)) in
  PrimFloat.leb 0 rate = true /\ PrimFloat.leb rate 2 = true /\
  PrimFloat.eqb rate 0 = (value =? -10)%Z.
Proof.
  intros Hv. cbv zeta. rewrite change_speed_rate.
  set (ok := fun v : Z =>
         let rate := (float_of_Z 1 + int_truediv v 10)%float in
         PrimFloat.leb 0 rate && PrimFloat.leb rate 2
         && Bool.eqb (PrimFloat.eqb rate 0) (v =? -10)%Z).
  assert (Hall : holds_from (-10) 21 ok = true) by (vm_compute; reflexivity).
  pose proof (holds_from_spec (-10) 21 ok value Hall ltac:(lia)) as H.
  unfold ok in H. cbv zeta in H.
  repeat (apply andb_true_iff in H as [H ?]).
  conjs; try assumption. now apply Bool.eqb_prop.
Qed.

Lemma speed_slider_rates_witness :
  let p := widgets (Fixtures.fresh ∅) in
  let rate := playback_rate (snd (change_speed (-10) p)) in
  (-10 <= -10 <= 10)%Z /\
  PrimFloat.leb 0 rate = true /\ PrimFloat.leb rate 2 = true /\
  PrimFloat.eqb rate 0 = (-10 =? -10)%Z.
Proof.
  intros p rate. split; [lia|].
  apply (speed_slider_rates (-10) p). lia.
Defined.

(** ** Creating the window *)

Lemma json_load_file_safe (E : env) (data : file_content) :
  not_FileNotFound (json_load_file E data).
Proof.
  destruct data as [b|v]; cbn; [|exact I].
  now destruct (json_load E b).
Qed.

Lemma dict_get_safe (d : json) (key : str) (default : json) :
  not_FileNotFound (dict_get d key default).
Proof.
  destruct d; cbn; try reflexivity.
  now destruct (List.find _ items) as [[k v]|].
Qed.

(** Indexing an empty list raises, whatever the index. *)
Lemma list_getitem_nil {A} (i : json) (x : A) : list_getitem [] i <> Ret x.
Proof.
  destruct i; cbn; try discriminate;
    (match goal with
     | |- (if ?c then _ else _) <> _ => destruct c eqn:Hb; [|discriminate]
     end);
    apply andb_true_iff in Hb as [H1 H2];
    apply Z.leb_le in H1; apply Z.ltb_lt in H2;
    change (Z.of_nat 0) with 0%Z in *; lia.
Qed.

Lemma silent_found (E : env) (query : json) (s : sys) :
  directory_silent E -> stations_found E query s = [].
Proof.
  intros H. specialize (H query s). unfold stations_found.
  now destruct (fst (search_stations E query s)) as [[|st l]|e].
Qed.

Lemma volume_slider_setValue_returns (value : Z) (p : player) :
  exists p', volume_slider_setValue value p = (Ret tt, p').
Proof.
  unfold volume_slider_setValue, bind, gets. cbn [id].
  destruct (_ =? _)%Z; [now eexists|].
  unfold modify, emit, change_volume, bind, log, on_sys, print, modify,
    audio_output_setVolume, save_settings, bind, gets, on_sys, write_file,
    modify.
  cbn - [to_float32 int_truediv]. now eexists.
Qed.

(** With a settings file in place and a directory that yields no station,
    [load_settings] does not return: whatever the file holds, the [try]
    block raises before its end, at the latest when it indexes the empty
    station list, and the exception is not [FileNotFoundError]. *)
Lemma load_settings_raises_without_stations (E : env) (p : player) :
  directory_silent E ->
  is_Some (sys_files (process p) !! settings_file) ->
  exists e, fst (load_settings E p) = Raise e /\ is_FileNotFoundError e = false.
Proof.
  intros Hsilent [data Hfile].
  set (T := fun _ : player => True).
  assert (HT : stable T) by (split; intros; exact I).
  set (X := fun (e : exn) (_ : player) => is_FileNotFoundError e = false).
  assert (Hbody : triple (fun q => q = p) (load_settings E)
                         (fun _ _ => False) X).
  { unfold load_settings. apply triple_try_except with (X1 := X).
    2:{ intros e He q Hq. unfold X in Hq. congruence. }
    2:{ auto. }
    apply triple_bind with (Q := fun _ => T).
    { apply triple_on_sys. intros q ->. unfold read_file. rewrite Hfile.
      exact I. }
    intros d.
    apply triple_lift_safe; [apply json_load_file_safe|intros settings _].
    apply triple_lift_safe; [apply dict_get_safe|intros volume _].
    apply triple_lift_safe; [apply dict_get_safe|intros rate _].
    apply triple_lift_safe; [apply dict_get_safe|intros idx _].
    apply triple_bind with (Q := fun _ => T);
      [apply triple_modify; intros; exact I|intros _].
    apply triple_lift_safe; [apply dict_get_safe|intros playing _].
    apply triple_bind with (Q := fun _ => T);
      [apply triple_modify; intros; exact I|intros _].
    apply triple_lift_safe; [apply dict_get_safe|intros category _].
    apply triple_lift_safe; [apply as_number_safe|intros volume_n _].
    apply triple_lift_safe; [apply to_double_safe|intros volume_d _].
    apply triple_bind with (Q := fun _ => T);
      [intros q _; exact I|intros _].
    apply triple_lift_safe; [apply int_of_number_safe|intros percent _].
    apply triple_lift_safe; [apply to_c_int_safe|intros percent' _].
    apply triple_bind with (Q := fun _ => T).
    { intros q _. now destruct (volume_slider_setValue_returns percent' q)
        as [q' ->]. }
    intros _.
    apply triple_lift_safe; [apply as_number_safe|intros rate_n _].
    apply triple_lift_safe; [apply to_double_safe|intros rate_d _].
    apply triple_bind with (Q := fun _ => T);
      [apply triple_modify; intros; exact I|intros _].
    apply triple_lift_safe; [apply as_qstring_safe|intros text _].
    apply triple_bind with (Q := fun _ => T).
    { apply total_weaken, total_category_combo_box_setCurrentText; auto. }
    intros _.
    apply triple_bind with (Q := fun stations _ => stations = []).
    { intros q _.
      destruct (tuned_get_tunein_stations E category q) as (q' & -> & _).
      now apply silent_found. }
    intros stations.
    apply triple_bind with (Q := fun _ q => channels q = []).
    { apply triple_modify. intros q ->. now destruct q. }
    intros _.
    assert (HI : stable (fun q => channels q = []))
      by (split; now intros []).
    apply triple_bind with (Q := fun _ q => channels q = []).
    { apply (triple_conseq _ _ _ _ _ _ _
               (populate_channel_combo_box_kept E _ HI)); auto.
      now intros e q [_ ->]. }
    intros _. apply triple_gets_bind. intros q Hq. rewrite Hq.
    apply triple_lift_safe; [apply list_getitem_safe|intros station Hst].
    now apply list_getitem_nil in Hst. }
  specialize (Hbody p eq_refl).
  destruct (load_settings E p) as [[[]|e] p']; [contradiction|]. now exists e.
Qed.

Lemma create_unfold (E : env) (s : sys) :
  create E s
  = (load_settings E ;; initial_load E ;;
     modify (set_focus (Some ChannelComboBox))) (built E s).
Proof. reflexivity. Qed.

Lemma built_files (E : env) (s : sys) :
  sys_files (process (built E s))
  = <[noise_file := RawBytes (noise_wav E)]> (sys_files s).
Proof. reflexivity. Qed.

(** X16. Once a settings file exists, the window cannot be created while
    the directory yields no station (no network, an error status, no
    match): whatever the file holds, [load_settings] raises, at the latest
    [IndexError] or [TypeError] on [self.channels[...]], and nothing in
    [__init__] catches it. *)
Theorem startup_fails_without_stations (E : env) (s : sys) :
  directory_silent E ->
  is_Some (sys_files s !! settings_file) ->
  exists e,
    fst (load_settings E (built E s)) = Raise e /\
    fst (create E s) = Raise e /\
    is_FileNotFoundError e = false.
Proof.
  intros Hsilent Hfile.
  destruct (load_settings_raises_without_stations E (built E s) Hsilent)
    as (e & He & Hne).
  { rewrite built_files. now rewrite lookup_insert_ne. }
  exists e. split; [exact He|]. split; [|exact Hne].
  rewrite create_unfold. unfold bind at 1.
  destruct (load_settings E (built E s)) as [[u|e'] p']; cbn in He;
    [discriminate|exact He].
Qed.

Lemma env_offline_silent : directory_silent Fixtures.env_offline.
Proof. intros query s. now rewrite search_stations_unfold. Qed.

Lemma startup_fails_without_stations_witness :
  let E := Fixtures.env_offline in
  let s := Fixtures.fresh {[ settings_file := JsonDump (JDict []) ]} in
  directory_silent E /\
  is_Some (sys_files s !! settings_file) /\
  exists e,
    fst (load_settings E (built E s)) = Raise e /\
    fst (create E s) = Raise e /\
    is_FileNotFoundError e = false.
Proof.
  intros E s.
  assert (Hfile : is_Some (sys_files s !! settings_file))
    by (eexists; reflexivity).
  split; [exact env_offline_silent|]. split; [exact Hfile|].
  exact (startup_fails_without_stations E s env_offline_silent Hfile).
Defined.

(** The [try] statement of [__init__] returns in every case. *)
Lemma initial_load_returns (E : env) (p : player) :
  exists p', initial_load E p = (Ret tt, p').
Proof.
  unfold initial_load, try_except.
  match goal with |- context [match ?c p with _ => _ end] => destruct (c p) as [[[]|e] p1] end.
  - now eexists.
  - cbn. now eexists.
Qed.

(** X17. Creating the window raises exactly when [load_settings] raises,
    with the same exception: the initial channel load that follows turns
    each of its own exceptions into an error dialog. *)
Theorem create_raises_as_load_settings (E : env) (s : sys) :
  fst (create E s)
  = match fst (load_settings E (built E s)) with
    | Ret _ => Ret tt
    | Raise e => Raise e
    end.
Proof.
  rewrite create_unfold. unfold bind at 1.
  destruct (load_settings E (built E s)) as [[u|e] p1]; [|reflexivity].
  unfold bind at 1.
  destruct (initial_load_returns E p1) as [p2 ->]. reflexivity.
Qed.

(** The initial channel load on a window whose channel index is 0. *)
Lemma initial_load_run (E : env) (p : player) :
  current_channel_index p = JInt 0 ->
  exists p',
    initial_load E p = (Ret tt, p') /\
    tuned p (set_dialogs (dialogs p) p') /\
    channels p'
    = stations_found E (JStr (category_currentText p)) (process p) /\
    dialogs p'
    = dialogs p ++ match channels p' with
                   | [] => [ValueError "No channels found"]
                   | _ => []
                   end.
Proof.
  intros Hcci. unfold initial_load, try_except.
  set (query := JStr (category_currentText p)).
  pose proof (stations_found_keys E query (process p)) as Hk.
  unfold bind at 1. cbn [gets id].
  change (JStr (category_currentText p)) with query.
  unfold bind at 1.
  destruct (tuned_get_tunein_stations E query p) as (p1 & -> & Ht1 & _).
  set (found := stations_found E query (process p)) in *.
  unfold bind at 1. cbn [modify].
  pose proof (tuned_channels p1 found) as Ht2.
  assert (Hc2 : channels (set_channels found p1) = found) by now destruct p1.
  set (p2 := set_channels found p1) in *.
  pose proof (tuned_trans _ _ _ Ht1 Ht2) as Ht12.
  destruct found as [|st rest] eqn:Hfound.
  - unfold bind at 1. cbn [raise is_Exception show_error_message].
    eexists. split; [reflexivity|].
    destruct Ht12 as (Hs & Hp & Hn & Hr).
    assert (Hd : dialogs p2 = dialogs p) by now injection Hs.
    destruct p2; cbn in *. subst. conjs; try reflexivity.
    split; [exact Hs|]. now split.
  - unfold bind at 1. cbn [ret]. unfold bind at 1.
    destruct (populate_channel_combo_box_run E p2 ltac:(now rewrite Hc2))
      as (p3 & -> & Ht3 & Hc3 & _).
    pose proof (tuned_trans _ _ _ Ht12 Ht3) as Ht.
    unfold bind at 1. cbn [gets id]. rewrite Hc3, Hc2.
    assert (Hcci3 : current_channel_index p3 = JInt 0).
    { destruct Ht as [Hs _]. injection Hs as _ _ _ _ _ _ _ ->. exact Hcci. }
    rewrite Hcci3, list_getitem_first.
    unfold bind at 1. cbn [lift_outcome].
    apply Forall_cons in Hk as [[_ [url Hu]] _].
    unfold bind at 1. unfold station_getitem. rewrite Hu. cbn [lift_outcome].
    destruct (set_channel_run E url p3) as (s' & -> & Hf & _).
    eexists. split; [reflexivity|].
    assert (Ht4 : tuned p3 (set_process s' (set_media_calls
              (media_calls p3 ++
               match fetched_stream E url (process p3) with
               | Ret r => [SetSource (QUrl_of r)]
               | Raise _ => [SetSource noise_url; Play]
               end) p3)))
      by (apply tuned_effects; now rewrite Hf).
    pose proof (tuned_trans _ _ _ Ht Ht4) as (Hs & Hp & Hn & Hr).
    destruct p3 as [v r m t vs ss ci its i f d cci pl ch sp]; cbn in *.
    assert (Hd : d = dialogs p) by now injection Hs.
    subst. split; [split; [exact Hs|now split]|].
    rewrite Hc2. cbn. now rewrite app_nil_r.
Qed.

(** X18. With no settings file the window is always created, whatever
    the network does: the settings are the documented defaults, the button
    reads Play, the channel box has the focus, and the only dialog is the
    one that reports an empty station list. The noise file was written,
    and a settings file still does not exist: it appears only with the
    first play, pause, volume or speed change. *)
Theorem first_start (E : env) (s : sys) :
  sys_files s !! settings_file = None ->
  exists p',
    create E s = (Ret tt, p') /\
    has_default_settings p' /\
    play_pause_text p' = "Play"%string /\
    focus p' = Some ChannelComboBox /\
    channels p'
    = stations_found E (JStr (py "classical")) (process (built E s)) /\
    dialogs p' = match channels p' with
                 | [] => [ValueError "No channels found"]
                 | _ => []
                 end /\
    sys_files (process p') !! settings_file = None /\
    sys_files (process p') !! noise_file = Some (RawBytes (noise_wav E)).
Proof.
  intros Hfile. rewrite create_unfold. unfold bind at 1.
  assert (Hfile' : sys_files (process (built E s)) !! settings_file = None).
  { rewrite built_files. now rewrite lookup_insert_ne. }
  rewrite (load_settings_absent E (built E s) eq_refl eq_refl Hfile').
  set (p1 := set_audio_volume 0.5 _).
  unfold bind at 1.
  destruct (initial_load_run E p1 eq_refl) as (p2 & -> & Ht & Hc & Hd).
  cbn [modify]. eexists. split; [reflexivity|].
  destruct Ht as (Hs & Hp & Hn & Hr).
  destruct (Hr eq_refl) as (Hpl & Htext & Hset).
  change (process p1) with (process (built E s)) in *.
  rewrite built_files in Hn. rewrite lookup_insert_eq in Hn.
  rewrite Hfile' in Hset.
  change (category_currentText p1) with (py "classical") in Hc.
  apply settled_fields in Hs as (Hv & Hrate & _ & _ & Hci & _ & _ & Hcci).
  destruct p2; cbn in *. subst.
  unfold has_default_settings, category_currentText. cbn. now conjs.
Qed.

Lemma first_start_witness :
  let E := Fixtures.env_offline in
  let s := Fixtures.fresh ∅ in
  sys_files s !! settings_file = None /\
  exists p',
    create E s = (Ret tt, p') /\
    has_default_settings p' /\
    play_pause_text p' = "Play"%string /\
    focus p' = Some ChannelComboBox /\
    channels p'
    = stations_found E (JStr (py "classical")) (process (built E s)) /\
    dialogs p' = match channels p' with
                 | [] => [ValueError "No channels found"]
                 | _ => []
                 end /\
    sys_files (process p') !! settings_file = None /\
    sys_files (process p') !! noise_file = Some (RawBytes (noise_wav E)).
Proof.
  intros E s. split; [reflexivity|].
  apply (first_start E s). reflexivity.
Defined.

Lemma resolve_idempotent_everywhere_witness :
  let x := b_ "[playlist]
File1=#EXTM3U
" in
  let r := py "#EXTM3U" in
  resolve_stream_url x = Ret r /\
  exists y, encode_utf8 r = Some y /\ resolve_stream_url y = Ret r.
Proof.
  intros x r. split; [reflexivity|].
  apply (resolve_idempotent_everywhere x r). reflexivity.
Defined.

(** ** Settings overwritten while they are loaded *)

(** While the window is not playing, what tuning may change leaves the
    settings file and the flag alone. *)
Lemma tuned_keeps_file (X : file_content) (q q' : player) :
  tuned q q' ->
  sys_files (process q) !! settings_file = Some X /\
  truthy (is_playing q) = false ->
  sys_files (process q') !! settings_file = Some X /\
  truthy (is_playing q') = false.
Proof.
  intros (_ & Hp & _ & Hr) [Hf Hpl]. destruct (Hr Hpl) as (_ & _ & Hs).
  split; congruence.
Qed.

Lemma category_combo_box_setCurrentText_run (E : env) (text : str) (q : player) :
  exists q',
    category_combo_box_setCurrentText E text q = (Ret tt, q') /\
    exists i, tuned (set_category_index i q) q'.
Proof.
  unfold category_combo_box_setCurrentText.
  destruct (0 <=? findText category_items text 0)%Z.
  - unfold category_combo_box_setCurrentIndex. unfold bind at 1.
    cbn [gets id]. cbv zeta.
    match goal with |- context [if ?b then ret tt else _] => destruct b end.
    + exists q. split; [reflexivity|]. exists (category_index q).
      destruct q. apply tuned_refl.
    + unfold bind at 1. cbn [modify].
      match goal with |- context [emit _ ?q1] => set (p1 := q1) end.
      match goal with |- context [emit (category_selected E ?i)] =>
        destruct (category_selected_run E i p1) as (q' & H & Ht & _)
      end.
      exists q'. unfold emit. rewrite H. split; [reflexivity|].
      eexists. exact Ht.
  - exists q. split; [reflexivity|]. exists (category_index q).
    destruct q. apply tuned_refl.
Qed.

(** Moving the volume slider to a new position runs [change_volume],
    which saves the settings of the window as it is then. *)
Lemma volume_slider_setValue_moved (value : Z) (q : player) :
  Z.max 0 (Z.min 100 value) <> volume_slider q ->
  exists q',
    volume_slider_setValue value q = (Ret tt, q') /\
    settings_saved q' /\
    playback_rate q' = playback_rate q /\
    current_channel_index q' = current_channel_index q /\
    is_playing q' = is_playing q /\
    category_index q' = category_index q.
Proof.
  intros Hv. apply Z.eqb_neq in Hv.
  unfold volume_slider_setValue, bind, gets. cbn [id]. rewrite Hv.
  unfold modify, emit, change_volume, bind, log, on_sys, print, modify,
    audio_output_setVolume, save_settings, bind, gets, on_sys, write_file,
    modify.
  destruct q. cbn - [to_float32 int_truediv].
  eexists. split; [reflexivity|]. split; [apply lookup_insert_eq|now conjs].
Qed.

(** X21. An offline start with a settings file also loses settings.
    [load_settings] moves the volume slider before it restores the rate
    and the category; when the saved volume is not the one of the slider,
    the slot [change_volume] runs and saves the settings of the window as
    it is at that moment. With a directory that yields no station and a
    saved state that is not playing, [load_settings] then raises, and the
    settings file is left with the playback rate and the category the
    window had before the load, not the saved ones. *)
Theorem load_settings_overwrites_settings
        (E : env) (p : player) (data : file_content)
        (items : list (str * json)) (v : float) (percent : Z) :
  directory_silent E ->
  sys_files (process p) !! settings_file = Some data ->
  json_load_file E data = Ret (JDict items) ->
  dict_value items (py "volume") (JFloat 0.5) = JFloat v ->
  restored_percent v = Ret percent ->
  (-2147483648 <= percent <= 2147483647)%Z ->
  Z.max 0 (Z.min 100 percent) <> volume_slider p ->
  truthy (dict_value items (py "isPlaying") (JBool false)) = false ->
  exists e p' volume,
    load_settings E p = (Raise e, p') /\
    sys_files (process p') !! settings_file
    = Some (JsonDump (JDict
        [(py "volume", JFloat volume);
         (py "playbackRate", JFloat (playback_rate p));
         (py "currentChannelIndex",
          dict_value items (py "currentChannelIndex") (JInt 0));
         (py "isPlaying", dict_value items (py "isPlaying") (JBool false));
         (py "currentCategory", JStr (category_currentText p))])).
Proof.
  intros Hsilent Hfile Hjson Hvol Hpc Hrange Hslider Hplaying.
  set (idx := dict_value items (py "currentChannelIndex") (JInt 0)) in *.
  set (playing := dict_value items (py "isPlaying") (JBool false)) in *.
  destruct p as [v0 r m t vs ss ci its i f d cci pl ch s].
  cbn [process volume_slider playback_rate] in *.
  unfold load_settings, try_except.
  unfold bind at 1. unfold on_sys at 1, read_file. cbn [process].
  rewrite Hfile. cbn [set_process].
  unfold bind at 1. rewrite Hjson. cbn [lift_outcome].
  rewrite !dict_get_JDict. rewrite Hvol. fold idx playing.
  unfold bind at 1. cbn [lift_outcome].
  unfold bind at 1. cbn [lift_outcome].
  unfold bind at 1. cbn [lift_outcome].
  unfold bind at 1. cbn [modify set_current_channel_index].
  unfold bind at 1. cbn [lift_outcome].
  unfold bind at 1. cbn [modify set_is_playing].
  unfold bind at 1. cbn [lift_outcome].
  unfold bind at 1. cbn [lift_outcome as_number].
  unfold bind at 1. cbn [lift_outcome to_double].
  unfold bind at 1. unfold audio_output_setVolume at 1.
  cbn [modify set_audio_volume].
  change (int_of_number (number_mul_int (NumFloat v) 100))
    with (restored_percent v).
  rewrite Hpc.
  unfold bind at 1. cbn [lift_outcome].
  assert (Hc : to_c_int percent = Ret percent).
  { unfold to_c_int.
    replace ((-2147483648 <=? percent) && (percent <=? 2147483647))%Z
      with true; [reflexivity|].
    symmetry. apply andb_true_iff. split; apply Z.leb_le; lia. }
  rewrite Hc. unfold bind at 1. cbn [lift_outcome].
  unfold bind at 1.
  match goal with
  | |- context [volume_slider_setValue percent ?q] =>
    destruct (volume_slider_setValue_moved percent q Hslider)
      as (p_b & -> & Hsaved & Hrate & Hcci & Hpl & Hci)
  end.
  cbn [playback_rate current_channel_index is_playing category_index]
    in Hrate, Hcci, Hpl, Hci.
  match goal with
  | |- context [match ?c p_b with _ => _ end] => set (K := c)
  end.
  set (X := JsonDump (settings_of p_b)).
  set (J := fun q : player =>
              sys_files (process q) !! settings_file = Some X /\
              truthy (is_playing q) = false).
  assert (HJ : J p_b).
  { split; [exact Hsaved|]. now rewrite Hpl. }
  assert (Hlift : forall {A B} (o : outcome A) (k : A -> M player B)
                    (P : player -> Prop),
             not_FileNotFound o -> (forall q, P q -> J q) ->
             (forall a, triple P (k a) (fun _ _ => False)
                          (fun e q => is_FileNotFoundError e = false /\ J q)) ->
             triple P (bind (lift_outcome o) k) (fun _ _ => False)
                    (fun e q => is_FileNotFoundError e = false /\ J q)).
  { intros A B o k P Ho HP Hk. apply triple_lift_bind.
    destruct o as [a|e]; [apply Hk|]. intros q Hq. split; [exact Ho|auto]. }
  assert (HK : triple J K (fun _ _ => False)
                      (fun e q => is_FileNotFoundError e = false /\ J q)).
  { subst K.
    apply Hlift; [apply as_number_safe|auto|intros rate_n].
    apply Hlift; [apply to_double_safe|auto|intros rate_d].
    apply triple_bind with (Q := fun _ => J).
    { apply triple_modify. intros q Hq. now destruct q. }
    intros _.
    apply Hlift; [apply as_qstring_safe|auto|intros text].
    apply triple_bind with (Q := fun _ => J).
    { intros q Hq.
      destruct (category_combo_box_setCurrentText_run E text q)
        as (q' & -> & i' & Ht).
      apply (tuned_keeps_file X _ _ Ht). now destruct q. }
    intros _.
    apply triple_bind with (Q := fun stations q => stations = [] /\ J q).
    { intros q Hq.
      match goal with |- context [get_tunein_stations E ?c q] =>
        destruct (tuned_get_tunein_stations E c q) as (q' & -> & Ht & _)
      end.
      split; [now apply silent_found|exact (tuned_keeps_file X _ _ Ht Hq)]. }
    intros stations.
    apply triple_bind with (Q := fun _ q => channels q = [] /\ J q).
    { apply triple_modify. intros q [-> Hq]. now destruct q. }
    intros _.
    apply triple_bind with (Q := fun _ q => channels q = [] /\ J q).
    { intros q [Hch Hq].
      destruct (populate_channel_combo_box_run E q ltac:(now rewrite Hch))
        as (q' & -> & Ht & Hc' & _).
      split; [congruence|exact (tuned_keeps_file X _ _ Ht Hq)]. }
    intros _. apply triple_gets_bind. intros q [Hch Hq]. rewrite Hch.
    apply triple_lift_bind.
    destruct (list_getitem [] (current_channel_index q)) eqn:Hg;
      [now apply list_getitem_nil in Hg|].
    intros q' ->. split; [|exact Hq].
    pose proof (list_getitem_safe (@nil station) (current_channel_index q)) as Hs.
    now rewrite Hg in Hs. }
  specialize (HK p_b HJ).
  destruct (K p_b) as [[a|e] p'] eqn:HKp; [contradiction|].
  destruct HK as [Hne [Hf _]]. rewrite Hne.
  exists e, p', (audio_volume p_b). split; [reflexivity|].
  rewrite Hf. unfold X, settings_of, category_currentText.
  now rewrite Hrate, Hcci, Hpl, Hci.
Qed.

Lemma load_settings_overwrites_settings_witness :
  let E := Fixtures.env_offline in
  let items := [(py "volume", JFloat 0.75);
                (py "playbackRate", JFloat 1.5);
                (py "currentChannelIndex", JInt 0);
                (py "isPlaying", JBool false);
                (py "currentCategory", JStr (py "jazz"))] in
  let data := JsonDump (JDict items) in
  let p := built E (Fixtures.fresh {[ settings_file := data ]}) in
  directory_silent E /\
  sys_files (process p) !! settings_file = Some data /\
  json_load_file E data = Ret (JDict items) /\
  dict_value items (py "volume") (JFloat 0.5) = JFloat 0.75 /\
  restored_percent 0.75 = Ret 75%Z /\
  (-2147483648 <= 75 <= 2147483647)%Z /\
  Z.max 0 (Z.min 100 75) <> volume_slider p /\
  truthy (dict_value items (py "isPlaying") (JBool false)) = false /\
  exists e p' volume,
    load_settings E p = (Raise e, p') /\
    sys_files (process p') !! settings_file
    = Some (JsonDump (JDict
        [(py "volume", JFloat volume);
         (py "playbackRate", JFloat (playback_rate p));
         (py "currentChannelIndex",
          dict_value items (py "currentChannelIndex") (JInt 0));
         (py "isPlaying", dict_value items (py "isPlaying") (JBool false));
         (py "currentCategory", JStr (category_currentText p))])).
Proof.
  intros E items data p.
  assert (H2 : sys_files (process p) !! settings_file = Some data)
    by reflexivity.
  assert (H3 : json_load_file E data = Ret (JDict items)) by reflexivity.
  assert (H4 : dict_value items (py "volume") (JFloat 0.5) = JFloat 0.75)
    by reflexivity.
  assert (H5 : restored_percent 0.75 = Ret 75%Z) by (vm_compute; reflexivity).
  assert (H6 : (-2147483648 <= 75 <= 2147483647)%Z) by lia.
  assert (H7 : Z.max 0 (Z.min 100 75) <> volume_slider p)
    by (vm_compute; discriminate).
  assert (H8 : truthy (dict_value items (py "isPlaying") (JBool false)) = false)
    by reflexivity.
  split; [exact env_offline_silent|]. split; [exact H2|]. split; [exact H3|].
  split; [exact H4|]. split; [exact H5|]. split; [exact H6|].
  split; [exact H7|]. split; [exact H8|].
  exact (load_settings_overwrites_settings E p data items 0.75 75
           env_offline_silent H2 H3 H4 H5 H6 H7 H8).
Defined.

(** The saved rate 1.5 and the saved category jazz are replaced by 1.0 and
    classical. *)
Example offline_start_example :
  let E := Fixtures.env_offline in
  let data := JsonDump (JDict [(py "volume", JFloat 0.75);
                               (py "playbackRate", JFloat 1.5);
                               (py "currentChannelIndex", JInt 0);
                               (py "isPlaying", JBool false);
                               (py "currentCategory", JStr (py "jazz"))]) in
  let r := create E (Fixtures.fresh {[ settings_file := data ]}) in
  fst r = Raise IndexError /\
  sys_files (process (snd r)) !! settings_file
  = Some (JsonDump (JDict [(py "volume", JFloat 0.75);
                           (py "playbackRate", JFloat 1.0);
                           (py "currentChannelIndex", JInt 0);
                           (py "isPlaying", JBool false);
                           (py "currentCategory", JStr (py "classical"))])).
Proof. split; vm_compute; reflexivity. Qed.

Lemma restored_focus (p : player) (w : option widget) :
  restored p -> restored (set_focus w p).
Proof. now destruct p. Qed.

(** X22. When [load_settings] finds a settings file and returns, its last
    act was [play] or [pause]: the playing flag is a [bool] whatever the
    file held, the last call on the media player is [play] when the flag
    is true (playback starts by itself) and [pause] otherwise, the label of
    the button agrees with the flag, the settings file holds the settings
    of the window as restored, and the channel box has the focus. *)
Theorem load_settings_ends_saved (E : env) (p : player) :
  is_Some (sys_files (process p) !! settings_file) ->
  fst (load_settings E p) = Ret tt ->
  restored (snd (load_settings E p)) /\
  focus (snd (load_settings E p)) = Some ChannelComboBox.
Proof.
  intros [data Hfile] Hret.
  set (T := fun _ : player => True).
  assert (HT : stable T) by (split; intros; exact I).
  set (X := fun (e : exn) (_ : player) => is_FileNotFoundError e = false).
  set (Q := fun q => restored q /\ focus q = Some ChannelComboBox).
  assert (Hbody : triple (fun q => q = p) (load_settings E)
                         (fun _ => Q) (fun _ _ => True)).
  { unfold load_settings. apply triple_try_except with (X1 := X).
    2:{ intros e He q Hq. unfold X in Hq. congruence. }
    2:{ auto. }
    apply triple_bind with (Q := fun _ => T).
    { apply triple_on_sys. intros q ->. unfold read_file. rewrite Hfile.
      exact I. }
    intros d.
    apply triple_lift_safe; [apply json_load_file_safe|intros settings _].
    apply triple_lift_safe; [apply dict_get_safe|intros volume _].
    apply triple_lift_safe; [apply dict_get_safe|intros rate _].
    apply triple_lift_safe; [apply dict_get_safe|intros idx _].
    apply triple_bind with (Q := fun _ => T);
      [apply triple_modify; intros; exact I|intros _].
    apply triple_lift_safe; [apply dict_get_safe|intros playing _].
    apply triple_bind with (Q := fun _ => T);
      [apply triple_modify; intros; exact I|intros _].
    apply triple_lift_safe; [apply dict_get_safe|intros category _].
    apply triple_lift_safe; [apply as_number_safe|intros volume_n _].
    apply triple_lift_safe; [apply to_double_safe|intros volume_d _].
    apply triple_bind with (Q := fun _ => T);
      [intros q _; exact I|intros _].
    apply triple_lift_safe; [apply int_of_number_safe|intros percent _].
    apply triple_lift_safe; [apply to_c_int_safe|intros percent' _].
    apply triple_bind with (Q := fun _ => T).
    { intros q _. now destruct (volume_slider_setValue_returns percent' q)
        as [q' ->]. }
    intros _.
    apply triple_lift_safe; [apply as_number_safe|intros rate_n _].
    apply triple_lift_safe; [apply to_double_safe|intros rate_d _].
    apply triple_bind with (Q := fun _ => T);
      [apply triple_modify; intros; exact I|intros _].
    apply triple_lift_safe; [apply as_qstring_safe|intros text _].
    apply triple_bind with (Q := fun _ => T).
    { apply total_weaken, total_category_combo_box_setCurrentText; auto. }
    intros _.
    apply triple_bind with (Q := fun _ => T).
    { apply total_weaken, total_get_tunein_stations; auto. }
    intros stations.
    apply triple_bind with (Q := fun _ => T);
      [apply triple_modify; intros; exact I|intros _].
    apply triple_bind with (Q := fun _ => T).
    { apply (triple_conseq _ _ _ _ _ _ _
               (populate_channel_combo_box_kept E _ HT)); auto.
      now intros e q [_ ->]. }
    intros _. apply triple_gets_bind. intros q _.
    apply (triple_pre T); [|now intros].
    apply triple_lift_safe; [apply list_getitem_safe|intros station _].
    apply triple_lift_safe; [apply station_getitem_safe|intros url _].
    apply triple_bind with (Q := fun _ => T).
    { apply total_weaken, total_set_channel; auto. }
    intros _. apply triple_gets_bind. intros q' _.
    apply triple_bind with (Q := fun _ => restored).
    { intros q1 _. destruct (truthy (is_playing q')).
      - destruct (play_run q1) as (q2 & -> & _ & _ & Hm & Hp & Ht & Hf & _).
        split; [exact (saved_after _ _ Hf)|].
        exists true. conjs; try assumption. eexists; exact Hm.
      - destruct (pause_run q1) as (q2 & -> & _ & _ & Hm & Hp & Ht & Hf & _).
        split; [exact (saved_after _ _ Hf)|].
        exists false. conjs; try assumption. eexists; exact Hm. }
    intros _. apply triple_modify. intros q1 Hq1.
    split; [now apply restored_focus|now destruct q1]. }
  specialize (Hbody p eq_refl).
  destruct (load_settings E p) as [[[]|e] p']; [exact Hbody|discriminate].
Qed.

Lemma load_settings_ends_saved_witness :
  let E := Fixtures.env_serving 200 Fixtures.doc_one_station in
  let data := JsonDump (JDict [(py "isPlaying", JBool true)]) in
  let p := built E (Fixtures.fresh {[ settings_file := data ]}) in
  is_Some (sys_files (process p) !! settings_file) /\
  fst (load_settings E p) = Ret tt /\
  restored (snd (load_settings E p)) /\
  focus (snd (load_settings E p)) = Some ChannelComboBox.
Proof.
  intros E data p.
  assert (H1 : is_Some (sys_files (process p) !! settings_file))
    by (eexists; reflexivity).
  assert (H2 : fst (load_settings E p) = Ret tt) by (vm_compute; reflexivity).
  split; [exact H1|]. split; [exact H2|].
  exact (load_settings_ends_saved E p H1 H2).
Defined.
